(** * PingAnalyzator: ping-log parser, hourly aggregation and disconnection detector

    A shallow embedding of [main.py].  Python [str] values are modelled as
    [string] (one [ascii] per character, so the regular-expression class
    [\d] is the ASCII digits), Python [int] as [Z], a naive [datetime] as a
    record of its six calendar fields, and the [datetime64] columns of the
    pandas frame as the number of seconds on the naive time line.  Code that
    can raise returns [option]; [None] stands for the exception.  The
    percentage columns, floats in the source, are modelled as exact
    rationals. *)

From Stdlib Require Import String Ascii ZArith List Bool Lia QArith Sorted Permutation.
Import ListNotations.
Local Open Scope string_scope.
Local Open Scope list_scope.
Local Open Scope Z_scope.

(** ** Text primitives: the string methods and regular expressions used *)

Definition is_digit (c : ascii) : bool :=
  let n := nat_of_ascii c in (48 <=? n)%nat && (n <=? 57)%nat.

(** [str.isspace] on the ASCII range: tab, LF, VT, FF, CR, FS, GS, RS, US
    and the space. *)
Definition is_space (c : ascii) : bool :=
  let n := nat_of_ascii c in
  ((9 <=? n)%nat && (n <=? 13)%nat) || ((28 <=? n)%nat && (n <=? 32)%nat).

Definition is_empty (s : string) : bool :=
  match s with EmptyString => true | String _ _ => false end.

Fixpoint lstrip (s : string) : string :=
  match s with
  | EmptyString => EmptyString
  | String c s' => if is_space c then lstrip s' else s
  end.

Fixpoint rstrip (s : string) : string :=
  match s with
  | EmptyString => EmptyString
  | String c s' =>
      let r := rstrip s' in
      if is_space c && is_empty r then EmptyString else String c r
  end.

(** [line.strip()] *)
Definition strip (s : string) : string := rstrip (lstrip s).

(** Removes the literal [p] from the front of [s], when it is there. *)
Fixpoint strip_prefix (p s : string) : option string :=
  match p with
  | EmptyString => Some s
  | String a p' =>
      match s with
      | EmptyString => None
      | String b s' => if Ascii.eqb a b then strip_prefix p' s' else None
      end
  end.

Definition starts_with (p s : string) : bool :=
  match strip_prefix p s with Some _ => true | None => false end.

(** [p in s] *)
Fixpoint contains (p s : string) : bool :=
  starts_with p s ||
  match s with
  | EmptyString => false
  | String _ s' => contains p s'
  end.

(** The longest run of digits at the front of [s] (a greedy [\d*]) and what
    follows it. *)
Fixpoint span_digits (s : string) : string * string :=
  match s with
  | EmptyString => (EmptyString, EmptyString)
  | String c s' =>
      if is_digit c
      then let '(d, r) := span_digits s' in (String c d, r)
      else (EmptyString, s)
  end.

Definition digit_value (c : ascii) : Z := Z.of_nat (nat_of_ascii c) - 48.

Fixpoint int_acc (acc : Z) (s : string) : Z :=
  match s with
  | EmptyString => acc
  | String c s' => int_acc (10 * acc + digit_value c) s'
  end.

(** [int(s)] on a string of digits (the interpreter's cap on the number of
    digits it converts is left out). *)
Definition int_of_digits (s : string) : Z := int_acc 0 s.

(** A fixed-width pattern: one character class per position.  Returns the
    matched text and the rest. *)
Fixpoint match_classes (pat : list (ascii -> bool)) (s : string)
  : option (string * string) :=
  match pat with
  | [] => Some (EmptyString, s)
  | cls :: pat' =>
      match s with
      | EmptyString => None
      | String c s' =>
          if cls c
          then match match_classes pat' s' with
               | Some (m, r) => Some (String c m, r)
               | None => None
               end
          else None
      end
  end.

Definition lit (a : ascii) : ascii -> bool := Ascii.eqb a.

(** [\d{4}/\d{2}/\d{2} \d{2}:\d{2}:\d{2}] *)
Definition datetime_pattern : list (ascii -> bool) :=
  [is_digit; is_digit; is_digit; is_digit; lit "/";
   is_digit; is_digit; lit "/"; is_digit; is_digit; lit " ";
   is_digit; is_digit; lit ":"; is_digit; is_digit; lit ":";
   is_digit; is_digit]%char.

(** [re.match(r'(\d{4}/\d{2}/\d{2} \d{2}:\d{2}:\d{2})', line)], giving
    [group(1)]. *)
Definition re_match_datetime (line : string) : option string :=
  match match_classes datetime_pattern line with
  | Some (m, _) => Some m
  | None => None
  end.

(** [time=(\d+)ms] anchored at the front of [s].  The digit run is greedy;
    giving digits back cannot help, since what follows a shorter run is a
    digit and not [m]. *)
Definition time_at (s : string) : option Z :=
  match strip_prefix "time=" s with
  | None => None
  | Some r =>
      let '(d, r') := span_digits r in
      if negb (is_empty d) && starts_with "ms" r'
      then Some (int_of_digits d) else None
  end.

(** [re.search(r'time=(\d+)ms', line)] followed by [int(group(1))]: the
    leftmost position at which the pattern matches. *)
Fixpoint re_search_time (s : string) : option Z :=
  match time_at s with
  | Some n => Some n
  | None =>
      match s with
      | EmptyString => None
      | String _ s' => re_search_time s'
      end
  end.

(** [Target Host=(\d+\.\d+\.\d+\.\d+)] anchored at the front of [s], giving
    [group(1)]. *)
Definition host_at (s : string) : option string :=
  match strip_prefix "Target Host=" s with
  | None => None
  | Some r0 =>
      let '(a, r1) := span_digits r0 in
      match strip_prefix "." r1 with
      | None => None
      | Some r2 =>
          let '(b, r3) := span_digits r2 in
          match strip_prefix "." r3 with
          | None => None
          | Some r4 =>
              let '(c, r5) := span_digits r4 in
              match strip_prefix "." r5 with
              | None => None
              | Some r6 =>
                  let '(d, _) := span_digits r6 in
                  if is_empty a || is_empty b || is_empty c || is_empty d
                  then None
                  else Some (a ++ "." ++ b ++ "." ++ c ++ "." ++ d)%string
              end
          end
      end
  end.

(** [re.search(r'Target Host=(\d+\.\d+\.\d+\.\d+)', first_line)] *)
Fixpoint re_search_host (s : string) : option string :=
  match host_at s with
  | Some h => Some h
  | None =>
      match s with
      | EmptyString => None
      | String _ s' => re_search_host s'
      end
  end.

(** ** Naive datetimes *)

Record datetime := mk_datetime {
  year : Z; month : Z; day : Z; hour_of : Z; minute : Z; second : Z
}.

Definition is_leap (y : Z) : bool :=
  (y mod 4 =? 0) && (negb (y mod 100 =? 0) || (y mod 400 =? 0)).

Definition days_in_month (y m : Z) : Z :=
  if m =? 2 then (if is_leap y then 29 else 28)
  else if (m =? 4) || (m =? 6) || (m =? 9) || (m =? 11) then 30
  else 31.

(** What the [datetime] constructor accepts. *)
Definition valid_datetime (d : datetime) : bool :=
  (1 <=? year d) && (year d <=? 9999) &&
  (1 <=? month d) && (month d <=? 12) &&
  (1 <=? day d) && (day d <=? days_in_month (year d) (month d)) &&
  (0 <=? hour_of d) && (hour_of d <=? 23) &&
  (0 <=? minute d) && (minute d <=? 59) &&
  (0 <=? second d) && (second d <=? 59).

Definition slice (start len : nat) (s : string) : Z :=
  int_of_digits (substring start len s).

(** [datetime.strptime(s, '%Y/%m/%d %H:%M:%S')] on the 19-character strings
    the data-line pattern lets through: the six fields are read off their
    columns, and a field out of range (month 13, 30 February, second 60,
    year 0) raises [ValueError], here [None]. *)
Definition strptime (s : string) : option datetime :=
  match match_classes datetime_pattern s with
  | Some (_, EmptyString) =>
      let d := mk_datetime (slice 0 4 s) (slice 5 2 s) (slice 8 2 s)
                           (slice 11 2 s) (slice 14 2 s) (slice 17 2 s) in
      if valid_datetime d then Some d else None
  | _ => None
  end.

(** [timestamp.replace(minute=0, second=0)] *)
Definition replace_hour (d : datetime) : datetime :=
  mk_datetime (year d) (month d) (day d) (hour_of d) 0 0.

Definition days_before_year (y : Z) : Z :=
  let y' := y - 1 in y' * 365 + y' / 4 - y' / 100 + y' / 400.

Definition days_before_month (y m : Z) : Z :=
  (if m =? 1 then 0 else if m =? 2 then 31 else if m =? 3 then 59
   else if m =? 4 then 90 else if m =? 5 then 120 else if m =? 6 then 151
   else if m =? 7 then 181 else if m =? 8 then 212 else if m =? 9 then 243
   else if m =? 10 then 273 else if m =? 11 then 304 else 334)
  + (if (2 <? m) && is_leap y then 1 else 0).

(** [date.toordinal()] *)
Definition toordinal (d : datetime) : Z :=
  days_before_year (year d) + days_before_month (year d) (month d) + day d.

(** Seconds on the naive time line: the integer a [datetime64] column holds
    for [d], up to the choice of origin and unit. *)
Definition to_seconds (d : datetime) : Z :=
  toordinal d * 86400 + hour_of d * 3600 + minute d * 60 + second d.

(** ** read_ping_data *)

Inductive result := success | failure.

Definition result_eqb (a b : result) : bool :=
  match a, b with
  | success, success | failure, failure => true
  | _, _ => false
  end.

(** One dict of [ping_data]. *)
Record ping := mk_ping {
  timestamp : datetime;
  hour : datetime;
  result_of : result;
  response_time : option Z
}.

(** What one line of the loop does: nothing, a dict appended, or the
    [except] branch, which prints the line and goes on. *)
Inductive line_outcome :=
| Skipped
| Appended (p : ping)
| ParseError (line : string).

Definition parse_line (raw : string) : line_outcome :=
  let line := strip raw in
  match re_match_datetime line with
  | None => Skipped
  | Some timestamp_str =>
      match strptime timestamp_str with
      | None => ParseError line
      | Some ts =>
          if contains "Reply from" line
          then Appended (mk_ping ts (replace_hour ts) success (re_search_time line))
          else Appended (mk_ping ts (replace_hour ts) failure None)
      end
  end.

Fixpoint parse_lines (lines : list string) : list ping * list string :=
  match lines with
  | [] => ([], [])
  | l :: rest =>
      let '(data, errs) := parse_lines rest in
      match parse_line l with
      | Skipped => (data, errs)
      | Appended p => (p :: data, errs)
      | ParseError m => (data, m :: errs)
      end
  end.

(** The file is its list of lines; [readline] on an exhausted file gives the
    empty string.  Returns the host, the events, and the lines printed by
    the [except] branch. *)
Definition read_ping_data (file : list string)
  : option string * list ping * list string :=
  let first_line := strip (match file with [] => EmptyString | l :: _ => l end) in
  let host_address := re_search_host first_line in
  let '(ping_data, errs) := parse_lines (tl file) in
  (host_address, ping_data, errs).

(** ** The frame of events *)

(** One row of [df = pd.DataFrame(ping_data)]: the two datetimes of the
    dict become points of the seconds line; the row labels are the
    positions 0, 1, 2, ... *)
Record row := mk_row {
  r_timestamp : Z;
  r_hour : Z;
  r_result : result;
  r_response_time : option Z
}.

Definition DataFrame (ping_data : list ping) : list row :=
  map (fun p => mk_row (to_seconds (timestamp p)) (to_seconds (hour p))
                       (result_of p) (response_time p)) ping_data.

(** [df.iloc[k]]: a negative position counts from the end, a position out
    of range raises [IndexError]. *)
Definition iloc (df : list row) (k : Z) : option row :=
  let n := Z.of_nat (length df) in
  let k' := if k <? 0 then k + n else k in
  if (0 <=? k') && (k' <? n) then nth_error df (Z.to_nat k') else None.

Definition is_success (r : row) : bool := result_eqb (r_result r) success.
Definition is_failure (r : row) : bool := result_eqb (r_result r) failure.

Definition count_rows (p : row -> bool) (df : list row) : Z :=
  Z.of_nat (length (filter p df)).

(** ** Hourly statistics (lines 66-73) *)

Record hourly_row := mk_hourly {
  hs_hour : Z;
  total_pings : Z;
  successful_pings : Z;
  packet_loss_count : Z;
  packet_loss_rate : Q
}.

Fixpoint insert_key (h : Z) (keys : list Z) : list Z :=
  match keys with
  | [] => [h]
  | k :: ks =>
      if h <? k then h :: keys
      else if h =? k then keys
      else k :: insert_key h ks
  end.

(** The group keys of [df.groupby('hour')]: the distinct values of the
    column, in ascending order. *)
Definition group_keys (df : list row) : list Z :=
  fold_right insert_key [] (map r_hour df).

Definition in_hour (h : Z) (r : row) : bool := r_hour r =? h.

Definition percent (part whole : Z) : Q :=
  (inject_Z part / inject_Z whole * inject_Z 100)%Q.

Definition hourly_group (df : list row) (h : Z) : hourly_row :=
  let group := filter (in_hour h) df in
  let total := Z.of_nat (length group) in
  let successful := count_rows is_success group in
  let lost := total - successful in
  mk_hourly h total successful lost (percent lost total).

Definition hourly_stats_of (df : list row) : list hourly_row :=
  map (hourly_group df) (group_keys df).

(** ** Disconnection detection (lines 76-106) *)

(** [current_disconnection] while the run is open. *)
Record open_run := mk_open { o_start_time : Z; o_count : Z }.

(** An element of [disconnections]. *)
Record disconnection := mk_disc {
  start_time : Z;
  count : Z;
  end_time : Z;
  duration : Z
}.

Record detector := mk_detector {
  disconnections : list disconnection;
  failure_count : Z;
  current_disconnection : option open_run
}.

Definition detector_init : detector := mk_detector [] 0 None.

(** Sets [end_time] and [duration] on the open run. *)
Definition close_run (c : open_run) (t : Z) : disconnection :=
  mk_disc (o_start_time c) (o_count c) t (t - o_start_time c).

(** The body of the [for i, row in df.iterrows()] loop. *)
Definition detector_step (disconnect_threshold : Z) (df : list row)
    (i : Z) (r : row) (st : detector) : option detector :=
  match r_result r with
  | failure =>
      let fc := failure_count st + 1 in
      if fc =? disconnect_threshold then
        let start_idx := i - disconnect_threshold + 1 in
        match iloc df start_idx with
        | Some r0 =>
            Some (mk_detector (disconnections st) fc
                    (Some (mk_open (r_timestamp r0) disconnect_threshold)))
        | None => None
        end
      else if fc >? disconnect_threshold then
        match current_disconnection st with
        | Some c =>
            Some (mk_detector (disconnections st) fc
                    (Some (mk_open (o_start_time c) (o_count c + 1))))
        | None => Some (mk_detector (disconnections st) fc None)
        end
      else Some (mk_detector (disconnections st) fc (current_disconnection st))
  | success =>
      match current_disconnection st with
      | Some c =>
          Some (mk_detector (disconnections st ++ [close_run c (r_timestamp r)])
                  0 None)
      | None => Some (mk_detector (disconnections st) 0 None)
      end
  end.

Fixpoint iterrows (T : Z) (df : list row) (i : Z) (rows : list row)
    (st : detector) : option detector :=
  match rows with
  | [] => Some st
  | r :: rest =>
      match detector_step T df i r st with
      | Some st' => iterrows T df (i + 1) rest st'
      | None => None
      end
  end.

(** The detector after the first [k] rows. *)
Definition detector_after (T : Z) (df : list row) (k : nat) : option detector :=
  iterrows T df 0 (firstn k df) detector_init.

Definition detector_loop (T : Z) (df : list row) : option detector :=
  iterrows T df 0 df detector_init.

(** The loop followed by the check for a run open at the end of the file. *)
Definition detect_disconnections (T : Z) (df : list row)
  : option (list disconnection) :=
  match detector_loop T df with
  | None => None
  | Some st =>
      match current_disconnection st with
      | None => Some (disconnections st)
      | Some c =>
          match iloc df (-1) with
          | Some last => Some (disconnections st ++ [close_run c (r_timestamp last)])
          | None => None
          end
      end
  end.

(** ** Hourly disconnection counts (lines 108-131) *)

(** [t.replace(minute=0, second=0, microsecond=0)] on the seconds line. *)
Definition floor_hour (t : Z) : Z := t - t mod 3600.

(** [hourly_disconnection_counts], a dict, as an association list in
    insertion order. *)
Fixpoint dict_incr (h : Z) (d : list (Z * Z)) : list (Z * Z) :=
  match d with
  | [] => [(h, 1)]
  | (k, v) :: rest =>
      if k =? h then (k, v + 1) :: rest else (k, v) :: dict_incr h rest
  end.

Definition hourly_disconnection_counts (ds : list disconnection)
  : list (Z * Z) :=
  fold_left (fun d disc => dict_incr (floor_hour (start_time disc)) d) ds [].

(** A frame of integer columns: the row labels and the named columns. *)
Record frame := mk_frame {
  f_index : list Z;
  f_columns : list (string * list Z)
}.

Fixpoint assoc {A B : Type} (eqb : A -> A -> bool) (k : A) (l : list (A * B))
  : option B :=
  match l with
  | [] => None
  | (k', v) :: rest => if eqb k k' then Some v else assoc eqb k rest
  end.

(** [f[name]]; a missing column raises [KeyError]. *)
Definition getitem (name : string) (f : frame) : option (list Z) :=
  assoc String.eqb name (f_columns f).

(** [pd.DataFrame([{'hour': hour, 'count': count} for ...])]: an empty list
    of records gives a frame with no rows and no columns. *)
Definition frame_of_records (recs : list (Z * Z)) : frame :=
  match recs with
  | [] => mk_frame [] []
  | _ => mk_frame (map Z.of_nat (seq 0 (length recs)))
                  [("hour", map fst recs); ("count", map snd recs)]
  end.

(** [f.empty] *)
Definition frame_empty (f : frame) : bool :=
  match f_index f, f_columns f with
  | [], _ | _, [] => true
  | _, _ => false
  end.

(** [f.set_index(name, inplace=True)] *)
Definition set_index (name : string) (f : frame) : option frame :=
  match getitem name f with
  | Some vals =>
      Some (mk_frame vals
              (filter (fun c => negb (String.eqb name (fst c))) (f_columns f)))
  | None => None
  end.

(** [f.reindex(new_index, fill_value=fill)]: every column is looked up at
    the new labels; a frame without columns keeps none. *)
Definition reindex (new_index : list Z) (fill : Z) (f : frame) : frame :=
  mk_frame new_index
    (map (fun c =>
            (fst c,
             map (fun k => match assoc Z.eqb k (combine (f_index f) (snd c)) with
                           | Some v => v
                           | None => fill
                           end) new_index))
         (f_columns f)).

(** [pd.date_range(start, end, freq='H')] *)
Definition date_range (start stop : Z) : list Z :=
  if start <=? stop
  then map (fun k => start + 3600 * Z.of_nat k)
           (seq 0 (Z.to_nat ((stop - start) / 3600) + 1))
  else [].

Definition column_min (x : Z) (xs : list Z) : Z := fold_left Z.min xs x.
Definition column_max (x : Z) (xs : list Z) : Z := fold_left Z.max xs x.

(** ** analyze_ping_data *)

Record analysis := mk_analysis {
  res_hourly_stats : list hourly_row;
  res_disconnections : list disconnection;
  res_overall_packet_loss_rate : Q;
  res_start_time : Z;
  res_end_time : Z;
  res_duration : Z;
  res_hourly_disconnection_df : frame
}.

(** On an empty [ping_data] the frame has no columns and [df['result']]
    raises [KeyError]. *)
Definition analyze_ping_data (host_address : string) (ping_data : list ping)
    (disconnect_threshold : Z) : option analysis :=
  match DataFrame ping_data with
  | [] => None
  | r0 :: rest =>
      let df := r0 :: rest in
      let start_time := column_min (r_timestamp r0) (map r_timestamp rest) in
      let end_time := column_max (r_timestamp r0) (map r_timestamp rest) in
      let total_pings := Z.of_nat (length df) in
      let successful_pings := count_rows is_success df in
      let failed_pings := total_pings - successful_pings in
      let overall := percent failed_pings total_pings in
      let hourly_stats := hourly_stats_of df in
      match detect_disconnections disconnect_threshold df with
      | None => None
      | Some disconnections =>
          let counts := hourly_disconnection_counts disconnections in
          let hdf := frame_of_records counts in
          match (if frame_empty hdf then Some hdf else set_index "hour" hdf) with
          | None => None
          | Some hdf =>
              let all_hours :=
                date_range (column_min (r_hour r0) (map r_hour rest))
                           (column_max (r_hour r0) (map r_hour rest)) in
              Some (mk_analysis hourly_stats disconnections overall
                      start_time end_time (end_time - start_time)
                      (reindex all_hours 0 hdf))
          end
      end
  end.

(** ** main *)

(** [calculate_disconnection_stats]: average, maximum and minimum duration,
    or nothing when there is no disconnection. *)
Definition calculate_disconnection_stats (ds : list disconnection)
  : option (Q * Z * Z) :=
  match ds with
  | [] => None
  | d :: rest =>
      let durations := map duration ds in
      Some ((inject_Z (fold_right Z.add 0%Z durations)
             / inject_Z (Z.of_nat (length ds)))%Q,
            column_max (duration d) (map duration rest),
            column_min (duration d) (map duration rest))
  end.

(** [s.isdigit()] *)
Fixpoint all_digits (s : string) : bool :=
  match s with
  | EmptyString => true
  | String c s' => is_digit c && all_digits s'
  end.

Definition isdigit (s : string) : bool := negb (is_empty s) && all_digits s.

(** The threshold prompt: the default 3 unless the answer is a number. *)
Definition read_threshold (custom_threshold : string) : Z :=
  if negb (is_empty (strip custom_threshold)) && isdigit custom_threshold
  then int_of_digits custom_threshold
  else 3.

(** What [main] prints, one constructor per message or group of messages. *)
Inductive output :=
| ParseErrorLine (line : string)
| ErrorNoHost
| ErrorNoData
| AnalysisResults (host : string) (r : analysis) (stats : option (Q * Z * Z))
| LossRateChart
| HourlyDisconnectionChart
| DurationChart
| SavedTo
| ErrorOccurred.

(** The charts and the closing message: [plot_hourly_disconnections] reads
    the [count] column, and a [KeyError] there ends the run in the handler
    of [main]. *)
Definition plots (r : analysis) : list output :=
  let tail :=
    (match res_disconnections r with [] => [] | _ => [DurationChart] end)
    ++ [SavedTo] in
  match res_hourly_stats r with
  | [] => tail
  | _ =>
      LossRateChart ::
      match getitem "count" (res_hourly_disconnection_df r) with
      | Some _ => HourlyDisconnectionChart :: tail
      | None => [ErrorOccurred]
      end
  end.

(** [main] on the lines of the file and the answer to the threshold
    prompt. *)
Definition main (file : list string) (custom_threshold : string)
  : list output :=
  let disconnect_threshold := read_threshold custom_threshold in
  let '(host_address, ping_data, errs) := read_ping_data file in
  map ParseErrorLine errs ++
  match host_address with
  | None => [ErrorNoHost]
  | Some host =>
      if is_empty host then [ErrorNoHost]
      else
        match ping_data with
        | [] => [ErrorNoData]
        | _ =>
            match analyze_ping_data host ping_data disconnect_threshold with
            | None => [ErrorOccurred]
            | Some r =>
                AnalysisResults host r
                  (calculate_disconnection_stats (res_disconnections r))
                :: plots r
            end
        end
  end.

(** Messages that carry results of the analysis. *)
Definition is_result (o : output) : bool :=
  match o with
  | AnalysisResults _ _ _ | LossRateChart | HourlyDisconnectionChart
  | DurationChart | SavedTo => true
  | _ => false
  end.

Definition is_error (o : output) : bool :=
  match o with
  | ErrorNoHost | ErrorNoData => true
  | _ => false
  end.

(** ** print_analysis_results: the figures it derives *)

(** [next((i + 1 for i, d in enumerate(disconnections)
          if d['duration'] == v), None)], counting from position [i]. *)
Fixpoint duration_index_from (i v : Z) (ds : list disconnection) : option Z :=
  match ds with
  | [] => None
  | d :: rest =>
      if duration d =? v then Some (i + 1)
      else duration_index_from (i + 1) v rest
  end.

Definition duration_index (v : Z) (ds : list disconnection) : option Z :=
  duration_index_from 0 v ds.

(** [sum(d['count'] for d in disconnections) / len(disconnections)], which
    is computed under [if disconnections:]. *)
Definition avg_count (ds : list disconnection) : Q :=
  (inject_Z (fold_right Z.add 0%Z (map count ds))
   / inject_Z (Z.of_nat (length ds)))%Q.

(** [len(disconnections) / hours_count], computed when [hours_count > 0]. *)
Definition avg_disconnections_per_hour (ds : list disconnection)
    (hourly_stats : list hourly_row) : option Q :=
  let hours_count := Z.of_nat (length hourly_stats) in
  if hours_count >? 0
  then Some (inject_Z (Z.of_nat (length ds)) / inject_Z hours_count)%Q
  else None.

(** ** plot_disconnection_duration_vs_count: the bars it draws *)

(** [{duration: durations.count(duration) for duration in set(durations)}],
    or nothing when there is no disconnection.  The source iterates over a
    set, whose order it leaves open; the keys are listed here in ascending
    order. *)
Definition duration_counts (disconnections : list disconnection)
  : option (list (Z * Z)) :=
  match disconnections with
  | [] => None
  | _ =>
      let durations := map duration disconnections in
      Some (map (fun v => (v, Z.of_nat (count_occ Z.eq_dec durations v)))
                (fold_right insert_key [] durations))
  end.

(** * Vocabulary of the properties *)

(** ** Runs of consecutive failures *)

Definition streak_step (n : nat) (r : row) : nat :=
  if is_failure r then S n else 0%nat.

(** The number of failures at the end of [l]. *)
Definition streak (l : list row) : nat := fold_left streak_step l 0%nat.

Definition failure_at (df : list row) (k : nat) : Prop :=
  exists r, nth_error df k = Some r /\ r_result r = failure.

Definition success_at (df : list row) (k : nat) : Prop :=
  exists r, nth_error df k = Some r /\ r_result r = success.

Definition timestamp_at (df : list row) (k : nat) : option Z :=
  option_map r_timestamp (nth_error df k).

(** Rows [a], ..., [a + c - 1] are a run of [c >= 1] failures that cannot be
    extended on either side. *)
Definition maximal_run (df : list row) (a c : nat) : Prop :=
  (1 <= c)%nat /\ (a + c <= length df)%nat /\
  (forall k, (a <= k < a + c)%nat -> failure_at df k) /\
  (a = 0%nat \/ success_at df (a - 1)) /\
  ((a + c)%nat = length df \/ success_at df (a + c)).

(** Where a run ends: at the success that follows it, or at the last row. *)
Definition run_end (df : list row) (a c : nat) : nat :=
  if (a + c <? length df)%nat then (a + c)%nat else (length df - 1)%nat.

(** Whether a streak of [n] failures has a run open: the threshold is
    positive and the streak has reached it. *)
Definition threshold_met (T : Z) (n : nat) : bool :=
  (1 <=? T) && (T <=? Z.of_nat n).

(** The disconnection [d] reports the maximal run of [snd g] failures that
    starts at row [fst g]: its count is the length of the run, its start the
    time of the first failure, its end the time of the row that ends the
    run. *)
Definition reports (T : Z) (df : list row) (d : disconnection)
    (g : nat * nat) : Prop :=
  maximal_run df (fst g) (snd g) /\
  T <= Z.of_nat (snd g) /\
  timestamp_at df (fst g) = Some (start_time d) /\
  count d = Z.of_nat (snd g) /\
  timestamp_at df (run_end df (fst g) (snd g)) = Some (end_time d) /\
  duration d = end_time d - start_time d.

(** The run [g1] and the row that ends it lie before the run [g2]. *)
Definition precedes (g1 g2 : nat * nat) : Prop :=
  (fst g1 + snd g1 < fst g2)%nat.

Definition sum_counts (ds : list disconnection) : Z :=
  fold_right Z.add 0 (map count ds).

(** What holds of the detector after the rows [pre] of the frame [df]: the
    counter is the streak at the end of [pre]; a run is open exactly when
    the threshold is met, and it starts at the first row of the streak and
    counts its rows; the recorded disconnections report runs that lie, in
    order, before the streak; and they hold no more failures than [pre]. *)
Record detector_inv (T : Z) (df pre : list row) (st : detector) : Prop := {
  inv_counter : failure_count st = Z.of_nat (streak pre);
  inv_current :
    if threshold_met T (streak pre)
    then exists r0,
        nth_error df (length pre - streak pre) = Some r0 /\
        current_disconnection st =
          Some (mk_open (r_timestamp r0) (Z.of_nat (streak pre)))
    else current_disconnection st = None;
  inv_runs :
    exists gs,
      Forall2 (reports T df) (disconnections st) gs /\
      StronglySorted precedes gs /\
      Forall (fun g => (fst g + snd g < length pre - streak pre)%nat) gs;
  inv_sum :
    sum_counts (disconnections st) + Z.of_nat (streak pre)
    <= count_rows is_failure pre
}.

(** Every maximal run of at least [T] failures that is closed within the
    rows [pre] is reported by a recorded disconnection. *)
Definition runs_recorded (T : Z) (df pre : list row) (st : detector) : Prop :=
  forall a c,
    maximal_run df a c -> T <= Z.of_nat c -> (a + c < length pre)%nat ->
    exists d, In d (disconnections st) /\ reports T df d (a, c).

(** ** Hourly counts *)

Definition sum_over (f : Z -> Z) (keys : list Z) : Z :=
  fold_right Z.add 0 (map f keys).

(** The frame of hourly counts before it is reindexed. *)
Definition indexed_counts (counts : list (Z * Z)) : frame :=
  match counts with
  | [] => mk_frame [] []
  | _ => mk_frame (map fst counts) [("count", map snd counts)]
  end.

(** [all_hours]: the hours from the first to the last hour of the data. *)
Definition hours_of (df : list row) : list Z :=
  match df with
  | [] => []
  | r0 :: rest =>
      date_range (column_min (r_hour r0) (map r_hour rest))
                 (column_max (r_hour r0) (map r_hour rest))
  end.

(** The count the dict holds for [h], 0 when [h] is not a key. *)
Definition dict_value (d : list (Z * Z)) (h : Z) : Z :=
  match assoc Z.eqb h d with Some v => v | None => 0 end.

(** The number of disconnections that start in the hour [h]. *)
Definition starts_in_hour (h : Z) (ds : list disconnection) : Z :=
  Z.of_nat (length (filter (fun d => floor_hour (start_time d) =? h) ds)).

(** ** Data lines *)

(** [ts] is nineteen characters of the form [dddd/dd/dd dd:dd:dd]. *)
Definition timestamp_shape (ts : string) : Prop :=
  Forall2 (fun cls c => cls c = true) datetime_pattern (list_ascii_of_string ts).

(** The calendar fields written in a string of the timestamp shape. *)
Definition fields_of (ts : string) : datetime :=
  mk_datetime (slice 0 4 ts) (slice 5 2 ts) (slice 8 2 ts)
              (slice 11 2 ts) (slice 14 2 ts) (slice 17 2 ts).

(** [s] holds a match of [time=<digits>ms] whose digits read [n]. *)
Definition latency_token (s : string) (n : Z) : Prop :=
  exists pre ds post,
    s = (pre ++ "time=" ++ ds ++ "ms" ++ post)%string /\
    ds <> EmptyString /\ all_digits ds = true /\ n = int_of_digits ds.

(** [r] does not go on with a digit. *)
Definition stops_digits (r : string) : Prop :=
  match r with
  | EmptyString => True
  | String c _ => is_digit c = false
  end.

(** [h] is four non-empty groups of digits separated by dots. *)
Definition dotted_quad (h : string) : Prop :=
  exists a b c d,
    h = (a ++ "." ++ b ++ "." ++ c ++ "." ++ d)%string /\
    (a <> EmptyString /\ all_digits a = true) /\
    (b <> EmptyString /\ all_digits b = true) /\
    (c <> EmptyString /\ all_digits c = true) /\
    (d <> EmptyString /\ all_digits d = true).

(** [s] holds [Target Host=] followed by the dotted quad [h]. *)
Definition host_token (s h : string) : Prop :=
  exists pre post,
    s = (pre ++ "Target Host=" ++ h ++ post)%string /\ dotted_quad h.

(** ** Sample logs *)

(** A run of four failures closed by a reply, a noise line, a single
    failure, and a run of three failures open at the end. *)
Definition sample_log : list string :=
  ["Ping log, Target Host=10.0.0.1, interval 1s";
   "2024/03/09 11:59:58 Reply from 10.0.0.1: bytes=32 time=4ms TTL=64";
   "2024/03/09 11:59:59 Request timed out.";
   "2024/03/09 12:00:00 Request timed out.";
   "2024/03/09 12:00:01 Request timed out.";
   "2024/03/09 12:00:02 Request timed out.";
   "2024/03/09 12:00:03 Reply from 10.0.0.1: bytes=32 time<1ms TTL=64";
   "statistics follow";
   "2024/03/09 14:10:00 Request timed out.";
   "2024/03/09 14:10:01 Reply from 10.0.0.1: bytes=32 time=12ms TTL=64";
   "2024/03/09 14:10:02 Request timed out.";
   "2024/03/09 14:10:03 Request timed out.";
   "2024/03/09 14:10:04 Request timed out."].

Definition sample_events : list ping := snd (fst (read_ping_data sample_log)).

(** Three probes logged within one second and a fourth one later; read
    with a threshold of 1. *)
Definition same_second_log : list string :=
  ["Target Host=10.0.0.1";
   "2024/03/09 12:00:00 Request timed out.";
   "2024/03/09 12:00:00 Reply from 10.0.0.1: bytes=32 time=4ms TTL=64";
   "2024/03/09 12:00:00 Request timed out.";
   "2024/03/09 12:00:01 Reply from 10.0.0.1: bytes=32 time=4ms TTL=64"].

Definition same_second_events : list ping :=
  snd (fst (read_ping_data same_second_log)).

(** Three failures and nothing after them. *)
Definition three_failures : list ping :=
  snd (fst (read_ping_data
    ["Target Host=10.0.0.1";
     "2024/03/09 12:00:00 Request timed out.";
     "2024/03/09 12:00:01 Request timed out.";
     "2024/03/09 12:00:02 Request timed out."])).

(** A log without the host on its first line. *)
Definition headless_log : list string :=
  ["ping started";
   "2024/03/09 12:00:00 Reply from 10.0.0.1: bytes=32 time=4ms TTL=64";
   "2024/13/09 12:00:01 Request timed out."].

(** Two replies two hours apart, and no failure. *)
Definition quiet_log : list string :=
  ["Target Host=10.0.0.1";
   "2024/03/09 12:00:00 Reply from 10.0.0.1: bytes=32 time=4ms TTL=64";
   "2024/03/09 14:10:00 Reply from 10.0.0.1: bytes=32 time=5ms TTL=64"].

Definition quiet_events : list ping := snd (fst (read_ping_data quiet_log)).

(** * Properties *)

(** ** Runs of consecutive failures *)

Lemma is_failure_true r : is_failure r = true <-> r_result r = failure.
Proof. unfold is_failure; destruct (r_result r); simpl; split; congruence. Qed.

Lemma is_failure_false r : is_failure r = false <-> r_result r = success.
Proof. unfold is_failure; destruct (r_result r); simpl; split; congruence. Qed.

Lemma streak_snoc l r :
  streak (l ++ [r]) = if is_failure r then S (streak l) else 0%nat.
Proof. unfold streak; rewrite fold_left_app; reflexivity. Qed.

Lemma streak_le l : (streak l <= length l)%nat.
Proof.
  induction l as [|r l IH] using rev_ind; [cbv; lia|].
  rewrite streak_snoc, length_app; simpl.
  destruct (is_failure r); lia.
Qed.

Lemma failure_at_app l l' k : failure_at l k -> failure_at (l ++ l') k.
Proof.
  intros (r & Hr & Hf). exists r; split; [|exact Hf].
  rewrite nth_error_app1; [exact Hr|].
  apply nth_error_Some; congruence.
Qed.

Lemma success_at_app l l' k : success_at l k -> success_at (l ++ l') k.
Proof.
  intros (r & Hr & Hf). exists r; split; [|exact Hf].
  rewrite nth_error_app1; [exact Hr|].
  apply nth_error_Some; congruence.
Qed.

Lemma nth_error_snoc (l : list row) r : nth_error (l ++ [r]) (length l) = Some r.
Proof. rewrite nth_error_app2, Nat.sub_diag; [reflexivity|lia]. Qed.

Lemma streak_failures l k :
  (length l - streak l <= k < length l)%nat -> failure_at l k.
Proof.
  revert k; induction l as [|r l IH] using rev_ind; intros k; [cbv; lia|].
  rewrite streak_snoc, length_app; simpl.
  destruct (is_failure r) eqn:E; [|lia].
  intros Hk. destruct (Nat.eq_dec k (length l)) as [->|Hne].
  - exists r; split; [apply nth_error_snoc|apply is_failure_true, E].
  - apply failure_at_app, IH. lia.
Qed.

Lemma streak_left l :
  (streak l < length l)%nat -> success_at l (length l - streak l - 1).
Proof.
  induction l as [|r l IH] using rev_ind; [cbv; lia|].
  rewrite streak_snoc, length_app; simpl.
  destruct (is_failure r) eqn:E; intros Hlt.
  - replace (length l + 1 - S (streak l) - 1)%nat
      with (length l - streak l - 1)%nat by lia.
    apply success_at_app, IH. lia.
  - replace (length l + 1 - 0 - 1)%nat with (length l) by lia.
    exists r; split; [apply nth_error_snoc|apply is_failure_false, E].
Qed.

Lemma count_failures_snoc l r :
  count_rows is_failure (l ++ [r]) =
  count_rows is_failure l + (if is_failure r then 1 else 0).
Proof.
  unfold count_rows. rewrite filter_app, length_app; simpl.
  destruct (is_failure r); simpl; lia.
Qed.

Lemma iloc_nth df k :
  (k < length df)%nat -> iloc df (Z.of_nat k) = nth_error df k.
Proof.
  intros Hk. unfold iloc.
  destruct (Z.ltb_spec (Z.of_nat k) 0); [lia|].
  destruct (Z.leb_spec 0 (Z.of_nat k)); [|lia].
  destruct (Z.ltb_spec (Z.of_nat k) (Z.of_nat (length df))); [|lia].
  simpl. now rewrite Nat2Z.id.
Qed.

Lemma iloc_last df r l : df = l ++ [r] -> iloc df (-1) = Some r.
Proof.
  intros ->. unfold iloc. rewrite length_app. cbn [length].
  change (-1 <? 0) with true. cbv iota.
  replace (-1 + Z.of_nat (length l + 1)) with (Z.of_nat (length l)) by lia.
  destruct (Z.leb_spec 0 (Z.of_nat (length l))); [|lia].
  destruct (Z.ltb_spec (Z.of_nat (length l)) (Z.of_nat (length l + 1))); [|lia].
  cbn [andb]. rewrite Nat2Z.id. apply nth_error_snoc.
Qed.

Lemma StronglySorted_snoc {A : Type} (R : A -> A -> Prop) l y :
  StronglySorted R l -> Forall (fun x => R x y) l -> StronglySorted R (l ++ [y]).
Proof.
  induction 1 as [|x l Hs IH Hx]; intros Hall; simpl.
  - constructor; constructor.
  - inversion Hall; subst. constructor; [apply IH; assumption|].
    apply Forall_app; split; [assumption|constructor; [assumption|constructor]].
Qed.

(** ** The loop invariant of the detector *)

Lemma sum_counts_snoc ds d : sum_counts (ds ++ [d]) = sum_counts ds + count d.
Proof.
  unfold sum_counts. induction ds as [|x ds IH]; simpl in *; [lia|].
  rewrite IH; lia.
Qed.

Lemma threshold_met_true T n :
  threshold_met T n = true <-> 1 <= T <= Z.of_nat n.
Proof.
  unfold threshold_met. rewrite andb_true_iff, !Z.leb_le. tauto.
Qed.

Lemma threshold_met_false T n :
  threshold_met T n = false <-> (T < 1 \/ Z.of_nat n < T).
Proof.
  unfold threshold_met. rewrite andb_false_iff, !Z.leb_gt. tauto.
Qed.

Lemma detector_inv_init T df : detector_inv T df [] detector_init.
Proof.
  constructor; simpl.
  - reflexivity.
  - replace (threshold_met T (streak [])) with false; [reflexivity|].
    symmetry; apply threshold_met_false. change (streak []) with 0%nat. lia.
  - exists []. repeat split; constructor.
  - cbv; discriminate.
Qed.

(** The failures at the end of a prefix of the frame are a run that cannot
    be extended to the left. *)
Lemma streak_run pre post :
  let df := pre ++ post in
  let a := (length pre - streak pre)%nat in
  (forall k, (a <= k < a + streak pre)%nat -> failure_at df k) /\
  (a = 0%nat \/ success_at df (a - 1)).
Proof.
  intros df a. pose proof (streak_le pre) as Hle. split.
  - intros k Hk. apply failure_at_app, streak_failures. lia.
  - destruct (Nat.eq_dec (streak pre) (length pre)) as [E|E]; [left; lia|right].
    apply success_at_app. replace (a - 1)%nat with (length pre - streak pre - 1)%nat by lia.
    apply streak_left. lia.
Qed.

(** A run closed by the success that follows it. *)
Lemma reports_closed T pre r post r0 :
  let df := pre ++ r :: post in
  threshold_met T (streak pre) = true ->
  r_result r = success ->
  nth_error df (length pre - streak pre) = Some r0 ->
  reports T df
    (close_run (mk_open (r_timestamp r0) (Z.of_nat (streak pre))) (r_timestamp r))
    ((length pre - streak pre)%nat, streak pre).
Proof.
  intros df Hth Hr Hr0. apply threshold_met_true in Hth.
  pose proof (streak_le pre) as Hle.
  destruct (streak_run pre (r :: post)) as [Hf Hl]. fold df in Hf, Hl.
  assert (Hlen : length df = (length pre + S (length post))%nat)
    by (unfold df; rewrite length_app; reflexivity).
  assert (Hnth : nth_error df (length pre) = Some r).
  { unfold df. rewrite nth_error_app2, Nat.sub_diag; [reflexivity|lia]. }
  unfold reports; simpl. repeat split.
  - lia.
  - lia.
  - exact Hf.
  - exact Hl.
  - right. replace (length pre - streak pre + streak pre)%nat with (length pre) by lia.
    exists r; split; assumption.
  - lia.
  - unfold timestamp_at. now rewrite Hr0.
  - unfold run_end, timestamp_at.
    replace (length pre - streak pre + streak pre)%nat with (length pre) by lia.
    destruct (Nat.ltb_spec (length pre) (length df)); [|lia].
    now rewrite Hnth.
Qed.

(** A run still open after the last row. *)
Lemma reports_open T pre r r0 :
  let df := pre ++ [r] in
  threshold_met T (streak df) = true ->
  nth_error df (length df - streak df) = Some r0 ->
  reports T df
    (close_run (mk_open (r_timestamp r0) (Z.of_nat (streak df))) (r_timestamp r))
    ((length df - streak df)%nat, streak df).
Proof.
  intros df Hth Hr0. apply threshold_met_true in Hth.
  pose proof (streak_le df) as Hle.
  destruct (streak_run df []) as [Hf Hl]. rewrite app_nil_r in Hf, Hl.
  assert (Hlen : length df = (length pre + 1)%nat)
    by (unfold df; rewrite length_app; reflexivity).
  unfold reports; simpl. repeat split.
  - lia.
  - lia.
  - exact Hf.
  - exact Hl.
  - left; lia.
  - lia.
  - unfold timestamp_at. now rewrite Hr0.
  - unfold run_end, timestamp_at.
    destruct (Nat.ltb_spec (length df - streak df + streak df) (length df)); [lia|].
    replace (length df - 1)%nat with (length pre) by lia.
    unfold df. now rewrite nth_error_snoc.
Qed.

Lemma detector_step_inv T pre r post st :
  let df := pre ++ r :: post in
  detector_inv T df pre st ->
  exists st',
    detector_step T df (Z.of_nat (length pre)) r st = Some st' /\
    detector_inv T df (pre ++ [r]) st'.
Proof.
  intros df [Hfc Hcur (gs & Hrep & Hsort & Hbound) Hsum].
  pose proof (streak_le pre) as Hle.
  assert (Hlen : length df = (length pre + S (length post))%nat)
    by (unfold df; rewrite length_app; reflexivity).
  unfold detector_step.
  destruct (r_result r) eqn:Hr.
  - (* a success: the open run, if any, is closed *)
    assert (Hs : streak (pre ++ [r]) = 0%nat).
    { rewrite streak_snoc. now rewrite (proj2 (is_failure_false r) Hr). }
    assert (Hth0 : threshold_met T 0 = false)
      by (apply threshold_met_false; lia).
    assert (Hcnt : count_rows is_failure (pre ++ [r]) = count_rows is_failure pre).
    { rewrite count_failures_snoc, (proj2 (is_failure_false r) Hr); lia. }
    destruct (threshold_met T (streak pre)) eqn:Hth.
    + destruct Hcur as (r0 & Hr0 & Hc). rewrite Hc.
      eexists; split; [reflexivity|].
      constructor; simpl.
      * now rewrite Hs.
      * now rewrite Hs, Hth0.
      * exists (gs ++ [((length pre - streak pre)%nat, streak pre)]).
        split; [|split].
        -- apply Forall2_app; [exact Hrep|].
           constructor; [|constructor].
           now apply reports_closed.
        -- apply StronglySorted_snoc; [exact Hsort|].
           revert Hbound; apply Forall_impl. unfold precedes; simpl; lia.
        -- apply Forall_app; split.
           ++ revert Hbound; apply Forall_impl. rewrite Hs, length_app; simpl; lia.
           ++ constructor; [|constructor]. rewrite Hs, length_app; simpl; lia.
      * rewrite sum_counts_snoc, Hs, Hcnt. unfold close_run; simpl. lia.
    + rewrite Hcur. eexists; split; [reflexivity|].
      constructor; simpl.
      * now rewrite Hs.
      * now rewrite Hs, Hth0.
      * exists gs. split; [exact Hrep|split; [exact Hsort|]].
        revert Hbound; apply Forall_impl. rewrite Hs, length_app; simpl; lia.
      * rewrite Hs, Hcnt. lia.
  - (* a failure: the counter goes up *)
    assert (Hs : streak (pre ++ [r]) = S (streak pre)).
    { rewrite streak_snoc. now rewrite (proj2 (is_failure_true r) Hr). }
    assert (Hcnt : count_rows is_failure (pre ++ [r]) = count_rows is_failure pre + 1).
    { rewrite count_failures_snoc, (proj2 (is_failure_true r) Hr); lia. }
    assert (Hruns : exists gs0,
               Forall2 (reports T df) (disconnections st) gs0 /\
               StronglySorted precedes gs0 /\
               Forall (fun g => (fst g + snd g
                                 < length (pre ++ [r]) - streak (pre ++ [r]))%nat) gs0).
    { exists gs. split; [exact Hrep|split; [exact Hsort|]].
      revert Hbound; apply Forall_impl. rewrite Hs, length_app; simpl; lia. }
    assert (Hpos : (length (pre ++ [r]) - streak (pre ++ [r]))%nat
                   = (length pre - streak pre)%nat)
      by (rewrite Hs, length_app; simpl; lia).
    rewrite Hfc.
    destruct (Z.eqb_spec (Z.of_nat (streak pre) + 1) T) as [HT|HT].
    + (* the threshold is reached: a run opens *)
      assert (Hidx : Z.of_nat (length pre) - T + 1
                     = Z.of_nat (length pre - streak pre)) by lia.
      rewrite Hidx, iloc_nth by lia.
      destruct (nth_error df (length pre - streak pre)) as [r0|] eqn:Hr0.
      2:{ apply nth_error_None in Hr0. lia. }
      eexists; split; [reflexivity|].
      constructor; simpl.
      * rewrite Hs; lia.
      * rewrite Hpos, Hs.
        replace (threshold_met T (S (streak pre))) with true
          by (symmetry; apply threshold_met_true; lia).
        exists r0. split; [exact Hr0|]. do 2 f_equal. lia.
      * exact Hruns.
      * rewrite Hs, Hcnt. lia.
    + destruct (threshold_met T (streak pre)) eqn:Hth.
      * (* the run is open already: it grows *)
        destruct Hcur as (r0 & Hr0 & Hc). rewrite Hc.
        apply threshold_met_true in Hth.
        destruct (Z.gtb_spec (Z.of_nat (streak pre) + 1) T); [|lia].
        eexists; split; [reflexivity|].
        constructor; simpl.
        -- rewrite Hs; lia.
        -- rewrite Hpos, Hs.
           replace (threshold_met T (S (streak pre))) with true
             by (symmetry; apply threshold_met_true; lia).
           exists r0. split; [exact Hr0|]. do 2 f_equal. lia.
        -- exact Hruns.
        -- rewrite Hs, Hcnt. lia.
      * (* below the threshold: nothing is recorded *)
        rewrite Hcur. apply threshold_met_false in Hth.
        eexists; split; [destruct (_ >? _); reflexivity|].
        constructor; simpl.
        -- rewrite Hs; lia.
        -- rewrite Hs.
           replace (threshold_met T (S (streak pre))) with false
             by (symmetry; apply threshold_met_false; lia).
           reflexivity.
        -- exact Hruns.
        -- rewrite Hs, Hcnt. lia.
Qed.

Lemma iterrows_inv T rows : forall pre rest st,
  let df := pre ++ rows ++ rest in
  detector_inv T df pre st ->
  exists st',
    iterrows T df (Z.of_nat (length pre)) rows st = Some st' /\
    detector_inv T df (pre ++ rows) st'.
Proof.
  induction rows as [|r rows IH]; intros pre rest st df Hinv.
  - exists st. rewrite app_nil_r. split; [reflexivity|exact Hinv].
  - subst df. change ((r :: rows) ++ rest) with (r :: rows ++ rest) in *.
    set (df := pre ++ r :: rows ++ rest) in *.
    destruct (detector_step_inv T pre r (rows ++ rest) st Hinv)
      as (st1 & Hstep & Hinv1).
    fold df in Hstep, Hinv1. cbn [iterrows]. rewrite Hstep.
    assert (Hdf : df = (pre ++ [r]) ++ rows ++ rest)
      by (unfold df; now rewrite <- app_assoc).
    rewrite Hdf in Hinv1.
    destruct (IH (pre ++ [r]) rest st1 Hinv1) as (st' & Hrun & Hinv').
    rewrite <- Hdf in Hrun, Hinv'.
    rewrite length_app in Hrun; simpl in Hrun.
    rewrite Nat2Z.inj_add in Hrun; simpl in Hrun.
    exists st'. split; [exact Hrun|].
    now rewrite <- app_assoc in Hinv'.
Qed.

Lemma iterrows_app T df a : forall b i st,
  iterrows T df i (a ++ b) st =
  match iterrows T df i a st with
  | Some st' => iterrows T df (i + Z.of_nat (length a)) b st'
  | None => None
  end.
Proof.
  induction a as [|r a IH]; intros b i st; simpl.
  - now rewrite Z.add_0_r.
  - destruct (detector_step T df i r st) as [st1|]; [|reflexivity].
    rewrite IH. replace (i + 1 + Z.of_nat (length a))
      with (i + Z.pos (Pos.of_succ_nat (length a))) by lia.
    reflexivity.
Qed.

(** The loop never raises, and the invariant holds after every prefix. *)
Lemma detector_after_inv T df k :
  exists st,
    detector_after T df k = Some st /\ detector_inv T df (firstn k df) st.
Proof.
  unfold detector_after.
  pose proof (iterrows_inv T (firstn k df) [] (skipn k df) detector_init) as H.
  simpl in H. rewrite firstn_skipn in H.
  exact (H (detector_inv_init T df)).
Qed.

Lemma detector_loop_inv T df :
  exists st, detector_loop T df = Some st /\ detector_inv T df df st.
Proof.
  destruct (detector_after_inv T df (length df)) as (st & Hrun & Hinv).
  unfold detector_after in Hrun. rewrite firstn_all in Hrun, Hinv.
  exists st; split; assumption.
Qed.

Lemma firstn_succ_nth (df : list row) k r :
  nth_error df k = Some r -> firstn (S k) df = firstn k df ++ [r].
Proof.
  revert k; induction df as [|x df IH]; intros [|k] H; simpl in *; try discriminate.
  - now inversion H.
  - f_equal. now apply IH.
Qed.

(** One more row is one more step of the loop body. *)
Lemma detector_after_succ T df k r :
  nth_error df k = Some r ->
  detector_after T df (S k) =
  match detector_after T df k with
  | Some st => detector_step T df (Z.of_nat k) r st
  | None => None
  end.
Proof.
  intros Hr. unfold detector_after.
  rewrite (firstn_succ_nth df k r Hr), iterrows_app.
  destruct (iterrows T df 0 (firstn k df) detector_init) as [st|]; [|reflexivity].
  simpl. rewrite length_firstn.
  assert (k < length df)%nat by (apply nth_error_Some; congruence).
  replace (Z.of_nat (Nat.min k (length df))) with (Z.of_nat k) by lia.
  now destruct (detector_step T df (Z.of_nat k) r st).
Qed.

(** What the check after the loop adds: nothing when no run is open, and
    otherwise one disconnection that ends at the last row. *)
Lemma detect_disconnections_final T df :
  exists st,
    detector_loop T df = Some st /\ detector_inv T df df st /\
    ((threshold_met T (streak df) = false /\
      current_disconnection st = None /\
      detect_disconnections T df = Some (disconnections st)) \/
     (threshold_met T (streak df) = true /\
      exists c pre last,
        df = pre ++ [last] /\
        current_disconnection st = Some c /\
        detect_disconnections T df =
          Some (disconnections st ++ [close_run c (r_timestamp last)]) /\
        reports T df (close_run c (r_timestamp last))
          ((length df - streak df)%nat, streak df))).
Proof.
  destruct (detector_loop_inv T df) as (st & Hrun & Hinv).
  exists st. split; [exact Hrun|split; [exact Hinv|]].
  unfold detect_disconnections. rewrite Hrun.
  pose proof (inv_current _ _ _ _ Hinv) as Hcur.
  destruct (threshold_met T (streak df)) eqn:Hth.
  - right. split; [reflexivity|].
    destruct Hcur as (r0 & Hr0 & Hc).
    destruct (exists_last (l := df)) as (pre & last & Hdf).
    { intros ->. apply threshold_met_true in Hth. change (streak []) with 0%nat in Hth. lia. }
    exists (mk_open (r_timestamp r0) (Z.of_nat (streak df))), pre, last.
    rewrite Hc, (iloc_last df last pre Hdf).
    split; [exact Hdf|]. split; [reflexivity|]. split; [reflexivity|].
    subst df. now apply reports_open.
  - left. rewrite Hcur. repeat split.
Qed.

(** The detector never raises; every disconnection it returns reports a
    maximal run of at least [T] failures, the runs come in the order of the
    rows, each one after the row that ended the one before, and together
    they hold no more failures than the frame. *)
Lemma detect_disconnections_runs T df :
  exists ds gs,
    detect_disconnections T df = Some ds /\
    Forall2 (reports T df) ds gs /\
    StronglySorted precedes gs /\
    sum_counts ds <= count_rows is_failure df.
Proof.
  destruct (detect_disconnections_final T df)
    as (st & _ & Hinv & [(Hth & Hc & Hd)|(Hth & c & pre & last & Hdf & Hc & Hd & Hrep)]).
  - destruct (inv_runs _ _ _ _ Hinv) as (gs & Hall & Hsort & _).
    exists (disconnections st), gs. repeat split; try assumption.
    pose proof (inv_sum _ _ _ _ Hinv). lia.
  - destruct (inv_runs _ _ _ _ Hinv) as (gs & Hall & Hsort & Hbound).
    exists (disconnections st ++ [close_run c (r_timestamp last)]),
           (gs ++ [((length df - streak df)%nat, streak df)]).
    split; [exact Hd|split; [|split]].
    + apply Forall2_app; [exact Hall|]. constructor; [exact Hrep|constructor].
    + apply StronglySorted_snoc; [exact Hsort|].
      revert Hbound; apply Forall_impl. unfold precedes; simpl; lia.
    + rewrite sum_counts_snoc.
      pose proof (inv_sum _ _ _ _ Hinv) as Hsum.
      destruct Hrep as (_ & _ & _ & Hcount & _).
      cbn [count close_run snd] in *. lia.
Qed.

(** ** Grouping by hour *)

Lemma insert_key_In h k keys : In h (insert_key k keys) <-> h = k \/ In h keys.
Proof.
  induction keys as [|x keys IH]; simpl.
  - intuition.
  - destruct (Z.ltb_spec k x); [simpl; intuition|].
    destruct (Z.eqb_spec k x); simpl; [subst; intuition|].
    rewrite IH. intuition.
Qed.

Lemma insert_key_sorted k keys :
  StronglySorted Z.lt keys -> StronglySorted Z.lt (insert_key k keys).
Proof.
  induction 1 as [|x keys Hs IH Hx]; simpl.
  - repeat constructor.
  - destruct (Z.ltb_spec k x).
    + constructor; [constructor; assumption|].
      constructor; [assumption|].
      revert Hx; apply Forall_impl; intros; lia.
    + destruct (Z.eqb_spec k x); [constructor; assumption|].
      constructor; [exact IH|].
      apply Forall_forall. intros y Hy. apply insert_key_In in Hy.
      destruct Hy as [->|Hy]; [lia|].
      rewrite Forall_forall in Hx. now apply Hx.
Qed.

Lemma group_keys_In df h :
  In h (group_keys df) <-> exists r, In r df /\ r_hour r = h.
Proof.
  unfold group_keys. induction df as [|x df IH]; simpl.
  - split; [tauto|intros (r & [] & _)].
  - rewrite insert_key_In, IH. split.
    + intros [->|(r & Hr & E)]; [exists x; auto|exists r; auto].
    + intros (r & [->|Hr] & E); [left; auto|right; exists r; auto].
Qed.

Lemma group_keys_sorted df : StronglySorted Z.lt (group_keys df).
Proof.
  unfold group_keys. induction df as [|x df IH]; simpl.
  - constructor.
  - now apply insert_key_sorted.
Qed.

Lemma sorted_lt_NoDup keys : StronglySorted Z.lt keys -> NoDup keys.
Proof.
  induction 1 as [|x keys Hs IH Hx]; constructor; [|exact IH].
  intros Hin. rewrite Forall_forall in Hx. specialize (Hx x Hin). lia.
Qed.

Lemma count_rows_cons (p : row -> bool) x df :
  count_rows p (x :: df) = (if p x then 1 else 0) + count_rows p df.
Proof.
  unfold count_rows. cbn [filter]. destruct (p x); cbn [length]; lia.
Qed.

Lemma sum_over_add f g keys :
  sum_over (fun h => f h + g h) keys = sum_over f keys + sum_over g keys.
Proof.
  unfold sum_over. induction keys as [|k keys IH]; simpl; [reflexivity|].
  rewrite IH; lia.
Qed.

Lemma sum_over_ext f g keys :
  (forall h, f h = g h) -> sum_over f keys = sum_over g keys.
Proof.
  intros E. unfold sum_over. induction keys as [|k keys IH]; simpl; [reflexivity|].
  now rewrite IH, E.
Qed.

Lemma sum_over_zero keys : sum_over (fun _ => 0) keys = 0.
Proof. unfold sum_over. induction keys; simpl; lia. Qed.

(** Over distinct keys, exactly one key is the hour of a given row. *)
Lemma sum_over_indicator k keys :
  NoDup keys ->
  sum_over (fun h => if k =? h then 1 else 0) keys = if in_dec Z.eq_dec k keys then 1 else 0.
Proof.
  unfold sum_over. induction 1 as [|x keys Hx Hnd IH]; simpl; [reflexivity|].
  rewrite IH. destruct (Z.eq_dec x k) as [->|Hne].
  - rewrite Z.eqb_refl. destruct (in_dec Z.eq_dec k keys); [contradiction|lia].
  - destruct (Z.eqb_spec k x); [congruence|].
    destruct (in_dec Z.eq_dec k keys); lia.
Qed.

(** Counting the rows with property [p] hour by hour counts each of them
    once. *)
Lemma sum_over_groups (p : row -> bool) keys df :
  NoDup keys ->
  (forall r, In r df -> In (r_hour r) keys) ->
  sum_over (fun h => count_rows (fun r => in_hour h r && p r) df) keys
  = count_rows p df.
Proof.
  intros Hnd. induction df as [|x df IH]; intros Hin.
  - unfold count_rows; simpl. apply sum_over_zero.
  - rewrite (sum_over_ext _
      (fun h => (if r_hour x =? h then (if p x then 1 else 0) else 0)
                + count_rows (fun r => in_hour h r && p r) df)).
    2:{ intros h. rewrite count_rows_cons. unfold in_hour.
        destruct (r_hour x =? h), (p x); cbn [andb]; lia. }
    rewrite sum_over_add, IH by (intros r Hr; apply Hin; now right).
    rewrite (sum_over_ext _
      (fun h => (if p x then 1 else 0) * (if r_hour x =? h then 1 else 0))).
    2:{ intros h. destruct (r_hour x =? h), (p x); lia. }
    assert (Hmul : forall c f l, sum_over (fun h => c * f h) l = c * sum_over f l).
    { intros c f l. unfold sum_over. induction l; simpl; lia. }
    rewrite Hmul, sum_over_indicator by exact Hnd.
    destruct (in_dec Z.eq_dec (r_hour x) keys) as [_|Hno].
    2:{ exfalso; apply Hno, Hin; now left. }
    rewrite count_rows_cons. destruct (p x); lia.
Qed.

Lemma filter_in_hour (p : row -> bool) h df :
  filter p (filter (in_hour h) df) = filter (fun r => in_hour h r && p r) df.
Proof.
  induction df as [|x df IH]; simpl; [reflexivity|].
  destruct (in_hour h x); simpl; [destruct (p x)|]; now rewrite IH.
Qed.

Lemma count_success_failure df :
  count_rows is_success df + count_rows is_failure df = Z.of_nat (length df).
Proof.
  induction df as [|x df IH]; [reflexivity|].
  rewrite !count_rows_cons. cbn [length].
  change (is_success x) with (result_eqb (r_result x) success).
  change (is_failure x) with (result_eqb (r_result x) failure).
  destruct (r_result x); cbn [result_eqb]; lia.
Qed.

(** ** The result of analyze_ping_data *)

Lemma set_index_counts counts :
  (if frame_empty (frame_of_records counts)
   then Some (frame_of_records counts)
   else set_index "hour" (frame_of_records counts))
  = Some (indexed_counts counts).
Proof. destruct counts as [|c counts]; reflexivity. Qed.

(** On a non-empty list of events the analysis returns, and its parts are
    the hourly statistics, the detected disconnections and the reindexed
    frame of hourly counts. *)
Lemma analyze_ping_data_returns host ping_data T :
  ping_data <> [] ->
  let df := DataFrame ping_data in
  exists r,
    analyze_ping_data host ping_data T = Some r /\
    res_hourly_stats r = hourly_stats_of df /\
    detect_disconnections T df = Some (res_disconnections r) /\
    res_hourly_disconnection_df r =
      reindex (hours_of df) 0
        (indexed_counts (hourly_disconnection_counts (res_disconnections r))).
Proof.
  intros Hne df. unfold analyze_ping_data. fold df.
  destruct df as [|r0 rest] eqn:Hdf.
  - destruct ping_data; [congruence|discriminate].
  - destruct (detect_disconnections_runs T (r0 :: rest)) as (ds & gs & Hd & _).
    rewrite Hd, set_index_counts.
    eexists; split; [reflexivity|]. simpl. repeat split.
Qed.

Lemma hourly_totals df :
  fold_right Z.add 0 (map total_pings (hourly_stats_of df)) = Z.of_nat (length df).
Proof.
  unfold hourly_stats_of. rewrite map_map.
  change (sum_over (fun h => total_pings (hourly_group df h)) (group_keys df)
          = Z.of_nat (length df)).
  rewrite (sum_over_ext _
    (fun h => count_rows (fun r => in_hour h r && true) df)).
  2:{ intros h. unfold hourly_group, count_rows; cbn [total_pings].
      do 2 f_equal. apply filter_ext. intros r. now rewrite andb_true_r. }
  rewrite sum_over_groups.
  - unfold count_rows. f_equal. f_equal.
    induction df as [|x df IH]; simpl; [reflexivity|now rewrite IH].
  - apply sorted_lt_NoDup, group_keys_sorted.
  - intros r Hr. apply group_keys_In. now exists r.
Qed.

Lemma hourly_successes df :
  fold_right Z.add 0 (map successful_pings (hourly_stats_of df))
  = count_rows is_success df.
Proof.
  unfold hourly_stats_of. rewrite map_map.
  change (sum_over (fun h => successful_pings (hourly_group df h)) (group_keys df)
          = count_rows is_success df).
  rewrite (sum_over_ext _
    (fun h => count_rows (fun r => in_hour h r && is_success r) df)).
  2:{ intros h. unfold hourly_group, count_rows; cbn [successful_pings].
      now rewrite filter_in_hour. }
  apply sum_over_groups.
  - apply sorted_lt_NoDup, group_keys_sorted.
  - intros r Hr. apply group_keys_In. now exists r.
Qed.

Lemma hourly_losses df :
  fold_right Z.add 0 (map packet_loss_count (hourly_stats_of df))
  = count_rows is_failure df.
Proof.
  pose proof (hourly_totals df) as Ht.
  pose proof (hourly_successes df) as Hs.
  pose proof (count_success_failure df) as Hc.
  assert (H : forall hs,
             Forall (fun s => packet_loss_count s = total_pings s - successful_pings s) hs ->
             fold_right Z.add 0 (map packet_loss_count hs)
             = fold_right Z.add 0 (map total_pings hs)
               - fold_right Z.add 0 (map successful_pings hs)).
  { induction 1 as [|s hs Hs' _ IH]; simpl; lia. }
  rewrite H; [lia|].
  unfold hourly_stats_of. apply Forall_forall. intros s Hin.
  apply in_map_iff in Hin. destruct Hin as (h & <- & _). reflexivity.
Qed.

(** What each hourly row holds. *)
Lemma hourly_group_counts df h :
  let s := hourly_group df h in
  hs_hour s = h /\
  total_pings s = count_rows (in_hour h) df /\
  successful_pings s = count_rows (fun r => in_hour h r && is_success r) df /\
  packet_loss_count s = count_rows (fun r => in_hour h r && is_failure r) df.
Proof.
  unfold hourly_group;
    cbn [hs_hour total_pings successful_pings packet_loss_count].
  split; [reflexivity|]. split; [reflexivity|]. split.
  - unfold count_rows. now rewrite filter_in_hour.
  - pose proof (count_success_failure (filter (in_hour h) df)) as Hc.
    unfold count_rows in *. rewrite !filter_in_hour in Hc.
    rewrite !filter_in_hour. lia.
Qed.

Lemma count_rows_nonneg p df : 0 <= count_rows p df.
Proof. unfold count_rows; lia. Qed.

Lemma count_rows_pos p df r : In r df -> p r = true -> 0 < count_rows p df.
Proof.
  intros Hin Hp. unfold count_rows.
  assert (Hf : In r (filter p df)) by (apply filter_In; auto).
  destruct (filter p df); [contradiction|simpl; lia].
Qed.

(** ** From the runs to the disconnections *)

Lemma reports_count T df ds gs :
  Forall2 (reports T df) ds gs ->
  Forall (fun d => T <= count d /\
                   exists a c, count d = Z.of_nat c /\ maximal_run df a c /\
                               timestamp_at df a = Some (start_time d)) ds.
Proof.
  induction 1 as [|d [a c] ds gs Hrep _ IH]; constructor; [|exact IH].
  destruct Hrep as (Hmax & HT & Hst & Hc & _). simpl in *.
  split; [lia|]. exists a, c. auto.
Qed.

Lemma run_end_bounds df a c :
  maximal_run df a c -> (a <= run_end df a c <= a + c)%nat /\ (run_end df a c < length df)%nat.
Proof.
  intros (Hc & Hlen & _). unfold run_end.
  destruct (Nat.ltb_spec (a + c) (length df)); lia.
Qed.

Section Ordering.

Variable R : Z -> Z -> Prop.
Variable df : list row.
Hypothesis R_le : forall x y, R x y -> x <= y.
Hypothesis R_rows : forall i j x y,
  (i < j)%nat -> timestamp_at df i = Some x -> timestamp_at df j = Some y -> R x y.

Lemma rows_le i j x y :
  (i <= j)%nat -> timestamp_at df i = Some x -> timestamp_at df j = Some y -> x <= y.
Proof.
  intros Hij Hx Hy. destruct (Nat.eq_dec i j) as [->|Hne].
  - rewrite Hx in Hy. inversion Hy. lia.
  - apply R_le, (R_rows i j); [lia|assumption|assumption].
Qed.

(** Runs that follow each other give disconnections that follow each other
    in time. *)
Lemma reports_ordered T ds gs :
  Forall2 (reports T df) ds gs ->
  StronglySorted precedes gs ->
  StronglySorted (fun d1 d2 => R (end_time d1) (start_time d2) /\
                               R (start_time d1) (start_time d2)) ds /\
  Forall (fun d => start_time d <= end_time d) ds.
Proof.
  induction 1 as [|d [a c] ds gs Hrep Hall IH]; intros Hsort.
  - split; constructor.
  - inversion Hsort as [|? ? Hsort' Hprec]; subst.
    destruct (IH Hsort') as [IH1 IH2].
    destruct Hrep as (Hmax & _ & Hst & _ & Hen & _). simpl in *.
    destruct (run_end_bounds df a c Hmax) as [Hb _].
    assert (Hse : start_time d <= end_time d)
      by (apply (rows_le a (run_end df a c)); [lia|assumption|assumption]).
    split; [|constructor; assumption].
    constructor; [exact IH1|].
    clear IH IH1 IH2 Hsort Hsort'.
    induction Hall as [|d' [a' c'] ds gs Hrep' _ IH']; [constructor|].
    inversion Hprec as [|? ? Hp Hprec']; subst.
    constructor; [|now apply IH'].
    destruct Hrep' as (_ & _ & Hst' & _). unfold precedes in Hp; simpl in *.
    assert (He : R (end_time d) (start_time d'))
      by (apply (R_rows (run_end df a c) a'); [lia|assumption|assumption]).
    split; [exact He|].
    apply (R_rows a a'); [lia|assumption|assumption].
Qed.

End Ordering.

Lemma sorted_rows (R : Z -> Z -> Prop) df :
  StronglySorted R (map r_timestamp df) ->
  forall i j x y,
    (i < j)%nat -> timestamp_at df i = Some x -> timestamp_at df j = Some y -> R x y.
Proof.
  unfold timestamp_at.
  induction df as [|r df IH]; intros Hs i j x y Hij Hx Hy.
  - destruct i; discriminate.
  - simpl in Hs. inversion Hs as [|? ? Hs' Hall]; subst.
    destruct j as [|j]; [lia|]. destruct i as [|i]; simpl in *.
    + inversion Hx; subst. rewrite Forall_forall in Hall. apply Hall.
      destruct (nth_error df j) as [rj|] eqn:E; [|discriminate].
      inversion Hy; subst. apply in_map. eapply nth_error_In; eauto.
    + apply (IH Hs' i j); [lia|assumption|assumption].
Qed.

(** ** The claims about the detector *)

(** C4 (run minimality).  On every non-empty event sequence and for every
    threshold [T] the analysis returns, and every disconnection it returns
    has [count >= T] and reports a maximal run of exactly [count]
    consecutive failures starting at the row of its [start_time]; after
    every prefix of the events the disconnections recorded so far have
    [count >= T], no run is open while the current streak is shorter than
    [T], and an open run has [count >= T]; on [F, F, S] with [T = 3] the
    list of disconnections is empty. *)
Theorem run_minimality host ping_data T :
  ping_data <> [] ->
  let df := DataFrame ping_data in
  (exists r,
      analyze_ping_data host ping_data T = Some r /\
      Forall (fun d => T <= count d /\
                       exists a c, count d = Z.of_nat c /\ maximal_run df a c /\
                                   timestamp_at df a = Some (start_time d))
             (res_disconnections r)) /\
  (forall k,
      exists st,
        detector_after T df k = Some st /\
        Forall (fun d => T <= count d) (disconnections st) /\
        (Z.of_nat (streak (firstn k df)) < T -> current_disconnection st = None) /\
        (forall c, current_disconnection st = Some c -> T <= o_count c)) /\
  (forall p1 p2 p3,
      result_of p1 = failure -> result_of p2 = failure -> result_of p3 = success ->
      exists r,
        analyze_ping_data host [p1; p2; p3] 3 = Some r /\ res_disconnections r = []).
Proof.
  intros Hne df. split; [|split].
  - destruct (analyze_ping_data_returns host ping_data T Hne) as (r & Hr & _ & Hd & _).
    fold df in Hd. exists r. split; [exact Hr|].
    destruct (detect_disconnections_runs T df) as (ds & gs & Hd' & Hrep & _).
    rewrite Hd in Hd'. inversion Hd'; subst ds.
    now apply reports_count with (gs := gs).
  - intros k. destruct (detector_after_inv T df k) as (st & Hst & Hinv).
    exists st. split; [exact Hst|].
    destruct (inv_runs _ _ _ _ Hinv) as (gs & Hrep & _).
    pose proof (inv_current _ _ _ _ Hinv) as Hcur.
    split; [|split].
    + apply reports_count in Hrep. revert Hrep; apply Forall_impl. tauto.
    + intros Hlt. destruct (threshold_met T (streak (firstn k df))) eqn:Hth; [|exact Hcur].
      apply threshold_met_true in Hth. lia.
    + intros c Hc. destruct (threshold_met T (streak (firstn k df))) eqn:Hth.
      * destruct Hcur as (r0 & _ & Hc'). rewrite Hc in Hc'. inversion Hc'; subst; simpl.
        apply threshold_met_true in Hth. lia.
      * congruence.
  - intros p1 p2 p3 H1 H2 H3.
    destruct (analyze_ping_data_returns host [p1; p2; p3] 3) as (r & Hr & _ & Hd & _);
      [discriminate|].
    exists r. split; [exact Hr|].
    unfold detect_disconnections, detector_loop, DataFrame in Hd.
    cbn [map iterrows detector_step r_result] in Hd.
    rewrite H1, H2, H3 in Hd. cbn in Hd. congruence.
Qed.

Lemma run_minimality_witness :
  sample_events <> [] /\
  exists r,
    analyze_ping_data "10.0.0.1" sample_events 3 = Some r /\
    Forall (fun d => 3 <= count d /\
                     exists a c, count d = Z.of_nat c /\
                                 maximal_run (DataFrame sample_events) a c /\
                                 timestamp_at (DataFrame sample_events) a
                                 = Some (start_time d))
           (res_disconnections r).
Proof.
  split; [vm_compute; discriminate|].
  apply (run_minimality "10.0.0.1" sample_events 3). vm_compute; discriminate.
Defined.

(** C5 as amended (non-overlap and ordering).  On every non-empty event
    sequence the analysis returns.  When the timestamps are non-decreasing,
    each disconnection ends no later than every later one starts, start
    times are non-decreasing along the list, and no disconnection ends
    before it starts.  When the timestamps are strictly increasing, each
    disconnection ends strictly before every later one starts and start
    times are strictly increasing. *)
Theorem disconnections_ordered host ping_data T :
  ping_data <> [] ->
  let df := DataFrame ping_data in
  exists r,
    analyze_ping_data host ping_data T = Some r /\
    (StronglySorted Z.le (map r_timestamp df) ->
     StronglySorted (fun d1 d2 => end_time d1 <= start_time d2 /\
                                  start_time d1 <= start_time d2)
                    (res_disconnections r) /\
     Forall (fun d => start_time d <= end_time d) (res_disconnections r)) /\
    (StronglySorted Z.lt (map r_timestamp df) ->
     StronglySorted (fun d1 d2 => end_time d1 < start_time d2 /\
                                  start_time d1 < start_time d2)
                    (res_disconnections r) /\
     Forall (fun d => start_time d <= end_time d) (res_disconnections r)).
Proof.
  intros Hne df.
  destruct (analyze_ping_data_returns host ping_data T Hne) as (r & Hr & _ & Hd & _).
  fold df in Hd. exists r. split; [exact Hr|].
  destruct (detect_disconnections_runs T df) as (ds & gs & Hd' & Hrep & Hsort & _).
  rewrite Hd in Hd'. inversion Hd'; subst ds.
  split; intros Hts.
  - apply (reports_ordered Z.le df) with (T := T) (gs := gs); auto.
    apply sorted_rows, Hts.
  - apply (reports_ordered Z.lt df) with (T := T) (gs := gs); auto.
    + intros; lia.
    + apply sorted_rows, Hts.
Qed.

Lemma disconnections_ordered_witness :
  sample_events <> [] /\
  StronglySorted Z.lt (map r_timestamp (DataFrame sample_events)) /\
  exists r,
    analyze_ping_data "10.0.0.1" sample_events 3 = Some r /\
    StronglySorted (fun d1 d2 => end_time d1 < start_time d2 /\
                                 start_time d1 < start_time d2)
                   (res_disconnections r) /\
    Forall (fun d => start_time d <= end_time d) (res_disconnections r).
Proof.
  assert (Hne : sample_events <> []) by (vm_compute; discriminate).
  assert (Hs : StronglySorted Z.lt (map r_timestamp (DataFrame sample_events)))
    by (vm_compute; repeat constructor).
  split; [exact Hne|]. split; [exact Hs|].
  destruct (disconnections_ordered "10.0.0.1" sample_events 3 Hne)
    as (r & Hr & _ & Hlt).
  exists r. split; [exact Hr|]. exact (Hlt Hs).
Defined.

(** C5 as stated fails: the timestamps of [same_second_events] are
    non-decreasing, yet the two disconnections found with threshold 1 start
    at the same time, and the second starts when the first ends. *)
Lemma disconnections_ordered_counterexample :
  ~ (forall host ping_data T r,
        StronglySorted Z.le (map r_timestamp (DataFrame ping_data)) ->
        analyze_ping_data host ping_data T = Some r ->
        StronglySorted (fun d1 d2 => end_time d1 < start_time d2 /\
                                     start_time d1 < start_time d2)
                       (res_disconnections r)).
Proof.
  intros H.
  specialize (H "10.0.0.1" same_second_events 1).
  destruct (analyze_ping_data "10.0.0.1" same_second_events 1) as [r|] eqn:E;
    [|vm_compute in E; discriminate].
  specialize (H r).
  assert (Hs : StronglySorted Z.le (map r_timestamp (DataFrame same_second_events)))
    by (vm_compute; repeat constructor; discriminate).
  specialize (H Hs eq_refl).
  vm_compute in E. inversion E; subst r; clear E.
  cbn [res_disconnections] in H.
  inversion H as [|? ? _ Hall]; subst.
  inversion Hall as [|? ? [Hlt _] _]; subst.
  cbn in Hlt. lia.
Qed.

(** C6 (conservation).  On every non-empty event sequence the analysis
    returns; the [total_pings] of the hourly rows add up to the number of
    events, and the [packet_loss_count] of the hourly rows add up to the
    number of failed events, which is at least the sum of [count] over the
    disconnections. *)
Theorem conservation host ping_data T :
  ping_data <> [] ->
  exists r,
    analyze_ping_data host ping_data T = Some r /\
    fold_right Z.add 0 (map total_pings (res_hourly_stats r))
      = Z.of_nat (length ping_data) /\
    fold_right Z.add 0 (map packet_loss_count (res_hourly_stats r))
      = count_rows is_failure (DataFrame ping_data) /\
    fold_right Z.add 0 (map packet_loss_count (res_hourly_stats r))
      >= fold_right Z.add 0 (map count (res_disconnections r)).
Proof.
  intros Hne.
  destruct (analyze_ping_data_returns host ping_data T Hne) as (r & Hr & Hh & Hd & _).
  exists r. split; [exact Hr|]. rewrite Hh.
  destruct (detect_disconnections_runs T (DataFrame ping_data))
    as (ds & gs & Hd' & _ & _ & Hsum).
  rewrite Hd in Hd'. inversion Hd'; subst ds.
  rewrite hourly_totals, hourly_losses. unfold DataFrame at 1. rewrite length_map.
  unfold sum_counts in Hsum. repeat split; lia.
Qed.

Lemma conservation_witness :
  sample_events <> [] /\
  exists r,
    analyze_ping_data "10.0.0.1" sample_events 3 = Some r /\
    fold_right Z.add 0 (map total_pings (res_hourly_stats r))
      = Z.of_nat (length sample_events) /\
    fold_right Z.add 0 (map packet_loss_count (res_hourly_stats r))
      = count_rows is_failure (DataFrame sample_events) /\
    fold_right Z.add 0 (map packet_loss_count (res_hourly_stats r))
      >= fold_right Z.add 0 (map count (res_disconnections r)).
Proof.
  split; [vm_compute; discriminate|].
  apply (conservation "10.0.0.1" sample_events 3). vm_compute; discriminate.
Defined.

(** C7 (hourly aggregation).  On every non-empty event sequence the
    analysis returns; the hourly rows have distinct hours, in ascending
    order; an hour has a row exactly when it is the hour of some event; and
    in every row [total_pings] is the number of events of that hour and is
    positive, [successful_pings] and [packet_loss_count] are the numbers of
    its successes and failures, both non-negative, they add up to
    [total_pings], and [packet_loss_rate] is
    [packet_loss_count / total_pings * 100]. *)
Theorem hourly_aggregation host ping_data T :
  ping_data <> [] ->
  let df := DataFrame ping_data in
  exists r,
    analyze_ping_data host ping_data T = Some r /\
    StronglySorted Z.lt (map hs_hour (res_hourly_stats r)) /\
    NoDup (map hs_hour (res_hourly_stats r)) /\
    (forall h, In h (map hs_hour (res_hourly_stats r)) <->
               exists p, In p ping_data /\ to_seconds (hour p) = h) /\
    Forall (fun s =>
              total_pings s = count_rows (in_hour (hs_hour s)) df /\
              successful_pings s
                = count_rows (fun x => in_hour (hs_hour s) x && is_success x) df /\
              packet_loss_count s
                = count_rows (fun x => in_hour (hs_hour s) x && is_failure x) df /\
              total_pings s = successful_pings s + packet_loss_count s /\
              0 <= successful_pings s /\ 0 <= packet_loss_count s /\
              0 < total_pings s /\
              packet_loss_rate s
                = (inject_Z (packet_loss_count s) / inject_Z (total_pings s)
                   * inject_Z 100)%Q)
           (res_hourly_stats r).
Proof.
  intros Hne df.
  destruct (analyze_ping_data_returns host ping_data T Hne) as (r & Hr & Hh & _).
  fold df in Hh. exists r. split; [exact Hr|]. rewrite Hh.
  assert (Hkeys : map hs_hour (hourly_stats_of df) = group_keys df).
  { unfold hourly_stats_of. rewrite map_map. apply map_id. }
  rewrite Hkeys. split; [apply group_keys_sorted|].
  split; [apply sorted_lt_NoDup, group_keys_sorted|]. split.
  - intros h. rewrite group_keys_In. unfold df, DataFrame. split.
    + intros (x & Hx & E). apply in_map_iff in Hx. destruct Hx as (p & <- & Hp).
      exists p. auto.
    + intros (p & Hp & E). eexists. split; [apply in_map, Hp|exact E].
  - unfold hourly_stats_of. apply Forall_forall. intros s Hs.
    apply in_map_iff in Hs. destruct Hs as (h & <- & Hin).
    destruct (hourly_group_counts df h) as (E0 & E1 & E2 & E3).
    rewrite E0. split; [exact E1|]. split; [exact E2|]. split; [exact E3|].
    apply group_keys_In in Hin. destruct Hin as (x & Hx & Ex).
    assert (Hpos : 0 < count_rows (in_hour h) df).
    { apply count_rows_pos with (r := x); [exact Hx|]. unfold in_hour.
      now apply Z.eqb_eq. }
    assert (E4 : packet_loss_count (hourly_group df h)
                 = total_pings (hourly_group df h)
                   - successful_pings (hourly_group df h)) by reflexivity.
    pose proof (count_rows_nonneg (fun x => in_hour h x && is_success x) df).
    pose proof (count_rows_nonneg (fun x => in_hour h x && is_failure x) df).
    repeat split; try lia.
Qed.

Lemma hourly_aggregation_witness :
  sample_events <> [] /\
  exists r,
    analyze_ping_data "10.0.0.1" sample_events 3 = Some r /\
    StronglySorted Z.lt (map hs_hour (res_hourly_stats r)) /\
    NoDup (map hs_hour (res_hourly_stats r)) /\
    (forall h, In h (map hs_hour (res_hourly_stats r)) <->
               exists p, In p sample_events /\ to_seconds (hour p) = h).
Proof.
  assert (Hne : sample_events <> []) by (vm_compute; discriminate).
  split; [exact Hne|].
  destruct (hourly_aggregation "10.0.0.1" sample_events 3 Hne)
    as (r & Hr & Hs & Hn & Hi & _).
  exists r. auto.
Defined.

(** C2 (run open at the end of the stream).  On every non-empty event
    sequence the loop and the analysis return.  A run is open after the last
    event exactly when the events end with at least [T >= 1] failures; then
    the analysis returns the disconnections recorded by the loop followed
    by exactly one more, which has the start and count of the open run, the
    timestamp of the last event as [end_time] and their difference as
    [duration]; otherwise it returns the recorded ones alone.  On
    [F, F, F] with [T = 3] there is exactly one disconnection, from the
    first timestamp to the last, with [count = 3]. *)
Theorem open_run_at_end host ping_data T :
  ping_data <> [] ->
  let df := DataFrame ping_data in
  (exists r st,
      analyze_ping_data host ping_data T = Some r /\
      detector_loop T df = Some st /\
      (current_disconnection st <> None <-> 1 <= T <= Z.of_nat (streak df)) /\
      match current_disconnection st with
      | None => res_disconnections r = disconnections st
      | Some c =>
          exists d,
            res_disconnections r = disconnections st ++ [d] /\
            timestamp_at df (length df - 1) = Some (end_time d) /\
            start_time d = o_start_time c /\
            count d = o_count c /\
            duration d = end_time d - start_time d /\
            count d = Z.of_nat (streak df) /\
            timestamp_at df (length df - streak df) = Some (start_time d)
      end) /\
  (forall p1 p2 p3,
      result_of p1 = failure -> result_of p2 = failure -> result_of p3 = failure ->
      exists r,
        analyze_ping_data host [p1; p2; p3] 3 = Some r /\
        res_disconnections r =
          [mk_disc (to_seconds (timestamp p1)) 3 (to_seconds (timestamp p3))
                   (to_seconds (timestamp p3) - to_seconds (timestamp p1))]).
Proof.
  intros Hne df. split.
  - destruct (analyze_ping_data_returns host ping_data T Hne) as (r & Hr & _ & Hd & _).
    fold df in Hd.
    destruct (detect_disconnections_final T df)
      as (st & Hst & Hinv &
          [(Hth & Hc & Hd')|(Hth & c & pre & last & Hdf & Hc & Hd' & Hrep)]).
    + exists r, st. split; [exact Hr|]. split; [exact Hst|].
      rewrite Hc. apply threshold_met_false in Hth. split.
      * split; [congruence|lia].
      * congruence.
    + exists r, st. split; [exact Hr|]. split; [exact Hst|].
      rewrite Hc. apply threshold_met_true in Hth. split.
      * split; [lia|congruence].
      * exists (close_run c (r_timestamp last)).
        split; [congruence|].
        destruct Hrep as (_ & _ & Hs & Hcnt & _). cbn in Hs, Hcnt.
        split.
        { unfold timestamp_at. rewrite Hdf, length_app. cbn [length].
          replace (length pre + 1 - 1)%nat with (length pre) by lia.
          now rewrite nth_error_snoc. }
        cbn. repeat split; try assumption.
  - intros p1 p2 p3 H1 H2 H3.
    destruct (analyze_ping_data_returns host [p1; p2; p3] 3) as (r & Hr & _ & Hd & _);
      [discriminate|].
    exists r. split; [exact Hr|].
    unfold detect_disconnections, detector_loop, DataFrame in Hd.
    cbn [map iterrows detector_step r_result] in Hd.
    rewrite H1, H2, H3 in Hd. cbn in Hd.
    injection Hd as Hd. rewrite <- Hd. reflexivity.
Qed.

Lemma open_run_at_end_witness :
  three_failures <> [] /\
  exists r st,
    analyze_ping_data "10.0.0.1" three_failures 3 = Some r /\
    detector_loop 3 (DataFrame three_failures) = Some st /\
    (current_disconnection st <> None <->
     1 <= 3 <= Z.of_nat (streak (DataFrame three_failures))) /\
    match current_disconnection st with
    | None => res_disconnections r = disconnections st
    | Some c =>
        exists d,
          res_disconnections r = disconnections st ++ [d] /\
          timestamp_at (DataFrame three_failures)
            (length (DataFrame three_failures) - 1) = Some (end_time d) /\
          start_time d = o_start_time c /\
          count d = o_count c /\
          duration d = end_time d - start_time d /\
          count d = Z.of_nat (streak (DataFrame three_failures)) /\
          timestamp_at (DataFrame three_failures)
            (length (DataFrame three_failures)
             - streak (DataFrame three_failures)) = Some (start_time d)
    end.
Proof.
  split; [vm_compute; discriminate|].
  apply (open_run_at_end "10.0.0.1" three_failures 3). vm_compute; discriminate.
Defined.

(** C1 (the detector as a state machine).  With [T >= 1], for the event [r]
    at position [i] the loop has a state [st] before it and a state [st']
    after it, and the counter of [st] is the number of consecutive failures
    that end just before [i].  On a failure the counter goes up by one and
    nothing is recorded; when it reaches [T] no run was open and one opens
    with [count = T] and the timestamp of row [i - T + 1], the rows
    [i - T + 1, ..., i] are failures and the row before them, if any, is a
    success; when it is above [T] a run is open and its count goes up by
    one; when it is below [T] no run is open.  On a success the counter is
    reset to 0, no run is open afterwards, and an open run is recorded with
    the timestamp of [r] as [end_time] and [end_time - start_time] as
    [duration]. *)
Theorem detector_state_machine T df i r :
  1 <= T ->
  nth_error df i = Some r ->
  exists st st',
    detector_after T df i = Some st /\
    detector_after T df (S i) = Some st' /\
    failure_count st = Z.of_nat (streak (firstn i df)) /\
    match r_result r with
    | failure =>
        failure_count st' = failure_count st + 1 /\
        disconnections st' = disconnections st /\
        (failure_count st' = T ->
         current_disconnection st = None /\
         (exists r0,
             nth_error df (i + 1 - Z.to_nat T) = Some r0 /\
             current_disconnection st' = Some (mk_open (r_timestamp r0) T)) /\
         (forall k, (i + 1 - Z.to_nat T <= k <= i)%nat -> failure_at df k) /\
         ((i + 1 - Z.to_nat T)%nat = 0%nat \/ success_at df (i - Z.to_nat T))) /\
        (failure_count st' > T ->
         exists c,
           current_disconnection st = Some c /\
           current_disconnection st' = Some (mk_open (o_start_time c) (o_count c + 1))) /\
        (failure_count st' < T -> current_disconnection st' = None)
    | success =>
        failure_count st' = 0 /\
        current_disconnection st' = None /\
        disconnections st' =
          disconnections st ++
          match current_disconnection st with
          | Some c =>
              [mk_disc (o_start_time c) (o_count c) (r_timestamp r)
                       (r_timestamp r - o_start_time c)]
          | None => []
          end
    end.
Proof.
  intros HT Hr.
  assert (Hi : (i < length df)%nat) by (apply nth_error_Some; congruence).
  destruct (detector_after_inv T df i) as (st & Hst & Hinv).
  destruct (detector_after_inv T df (S i)) as (st' & Hst' & Hinv').
  pose proof (detector_after_succ T df i r Hr) as Hstep.
  rewrite Hst, Hst' in Hstep. symmetry in Hstep.
  exists st, st'. split; [exact Hst|]. split; [exact Hst'|].
  pose proof (inv_counter _ _ _ _ Hinv) as Hfc.
  pose proof (inv_counter _ _ _ _ Hinv') as Hfc'.
  pose proof (inv_current _ _ _ _ Hinv) as Hcur.
  pose proof (inv_current _ _ _ _ Hinv') as Hcur'.
  split; [exact Hfc|].
  rewrite (firstn_succ_nth df i r Hr) in Hfc', Hcur'.
  rewrite streak_snoc in Hfc', Hcur'.
  rewrite length_app, length_firstn in Hcur'. cbn [length] in Hcur'.
  rewrite length_firstn in Hcur.
  replace (Nat.min i (length df)) with i in Hcur, Hcur' by lia.
  pose proof (streak_le (firstn i df)) as Hle. rewrite length_firstn in Hle.
  set (n := streak (firstn i df)) in *.
  unfold detector_step in Hstep.
  destruct (r_result r) eqn:Hres.
  - (* success *)
    rewrite (proj2 (is_failure_false r) Hres) in Hfc', Hcur'.
    replace (threshold_met T 0) with false in Hcur'
      by (symmetry; apply threshold_met_false; lia).
    split; [exact Hfc'|]. split; [exact Hcur'|].
    destruct (current_disconnection st) as [c|]; inversion Hstep; cbn;
      rewrite ?app_nil_r; reflexivity.
  - (* failure *)
    rewrite (proj2 (is_failure_true r) Hres) in Hfc', Hcur'.
    split; [lia|]. split.
    { destruct (failure_count st + 1 =? T).
      - destruct (iloc df (Z.of_nat i - T + 1)); inversion Hstep; reflexivity.
      - destruct (failure_count st + 1 >? T).
        + destruct (current_disconnection st) as [c|]; inversion Hstep; reflexivity.
        + inversion Hstep; reflexivity. }
    split; [|split].
    + intros HeqT.
      replace (threshold_met T (S n)) with true in Hcur'
        by (symmetry; apply threshold_met_true; lia).
      replace (threshold_met T n) with false in Hcur
        by (symmetry; apply threshold_met_false; lia).
      destruct Hcur' as (r0 & Hr0 & Hc').
      assert (Hidx : (i + 1 - Z.to_nat T)%nat = (i - n)%nat) by lia.
      rewrite Hidx. split; [exact Hcur|]. split.
      * exists r0. split.
        -- rewrite <- Hr0. f_equal. lia.
        -- rewrite Hc'. do 2 f_equal. lia.
      * destruct (streak_run (firstn (S i) df) (skipn (S i) df)) as [Hf Hl].
        rewrite firstn_skipn in Hf, Hl.
        rewrite (firstn_succ_nth df i r Hr), streak_snoc,
          (proj2 (is_failure_true r) Hres), length_app, length_firstn in Hf, Hl.
        cbn [length] in Hf, Hl. fold n in Hf, Hl.
        replace (Nat.min i (length df)) with i in Hf, Hl by lia.
        split.
        -- intros k Hk. apply Hf. lia.
        -- destruct Hl as [Hl|Hl]; [left; lia|right].
           replace (i - Z.to_nat T)%nat with (i + 1 - S n - 1)%nat by lia.
           exact Hl.
    + intros Hgt.
      replace (threshold_met T (S n)) with true in Hcur'
        by (symmetry; apply threshold_met_true; lia).
      replace (threshold_met T n) with true in Hcur
        by (symmetry; apply threshold_met_true; lia).
      destruct Hcur as (r0 & Hr0 & Hc). destruct Hcur' as (r0' & Hr0' & Hc').
      replace (i + 1 - S n)%nat with (i - n)%nat in Hr0' by lia.
      rewrite Hr0 in Hr0'. inversion Hr0'; subst r0'.
      eexists. split; [exact Hc|]. rewrite Hc'. cbn. do 2 f_equal. lia.
    + intros Hlt.
      replace (threshold_met T (S n)) with false in Hcur'
        by (symmetry; apply threshold_met_false; lia).
      exact Hcur'.
Qed.

Lemma detector_state_machine_witness :
  1 <= 3 /\
  nth_error (DataFrame sample_events) 3 = Some (mk_row 63845668801 63845668800 failure None) /\
  exists st st',
    detector_after 3 (DataFrame sample_events) 3 = Some st /\
    detector_after 3 (DataFrame sample_events) 4 = Some st' /\
    failure_count st' = failure_count st + 1 /\
    disconnections st' = disconnections st.
Proof.
  assert (Hr : nth_error (DataFrame sample_events) 3
               = Some (mk_row 63845668801 63845668800 failure None))
    by (vm_compute; reflexivity).
  split; [lia|]. split; [exact Hr|].
  destruct (detector_state_machine 3 (DataFrame sample_events) 3 _ ltac:(lia) Hr)
    as (st & st' & H1 & H2 & _ & H3 & H4 & _).
  exists st, st'. auto.
Defined.

(** ** The claims about reading the file *)

Lemma parse_lines_events lines :
  forall p, In p (fst (parse_lines lines)) ->
            exists l, In l lines /\ parse_line l = Appended p.
Proof.
  induction lines as [|l lines IH]; intros p; simpl; [tauto|].
  destruct (parse_lines lines) as [data errs].
  destruct (parse_line l) as [|q|m] eqn:E; simpl in *.
  - intros Hp. destruct (IH p Hp) as (l' & Hl & Hq). exists l'; auto.
  - intros [->|Hp].
    + exists l; auto.
    + destruct (IH p Hp) as (l' & Hl & Hq). exists l'; auto.
  - intros Hp. destruct (IH p Hp) as (l' & Hl & Hq). exists l'; auto.
Qed.

Lemma parse_lines_length lines :
  (length (fst (parse_lines lines)) <= length lines)%nat.
Proof.
  induction lines as [|l lines IH]; simpl; [lia|].
  destruct (parse_lines lines) as [data errs].
  destruct (parse_line l); simpl in *; lia.
Qed.

Lemma parse_lines_no_data lines :
  (forall l, In l lines -> re_match_datetime (strip l) = None) ->
  parse_lines lines = ([], []).
Proof.
  induction lines as [|l lines IH]; intros H; simpl; [reflexivity|].
  rewrite IH by (intros l' Hl'; apply H; now right).
  unfold parse_line. now rewrite (H l (or_introl eq_refl)).
Qed.

Lemma read_ping_data_eq file :
  read_ping_data file =
  (re_search_host (strip (hd EmptyString file)),
   fst (parse_lines (tl file)), snd (parse_lines (tl file))).
Proof.
  unfold read_ping_data. destruct (parse_lines (tl file)) as [data errs].
  destruct file; reflexivity.
Qed.

(** C10 (the first line yields no event).  The events read from a file are
    those of its lines after the first: they do not depend on the first
    line, each of them is parsed from one of the later lines, and a file
    that consists of one well-formed data line has no event. *)
Theorem first_line_consumed first rest :
  snd (fst (read_ping_data (first :: rest))) = fst (parse_lines rest) /\
  (forall other,
      snd (fst (read_ping_data (other :: rest)))
      = snd (fst (read_ping_data (first :: rest)))) /\
  (forall p, In p (snd (fst (read_ping_data (first :: rest)))) ->
             exists l, In l rest /\ parse_line l = Appended p) /\
  (length (snd (fst (read_ping_data (first :: rest)))) <= length rest)%nat /\
  snd (fst (read_ping_data [first])) = [].
Proof.
  rewrite !read_ping_data_eq. cbn [fst snd tl].
  split; [reflexivity|]. split.
  - intros other. rewrite read_ping_data_eq. reflexivity.
  - split; [apply parse_lines_events|]. split; [apply parse_lines_length|].
    reflexivity.
Qed.

(** The host found on the first line is never the empty string. *)
Lemma re_search_host_nonempty s host :
  re_search_host s = Some host -> is_empty host = false.
Proof.
  induction s as [|c s IH]; cbn [re_search_host].
  - cbn. discriminate.
  - destruct (host_at (String c s)) as [h|] eqn:Eat; [|exact IH].
    intros Hh; inversion Hh; subst h. unfold host_at in Eat.
    destruct (strip_prefix "Target Host=" (String c s)) as [r0|]; [|discriminate].
    destruct (span_digits r0) as [a r1].
    destruct (strip_prefix "." r1) as [r2|]; [|discriminate].
    destruct (span_digits r2) as [b r3].
    destruct (strip_prefix "." r3) as [r4|]; [|discriminate].
    destruct (span_digits r4) as [c' r5].
    destruct (strip_prefix "." r5) as [r6|]; [|discriminate].
    destruct (span_digits r6) as [d r7].
    destruct a as [|x a]; [discriminate|].
    destruct (is_empty (String x a) || is_empty b || is_empty c' || is_empty d);
      [discriminate|].
    inversion Eat. reflexivity.
Qed.

(** C9 (fatal errors).  When the first line holds no match of
    [Target Host=<IPv4>], [main] prints the lines that failed to parse and
    then the missing-host error; when it does and no later line matches the
    timestamp pattern, [main] prints the no-data error alone.  Either way
    the output ends with an error and holds no result of the analysis. *)
Theorem fatal_errors file custom_threshold :
  re_search_host (strip (hd EmptyString file)) = None \/
  (forall l, In l (tl file) -> re_match_datetime (strip l) = None) ->
  (re_search_host (strip (hd EmptyString file)) = None ->
   main file custom_threshold
   = map ParseErrorLine (snd (parse_lines (tl file))) ++ [ErrorNoHost]) /\
  (re_search_host (strip (hd EmptyString file)) <> None ->
   main file custom_threshold = [ErrorNoData]) /\
  (exists errs e,
      main file custom_threshold = map ParseErrorLine errs ++ [e] /\
      is_error e = true) /\
  Forall (fun o => is_result o = false) (main file custom_threshold).
Proof.
  intros H.
  assert (Hmain : main file custom_threshold =
                  map ParseErrorLine (snd (parse_lines (tl file))) ++
                  match re_search_host (strip (hd EmptyString file)) with
                  | None => [ErrorNoHost]
                  | Some host =>
                      if is_empty host then [ErrorNoHost]
                      else
                        match fst (parse_lines (tl file)) with
                        | [] => [ErrorNoData]
                        | _ =>
                            match analyze_ping_data host (fst (parse_lines (tl file)))
                                    (read_threshold custom_threshold) with
                            | None => [ErrorOccurred]
                            | Some r =>
                                AnalysisResults host r
                                  (calculate_disconnection_stats (res_disconnections r))
                                :: plots r
                            end
                        end
                  end).
  { unfold main. rewrite read_ping_data_eq. reflexivity. }
  destruct (re_search_host (strip (hd EmptyString file))) as [host|] eqn:Eh.
  - (* the host is there, so no line is a data line *)
    destruct H as [H|H]; [discriminate|].
    rewrite (parse_lines_no_data _ H), (re_search_host_nonempty _ host Eh) in Hmain.
    cbn [fst snd map app] in Hmain.
    split; [discriminate|]. split; [intros _; exact Hmain|].
    rewrite Hmain. split.
    + exists [], ErrorNoData. split; reflexivity.
    + repeat constructor.
  - (* no host *)
    split; [intros _; exact Hmain|]. split; [congruence|].
    rewrite Hmain. split.
    + exists (snd (parse_lines (tl file))), ErrorNoHost. split; reflexivity.
    + apply Forall_app. split; [|repeat constructor].
      apply Forall_forall. intros o Ho. apply in_map_iff in Ho.
      destruct Ho as (m & <- & _). reflexivity.
Qed.

Lemma fatal_errors_witness :
  (re_search_host (strip (hd EmptyString headless_log)) = None \/
   (forall l, In l (tl headless_log) -> re_match_datetime (strip l) = None)) /\
  (exists errs e,
      main headless_log EmptyString = map ParseErrorLine errs ++ [e] /\ is_error e = true) /\
  Forall (fun o => is_result o = false) (main headless_log EmptyString).
Proof.
  assert (H : re_search_host (strip (hd EmptyString headless_log)) = None \/
              (forall l, In l (tl headless_log) -> re_match_datetime (strip l) = None))
    by (left; vm_compute; reflexivity).
  split; [exact H|].
  destruct (fatal_errors headless_log EmptyString H) as (_ & _ & He & Hr).
  split; assumption.
Defined.

(** ** The frame of hourly disconnection counts *)

Lemma dict_incr_value k d h :
  dict_value (dict_incr k d) h = dict_value d h + (if h =? k then 1 else 0).
Proof.
  unfold dict_value. induction d as [|[k' v] d IH]; cbn [dict_incr assoc].
  - destruct (Z.eqb_spec h k); reflexivity.
  - destruct (Z.eqb_spec k' k) as [->|Hne]; cbn [assoc].
    + destruct (Z.eqb_spec h k); lia.
    + destruct (Z.eqb_spec h k'); [|exact IH].
      destruct (Z.eqb_spec h k); [congruence|lia].
Qed.

Lemma dict_incr_nonempty k d : dict_incr k d <> [].
Proof.
  destruct d as [|[k' v] d]; cbn; [discriminate|].
  destruct (k' =? k); discriminate.
Qed.

Lemma hourly_disconnection_counts_value ds h :
  dict_value (hourly_disconnection_counts ds) h = starts_in_hour h ds.
Proof.
  unfold hourly_disconnection_counts, starts_in_hour.
  assert (H : forall d0,
             dict_value (fold_left (fun d disc =>
                           dict_incr (floor_hour (start_time disc)) d) ds d0) h
             = dict_value d0 h
               + Z.of_nat (length (filter (fun d => floor_hour (start_time d) =? h) ds))).
  { induction ds as [|x ds IH]; intros d0; cbn [fold_left filter].
    - cbn; lia.
    - rewrite IH, dict_incr_value, (Z.eqb_sym h).
      destruct (floor_hour (start_time x) =? h); cbn [length]; lia. }
  rewrite H. reflexivity.
Qed.

Lemma hourly_disconnection_counts_nil ds :
  hourly_disconnection_counts ds = [] <-> ds = [].
Proof.
  split; [|intros ->; reflexivity].
  unfold hourly_disconnection_counts.
  destruct ds as [|x ds]; [reflexivity|]. cbn [fold_left].
  assert (H : forall d0, d0 <> [] ->
             fold_left (fun d disc => dict_incr (floor_hour (start_time disc)) d) ds d0
             <> []).
  { induction ds as [|y ds IH]; intros d0 Hd0; cbn [fold_left]; [exact Hd0|].
    apply IH, dict_incr_nonempty. }
  intros E. exfalso. revert E. apply H, dict_incr_nonempty.
Qed.

Lemma combine_fst_snd (l : list (Z * Z)) : combine (map fst l) (map snd l) = l.
Proof. induction l as [|[a b] l IH]; cbn; [reflexivity|now rewrite IH]. Qed.


(** With a disconnection the reindexed frame has the hours of the data as
    its row labels and one column, [count], that holds for every hour the
    number of disconnections that start in it. *)
Lemma some_disconnection_counts host ping_data T r :
  analyze_ping_data host ping_data T = Some r ->
  res_disconnections r <> [] ->
  res_hourly_disconnection_df r =
    mk_frame (hours_of (DataFrame ping_data))
      [("count", map (fun h => starts_in_hour h (res_disconnections r))
                     (hours_of (DataFrame ping_data)))].
Proof.
  intros Hr Hd.
  assert (Hne : ping_data <> []).
  { intros ->. discriminate. }
  destruct (analyze_ping_data_returns host ping_data T Hne) as (r' & Hr' & _ & _ & Hf).
  rewrite Hr in Hr'. inversion Hr'; subst r'.
  rewrite Hf. unfold indexed_counts.
  destruct (hourly_disconnection_counts (res_disconnections r)) as [|c counts] eqn:E.
  - apply hourly_disconnection_counts_nil in E. contradiction.
  - rewrite <- E. unfold reindex. cbn [f_index f_columns map fst snd].
    do 3 f_equal. apply map_ext. intros h. rewrite combine_fst_snd.
    rewrite <- hourly_disconnection_counts_value. reflexivity.
Qed.

(** The row labels after reindexing: every hour from the first to the last
    hour of the data, in steps of one hour, each once. *)
Lemma date_range_In start stop h :
  In h (date_range start stop) <->
  start <= h <= stop /\ (h - start) mod 3600 = 0.
Proof.
  unfold date_range. destruct (Z.leb_spec start stop) as [Hle|Hgt].
  - rewrite in_map_iff. split.
    + intros (k & <- & Hk). apply in_seq in Hk.
      assert (Hq0 : 0 <= (stop - start) / 3600) by (apply Z.div_pos; lia).
      assert (Hq : Z.of_nat k <= (stop - start) / 3600) by lia.
      assert (Hm : 3600 * ((stop - start) / 3600) <= stop - start)
        by (apply Z.mul_div_le; lia).
      split; [lia|].
      replace (start + 3600 * Z.of_nat k - start) with (Z.of_nat k * 3600) by lia.
      apply Z.mod_mul; lia.
    + intros [[H1 H2] Hm]. exists (Z.to_nat ((h - start) / 3600)).
      assert (Hdiv : h - start = 3600 * ((h - start) / 3600))
        by (apply Z.div_exact; [lia|exact Hm]).
      assert (Hmono : (h - start) / 3600 <= (stop - start) / 3600)
        by (apply Z.div_le_mono; lia).
      assert (Hpos : 0 <= (h - start) / 3600) by (apply Z.div_pos; lia).
      split; [rewrite Z2Nat.id by lia; lia|].
      apply in_seq. lia.
  - simpl. split; [tauto|lia].
Qed.

Lemma date_range_NoDup start stop : NoDup (date_range start stop).
Proof.
  unfold date_range. destruct (start <=? stop); [|constructor].
  generalize (seq_NoDup (Z.to_nat ((stop - start) / 3600) + 1) 0).
  generalize (seq 0 (Z.to_nat ((stop - start) / 3600) + 1)).
  induction 1 as [|k l Hk Hnd IH]; cbn [map]; constructor; [|exact IH].
  intros Hin. apply in_map_iff in Hin. destruct Hin as (k' & E & Hk').
  assert (k' = k) by lia. subst k'. contradiction.
Qed.

(** C3 (every hour of the range has a count, 0 where no disconnection
    started, also when there is no disconnection at all), evaluated on
    [quiet_log], where the code does otherwise: the analysis finds no
    disconnection, the frame of hourly counts has the three hours from 12:00
    to 14:00 as row labels but no [count] column, and [main] ends in its
    exception handler when the chart of hourly counts reads that column. *)
Theorem hourly_counts_without_disconnection :
  exists r,
    analyze_ping_data "10.0.0.1" quiet_events 3 = Some r /\
    res_disconnections r = [] /\
    map hs_hour (res_hourly_stats r) = [63845668800; 63845676000] /\
    res_hourly_disconnection_df r
      = mk_frame [63845668800; 63845672400; 63845676000] [] /\
    getitem "count" (res_hourly_disconnection_df r) = None /\
    main quiet_log EmptyString = [AnalysisResults "10.0.0.1" r None; LossRateChart; ErrorOccurred].
Proof.
  destruct (analyze_ping_data "10.0.0.1" quiet_events 3) as [r|] eqn:E;
    [|vm_compute in E; discriminate].
  exists r. split; [reflexivity|].
  assert (Hm : main quiet_log EmptyString =
               match analyze_ping_data "10.0.0.1" quiet_events 3 with
               | Some r => AnalysisResults "10.0.0.1" r
                             (calculate_disconnection_stats (res_disconnections r))
                           :: plots r
               | None => [ErrorOccurred]
               end) by (vm_compute; reflexivity).
  rewrite Hm, E. clear Hm.
  vm_compute in E. inversion E; subst r; clear E.
  repeat split.
Qed.

(** ** The shape of a data line *)

Lemma strip_prefix_spec p : forall s r,
  strip_prefix p s = Some r <-> s = (p ++ r)%string.
Proof.
  induction p as [|a p IH]; intros s r; cbn.
  - split; [intros H; now inversion H|intros ->; reflexivity].
  - destruct s as [|b s].
    + split; discriminate.
    + destruct (Ascii.eqb_spec a b) as [->|Hne].
      * rewrite IH. split; [intros ->; reflexivity|intros H; now inversion H].
      * split; [discriminate|intros H; inversion H; congruence].
Qed.

Lemma starts_with_spec p s :
  starts_with p s = true <-> exists r, s = (p ++ r)%string.
Proof.
  unfold starts_with. destruct (strip_prefix p s) as [r|] eqn:E.
  - apply strip_prefix_spec in E. split; [exists r; exact E|reflexivity].
  - split; [discriminate|]. intros (r & Hr). apply strip_prefix_spec in Hr. congruence.
Qed.


Lemma match_classes_spec pat : forall s m r,
  match_classes pat s = Some (m, r) <->
  s = (m ++ r)%string /\
  Forall2 (fun cls c => cls c = true) pat (list_ascii_of_string m).
Proof.
  induction pat as [|cls pat IH]; intros s m r; cbn [match_classes].
  - split.
    + intros H; inversion H; subst. split; [reflexivity|constructor].
    + intros [-> H]. destruct m; [reflexivity|inversion H].
  - destruct s as [|c s].
    + split; [discriminate|]. intros [H1 H2].
      destruct m; [inversion H2|discriminate].
    + destruct (cls c) eqn:Ec.
      * destruct (match_classes pat s) as [[m' r']|] eqn:Em.
        -- apply IH in Em. destruct Em as [-> Hall]. split.
           ++ intros H; inversion H; subst. split; [reflexivity|].
              cbn. constructor; assumption.
           ++ intros [H1 H2]. destruct m as [|x m]; [inversion H2|].
              cbn in H1, H2. inversion H1; subst x. inversion H2; subst.
              assert (Em : match_classes pat (m' ++ r')%string = Some (m, r))
                by (apply IH; split; assumption).
              assert (Em' : match_classes pat (m' ++ r')%string = Some (m', r'))
                by (apply IH; split; [reflexivity|assumption]).
              rewrite Em in Em'. now inversion Em'.
        -- split; [discriminate|]. intros [H1 H2].
           destruct m as [|x m]; [inversion H2|].
           cbn in H1, H2. inversion H1; subst. inversion H2; subst.
           assert (Em' : match_classes pat (m ++ r)%string = Some (m, r))
             by (apply IH; split; [reflexivity|assumption]).
           congruence.
      * split; [discriminate|]. intros [H1 H2].
        destruct m as [|x m]; [inversion H2|].
        cbn in H1, H2. inversion H1; subst. inversion H2; subst. congruence.
Qed.


Lemma strptime_spec ts dt :
  strptime ts = Some dt <->
  timestamp_shape ts /\ valid_datetime (fields_of ts) = true /\ dt = fields_of ts.
Proof.
  unfold strptime, timestamp_shape. fold (fields_of ts).
  destruct (match_classes datetime_pattern ts) as [[m r]|] eqn:E.
  - apply match_classes_spec in E. destruct E as [Hts Hm].
    destruct r as [|c r].
    + assert (m = ts).
      { rewrite Hts. clear. induction m; cbn; [reflexivity|now rewrite <- IHm]. }
      subst m. destruct (valid_datetime (fields_of ts)); split.
      * intros H; inversion H. auto.
      * intros (_ & _ & ->). reflexivity.
      * discriminate.
      * intros (_ & H & _). discriminate.
    + split; [discriminate|]. intros (Hs & _).
      assert (E1 : match_classes datetime_pattern ts = Some (m, String c r))
        by (apply match_classes_spec; auto).
      assert (E2 : match_classes datetime_pattern ts = Some (ts, EmptyString))
        by (apply match_classes_spec; split; [|exact Hs];
            clear; induction ts; cbn; [reflexivity|now rewrite <- IHts]).
      rewrite E1 in E2. inversion E2.
  - split; [discriminate|]. intros (Hs & _).
    assert (E2 : match_classes datetime_pattern ts = Some (ts, EmptyString))
      by (apply match_classes_spec; split; [|exact Hs];
          clear; induction ts; cbn; [reflexivity|now rewrite <- IHts]).
    congruence.
Qed.

Lemma span_digits_spec s : forall d r,
  span_digits s = (d, r) ->
  s = (d ++ r)%string /\ all_digits d = true /\ stops_digits r.
Proof.
  induction s as [|c s IH]; intros d r; cbn [span_digits].
  - intros H; inversion H; subst. repeat split.
  - destruct (is_digit c) eqn:Ec.
    + destruct (span_digits s) as [d' r'] eqn:E. intros H; inversion H; subst.
      destruct (IH d' r eq_refl) as (-> & Hd & Hr).
      repeat split; [|exact Hr]. cbn. now rewrite Ec, Hd.
    + intros H; inversion H; subst. repeat split. exact Ec.
Qed.

Lemma span_digits_app d : forall r,
  all_digits d = true -> stops_digits r -> span_digits (d ++ r) = (d, r).
Proof.
  induction d as [|c d IH]; intros r Hd Hr; cbn.
  - destruct r as [|x r]; [reflexivity|]. cbn in Hr. cbn. now rewrite Hr.
  - cbn in Hd. apply andb_true_iff in Hd. destruct Hd as [Hc Hd].
    now rewrite Hc, (IH r Hd Hr).
Qed.

Lemma is_empty_false s : is_empty s = false <-> s <> EmptyString.
Proof. destruct s; cbn; split; congruence. Qed.

Lemma time_at_spec s n :
  time_at s = Some n <->
  exists ds post,
    s = ("time=" ++ ds ++ "ms" ++ post)%string /\
    ds <> EmptyString /\ all_digits ds = true /\ n = int_of_digits ds.
Proof.
  unfold time_at. split.
  - destruct (strip_prefix "time=" s) as [r|] eqn:Ep; [|discriminate].
    apply strip_prefix_spec in Ep.
    destruct (span_digits r) as [d r'] eqn:Ed.
    apply span_digits_spec in Ed. destruct Ed as (-> & Hd & _).
    destruct (negb (is_empty d) && starts_with "ms" r') eqn:Ec; [|discriminate].
    apply andb_true_iff in Ec. destruct Ec as [Hne Hms].
    apply negb_true_iff, is_empty_false in Hne.
    apply starts_with_spec in Hms. destruct Hms as (post & ->).
    intros H; inversion H; subst. exists d, post. auto.
  - intros (ds & post & -> & Hne & Hd & ->).
    assert (Ep : strip_prefix "time=" ("time=" ++ ds ++ "ms" ++ post)
                 = Some (ds ++ "ms" ++ post)%string)
      by (now apply strip_prefix_spec).
    rewrite Ep, span_digits_app; [|exact Hd|reflexivity].
    apply is_empty_false in Hne. rewrite Hne.
    assert (Hms : starts_with "ms" ("ms" ++ post) = true)
      by (apply starts_with_spec; now exists post).
    now rewrite Hms.
Qed.

Lemma re_search_time_some s n : re_search_time s = Some n -> latency_token s n.
Proof.
  induction s as [|c s IH]; cbn [re_search_time].
  - destruct (time_at EmptyString) as [m|] eqn:E; [|discriminate].
    intros H; inversion H; subst.
    apply time_at_spec in E. destruct E as (ds & post & Hs & H').
    exists EmptyString, ds, post. auto.
  - destruct (time_at (String c s)) as [m|] eqn:E.
    + intros H; inversion H; subst.
      apply time_at_spec in E. destruct E as (ds & post & Hs & H').
      exists EmptyString, ds, post. auto.
    + intros H. destruct (IH H) as (pre & ds & post & -> & H').
      exists (String c pre), ds, post. auto.
Qed.




(** ** Hour buckets *)

(** On a valid datetime, zeroing minute and second is rounding the seconds
    down to the hour. *)
Lemma floor_hour_replace d :
  valid_datetime d = true -> to_seconds (replace_hour d) = floor_hour (to_seconds d).
Proof.
  unfold valid_datetime. rewrite !andb_true_iff, !Z.leb_le.
  intros ((((_ & Hm0) & Hm1) & Hs0) & Hs1).
  unfold to_seconds, floor_hour, replace_hour, toordinal; cbn.
  set (o := days_before_year (year d) + days_before_month (year d) (month d) + day d).
  replace (o * 86400 + hour_of d * 3600 + minute d * 60 + second d)
    with (minute d * 60 + second d + (o * 24 + hour_of d) * 3600) by lia.
  rewrite Z_mod_plus_full, Z.mod_small by lia. lia.
Qed.

(** The hour of every event read from the file is its timestamp rounded
    down to the hour. *)
Lemma parsed_hour_bucket raw p :
  parse_line raw = Appended p ->
  valid_datetime (timestamp p) = true /\
  to_seconds (hour p) = floor_hour (to_seconds (timestamp p)).
Proof.
  unfold parse_line.
  destruct (re_match_datetime (strip raw)) as [ts|]; [|discriminate].
  destruct (strptime ts) as [dt|] eqn:Et; [|discriminate].
  apply strptime_spec in Et. destruct Et as (_ & Hv & ->).
  destruct (contains "Reply from" (strip raw)); intros H; inversion H; subst p; cbn;
    (split; [exact Hv|now apply floor_hour_replace]).
Qed.

(** ** The empty event sequence *)

(** Without events the frame has no [result] column and the analysis
    raises; [main] returns before it gets there. *)
Lemma analyze_ping_data_empty host T : analyze_ping_data host [] T = None.
Proof. reflexivity. Qed.

Lemma main_without_events file custom_threshold host :
  re_search_host (strip (hd EmptyString file)) = Some host ->
  fst (parse_lines (tl file)) = [] ->
  main file custom_threshold
  = map ParseErrorLine (snd (parse_lines (tl file))) ++ [ErrorNoData].
Proof.
  intros Hh Hd. unfold main. rewrite read_ping_data_eq, Hh, Hd.
  now rewrite (re_search_host_nonempty _ host Hh).
Qed.

(** ** The scenario of the specification *)

(** Three failures at 12:00:00, 12:00:01 and 12:00:02 and a reply at
    12:00:03, with the default threshold: one disconnection of three
    failures that lasts three seconds, and an overall loss rate of 75. *)
Example concrete_scenario :
  let file := ["Target Host=10.0.0.1";
               "2024/03/09 12:00:00 Request timed out.";
               "2024/03/09 12:00:01 Request timed out.";
               "2024/03/09 12:00:02 Request timed out.";
               "2024/03/09 12:00:03 Reply from 10.0.0.1: bytes=32 time=4ms TTL=64"] in
  exists r,
    analyze_ping_data "10.0.0.1" (snd (fst (read_ping_data file))) 3 = Some r /\
    res_disconnections r = [mk_disc 63845668800 3 63845668803 3] /\
    (res_overall_packet_loss_rate r == 75)%Q.
Proof.
  eexists. split; [vm_compute; reflexivity|]. split; reflexivity.
Qed.

(** * Further properties *)

(** ** A threshold below 1 *)

Lemma iterrows_no_threshold T df rows : forall i st,
  T <= 0 ->
  disconnections st = [] -> current_disconnection st = None ->
  0 <= failure_count st ->
  exists st',
    iterrows T df i rows st = Some st' /\
    disconnections st' = [] /\ current_disconnection st' = None.
Proof.
  induction rows as [|r rows IH]; intros i st HT Hd Hc Hf; cbn [iterrows].
  - exists st. auto.
  - unfold detector_step. rewrite Hc, Hd.
    destruct (r_result r).
    + apply IH; cbn; auto; lia.
    + destruct (Z.eqb_spec (failure_count st + 1) T); [lia|].
      destruct (failure_count st + 1 >? T); apply IH; cbn; auto; lia.
Qed.

(** The answer 0 to the threshold prompt is taken as it is, and with a
    threshold of 0 or less the detector never opens a run: whatever the
    events, no disconnection is returned. *)
Theorem no_disconnection_below_one host ping_data T :
  T <= 0 ->
  ping_data <> [] ->
  read_threshold "0" = 0 /\
  detect_disconnections T (DataFrame ping_data) = Some [] /\
  exists r,
    analyze_ping_data host ping_data T = Some r /\ res_disconnections r = [].
Proof.
  intros HT Hne. split; [reflexivity|].
  assert (Hd : detect_disconnections T (DataFrame ping_data) = Some []).
  { unfold detect_disconnections, detector_loop.
    destruct (iterrows_no_threshold T (DataFrame ping_data) (DataFrame ping_data)
                0 detector_init HT eq_refl eq_refl) as (st & Hst & Hds & Hc);
      [cbn; lia|].
    now rewrite Hst, Hc, Hds. }
  split; [exact Hd|].
  destruct (analyze_ping_data_returns host ping_data T Hne) as (r & Hr & _ & Hd' & _).
  exists r. split; [exact Hr|]. congruence.
Qed.

Lemma no_disconnection_below_one_witness :
  0 <= 0 /\ three_failures <> [] /\
  detect_disconnections 0 (DataFrame three_failures) = Some [].
Proof.
  split; [lia|]. split; [vm_compute; discriminate|].
  apply (no_disconnection_below_one "10.0.0.1" three_failures 0);
    [lia|vm_compute; discriminate].
Defined.

(** ** The threshold prompt *)

Lemma digit_not_space c : is_digit c = true -> is_space c = false.
Proof.
  unfold is_digit, is_space. intros H.
  apply andb_true_iff in H. destruct H as [H1 H2].
  apply Nat.leb_le in H1, H2.
  apply orb_false_iff. split; apply andb_false_iff.
  - right. apply Nat.leb_gt. lia.
  - right. apply Nat.leb_gt. lia.
Qed.

Lemma digit_value_range c : is_digit c = true -> 0 <= digit_value c <= 9.
Proof.
  unfold is_digit, digit_value. intros H.
  apply andb_true_iff in H. destruct H as [H1 H2].
  apply Nat.leb_le in H1, H2. lia.
Qed.

Lemma int_acc_nonneg s : forall acc,
  all_digits s = true -> 0 <= acc -> 0 <= int_acc acc s.
Proof.
  induction s as [|c s IH]; intros acc Hd Hacc; cbn [int_acc]; [exact Hacc|].
  cbn in Hd. apply andb_true_iff in Hd. destruct Hd as [Hc Hd].
  apply IH; [exact Hd|]. pose proof (digit_value_range c Hc). lia.
Qed.

Lemma isdigit_strip s : isdigit s = true -> is_empty (strip s) = false.
Proof.
  unfold isdigit. intros H. apply andb_true_iff in H. destruct H as [Hne Hd].
  destruct s as [|c s]; [discriminate|].
  cbn in Hd. apply andb_true_iff in Hd. destruct Hd as [Hc _].
  unfold strip. cbn [lstrip]. rewrite (digit_not_space c Hc).
  cbn [rstrip]. rewrite (digit_not_space c Hc). reflexivity.
Qed.

(** The threshold is the number typed when the answer consists of digits
    only, and the default 3 otherwise, also when a number is typed with
    blanks around it; the test on the stripped answer changes nothing, and
    the threshold is never negative. *)
Theorem read_threshold_spec custom_threshold :
  read_threshold custom_threshold
  = (if isdigit custom_threshold then int_of_digits custom_threshold else 3) /\
  0 <= read_threshold custom_threshold /\
  (forall c rest, is_space c = true ->
                  read_threshold (String c rest) = 3).
Proof.
  assert (E : read_threshold custom_threshold
              = if isdigit custom_threshold
                then int_of_digits custom_threshold else 3).
  { unfold read_threshold. destruct (isdigit custom_threshold) eqn:Hd.
    - now rewrite (isdigit_strip _ Hd).
    - now rewrite andb_false_r. }
  split; [exact E|]. split.
  - rewrite E. destruct (isdigit custom_threshold) eqn:Hd; [|lia].
    unfold isdigit in Hd. apply andb_true_iff in Hd.
    apply int_acc_nonneg; [tauto|lia].
  - intros c rest Hc. unfold read_threshold, isdigit. cbn [all_digits is_empty negb].
    destruct (is_digit c) eqn:Hdc.
    + rewrite (digit_not_space c Hdc) in Hc. discriminate.
    + now rewrite !andb_false_r.
Qed.

(** ** The host on the first line *)

Lemma string_app_assoc (a b c : string) :
  ((a ++ b) ++ c = a ++ (b ++ c))%string.
Proof. induction a as [|x a IH]; cbn; [reflexivity|now rewrite IH]. Qed.

Lemma span_digits_nonempty d post :
  d <> EmptyString -> all_digits d = true ->
  is_empty (fst (span_digits (d ++ post))) = false.
Proof.
  destruct d as [|c d]; [congruence|]. intros _ Hd.
  cbn in Hd. apply andb_true_iff in Hd. destruct Hd as [Hc _].
  cbn. rewrite Hc. destruct (span_digits (d ++ post)). reflexivity.
Qed.

Lemma host_at_some s h :
  host_at s = Some h ->
  exists post, s = ("Target Host=" ++ h ++ post)%string /\ dotted_quad h.
Proof.
  unfold host_at.
  destruct (strip_prefix "Target Host=" s) as [r0|] eqn:E0; [|discriminate].
  apply strip_prefix_spec in E0.
  destruct (span_digits r0) as [a r1] eqn:Ea.
  apply span_digits_spec in Ea. destruct Ea as (-> & Ha & _).
  destruct (strip_prefix "." r1) as [r2|] eqn:E1; [|discriminate].
  apply strip_prefix_spec in E1. subst r1.
  destruct (span_digits r2) as [b r3] eqn:Eb.
  apply span_digits_spec in Eb. destruct Eb as (-> & Hb & _).
  destruct (strip_prefix "." r3) as [r4|] eqn:E2; [|discriminate].
  apply strip_prefix_spec in E2. subst r3.
  destruct (span_digits r4) as [c r5] eqn:Ec.
  apply span_digits_spec in Ec. destruct Ec as (-> & Hc & _).
  destruct (strip_prefix "." r5) as [r6|] eqn:E3; [|discriminate].
  apply strip_prefix_spec in E3. subst r5.
  destruct (span_digits r6) as [d r7] eqn:Ed.
  apply span_digits_spec in Ed. destruct Ed as (-> & Hd & _).
  destruct (is_empty a) eqn:Na; [discriminate|].
  destruct (is_empty b) eqn:Nb; [discriminate|].
  destruct (is_empty c) eqn:Nc; [discriminate|].
  destruct (is_empty d) eqn:Nd; [discriminate|].
  cbn [orb]. intros H; inversion H; subst h; clear H.
  apply is_empty_false in Na, Nb, Nc, Nd.
  exists r7. split.
  - rewrite E0. cbn [append].
    repeat (rewrite string_app_assoc; cbn [append]). reflexivity.
  - exists a, b, c, d. auto 10.
Qed.

Lemma host_at_complete h post :
  dotted_quad h ->
  host_at ("Target Host=" ++ h ++ post) <> None.
Proof.
  intros (a & b & c & d & -> & (Na & Ha) & (Nb & Hb) & (Nc & Hc) & (Nd & Hd)).
  unfold host_at.
  assert (E0 : strip_prefix "Target Host="
                 ("Target Host=" ++ (a ++ "." ++ b ++ "." ++ c ++ "." ++ d) ++ post)
               = Some (a ++ "." ++ b ++ "." ++ c ++ "." ++ d ++ post)%string).
  { apply strip_prefix_spec. cbn [append].
    repeat (rewrite string_app_assoc; cbn [append]). reflexivity. }
  rewrite E0.
  rewrite (span_digits_app a) by (auto; reflexivity).
  cbn [strip_prefix Ascii.eqb Bool.eqb append]. cbn [Ascii.eqb].
  rewrite (span_digits_app b) by (auto; reflexivity).
  cbn [strip_prefix append].
  rewrite (span_digits_app c) by (auto; reflexivity).
  cbn [strip_prefix append].
  pose proof (span_digits_nonempty d post Nd Hd) as Hne.
  destruct (span_digits (d ++ post)) as [d' r7]. cbn [fst] in Hne.
  apply is_empty_false in Na, Nb, Nc.
  rewrite Na, Nb, Nc, Hne. discriminate.
Qed.

Lemma re_search_host_some s h : re_search_host s = Some h -> host_token s h.
Proof.
  induction s as [|c s IH]; cbn [re_search_host].
  - destruct (host_at EmptyString) as [m|] eqn:E; [|discriminate].
    cbn in E. discriminate.
  - destruct (host_at (String c s)) as [m|] eqn:E.
    + intros H; inversion H; subst.
      apply host_at_some in E. destruct E as (post & Hs & Hq).
      exists EmptyString, post. auto.
    + intros H. destruct (IH H) as (pre & post & -> & Hq).
      exists (String c pre), post. auto.
Qed.

Lemma re_search_host_none s :
  re_search_host s = None <-> forall h, ~ host_token s h.
Proof.
  split.
  - induction s as [|c s IH]; cbn [re_search_host].
    + intros _ h (pre & post & Hs & _). destruct pre; discriminate.
    + destruct (host_at (String c s)) as [m|] eqn:E; [discriminate|].
      intros H h (pre & post & Hs & Hq).
      destruct pre as [|x pre].
      * cbn [append] in Hs. rewrite Hs in E.
        exact (host_at_complete h post Hq E).
      * cbn in Hs. inversion Hs; subst.
        apply (IH H h). exists pre, post. auto.
  - intros H. destruct (re_search_host s) as [h|] eqn:E; [|reflexivity].
    exfalso. apply (H h). now apply re_search_host_some.
Qed.

(** The host returned by [read_ping_data] is a dotted quad of digits that
    follows [Target Host=] somewhere on the stripped first line; no host is
    returned exactly when the line holds no such text, as on an empty file;
    the groups are not checked to be at most 255. *)
Theorem host_extraction file :
  let first_line := strip (hd EmptyString file) in
  (forall h, fst (fst (read_ping_data file)) = Some h -> host_token first_line h) /\
  (fst (fst (read_ping_data file)) = None <-> forall h, ~ host_token first_line h) /\
  fst (fst (read_ping_data [])) = None /\
  fst (fst (read_ping_data ["Target Host=999.0.0.1234"])) = Some "999.0.0.1234".
Proof.
  intros first_line. rewrite read_ping_data_eq. cbn [fst].
  split; [intros h; apply re_search_host_some|].
  split; [apply re_search_host_none|]. split; reflexivity.
Qed.

(** ** The events read from the file *)

Lemma re_search_time_nonneg s n : re_search_time s = Some n -> 0 <= n.
Proof.
  intros H. apply re_search_time_some in H.
  destruct H as (pre & ds & post & _ & _ & Hd & ->).
  apply int_acc_nonneg; [exact Hd|lia].
Qed.

Lemma floor_hour_bounds t : floor_hour t <= t < floor_hour t + 3600.
Proof.
  unfold floor_hour. pose proof (Z.mod_pos_bound t 3600). lia.
Qed.

(** Every event that [read_ping_data] returns has a valid timestamp; its
    hour is the timestamp with minute and second zeroed, which on the
    seconds line is the timestamp rounded down to the hour; a failure has
    no response time, and a response time is never negative. *)
Theorem events_well_formed file :
  Forall (fun p =>
            valid_datetime (timestamp p) = true /\
            hour p = replace_hour (timestamp p) /\
            to_seconds (hour p) = floor_hour (to_seconds (timestamp p)) /\
            to_seconds (hour p) <= to_seconds (timestamp p)
              < to_seconds (hour p) + 3600 /\
            (result_of p = failure -> response_time p = None) /\
            (forall n, response_time p = Some n -> 0 <= n))
         (snd (fst (read_ping_data file))).
Proof.
  rewrite read_ping_data_eq. cbn [fst snd].
  apply Forall_forall. intros p Hp.
  apply parse_lines_events in Hp. destruct Hp as (l & _ & Hl).
  destruct (parsed_hour_bucket l p Hl) as [Hv Hh].
  split; [exact Hv|].
  assert (Hrest : hour p = replace_hour (timestamp p) /\
                  (result_of p = failure -> response_time p = None) /\
                  (forall n, response_time p = Some n -> 0 <= n)).
  { unfold parse_line in Hl.
    destruct (re_match_datetime (strip l)) as [ts|]; [|discriminate].
    destruct (strptime ts) as [dt|]; [|discriminate].
    destruct (contains "Reply from" (strip l)); inversion Hl; subst p; cbn.
    - split; [reflexivity|]. split; [discriminate|].
      intros n. apply re_search_time_nonneg.
    - split; [reflexivity|]. split; [reflexivity|discriminate]. }
  destruct Hrest as (H1 & H2 & H3).
  split; [exact H1|]. split; [exact Hh|].
  split; [rewrite Hh; apply floor_hour_bounds|]. split; assumption.
Qed.





(** ** The time range and the overall loss rate *)

Lemma column_min_spec xs : forall x,
  column_min x xs <= x /\
  Forall (fun y => column_min x xs <= y) xs /\
  In (column_min x xs) (x :: xs).
Proof.
  unfold column_min.
  induction xs as [|y xs IH]; intros x; cbn [fold_left].
  - split; [lia|]. split; [constructor|now left].
  - destruct (IH (Z.min x y)) as (H1 & H2 & H3).
    set (m := fold_left Z.min xs (Z.min x y)) in *.
    split; [lia|]. split.
    + constructor; [lia|exact H2].
    + destruct H3 as [H3|H3]; [|right; right; exact H3].
      destruct (Z.min_spec x y) as [[_ E]|[_ E]]; rewrite E in H3.
      * left; exact H3.
      * right; left; exact H3.
Qed.

Lemma column_max_spec xs : forall x,
  x <= column_max x xs /\
  Forall (fun y => y <= column_max x xs) xs /\
  In (column_max x xs) (x :: xs).
Proof.
  unfold column_max.
  induction xs as [|y xs IH]; intros x; cbn [fold_left].
  - split; [lia|]. split; [constructor|now left].
  - destruct (IH (Z.max x y)) as (H1 & H2 & H3).
    set (m := fold_left Z.max xs (Z.max x y)) in *.
    split; [lia|]. split.
    + constructor; [lia|exact H2].
    + destruct H3 as [H3|H3]; [|right; right; exact H3].
      destruct (Z.max_spec x y) as [[_ E]|[_ E]]; rewrite E in H3.
      * right; left; exact H3.
      * left; exact H3.
Qed.

(** The remaining fields of the result. *)
Lemma analyze_ping_data_summary host ping_data T :
  ping_data <> [] ->
  exists r r0 rest,
    DataFrame ping_data = r0 :: rest /\
    analyze_ping_data host ping_data T = Some r /\
    detect_disconnections T (DataFrame ping_data) = Some (res_disconnections r) /\
    res_start_time r = column_min (r_timestamp r0) (map r_timestamp rest) /\
    res_end_time r = column_max (r_timestamp r0) (map r_timestamp rest) /\
    res_duration r = res_end_time r - res_start_time r /\
    res_overall_packet_loss_rate r
    = percent (Z.of_nat (length (r0 :: rest)) - count_rows is_success (r0 :: rest))
              (Z.of_nat (length (r0 :: rest))).
Proof.
  intros Hne. unfold analyze_ping_data.
  destruct (DataFrame ping_data) as [|r0 rest] eqn:Hdf.
  - destruct ping_data; [congruence|discriminate].
  - destruct (detect_disconnections_runs T (r0 :: rest)) as (ds & gs & Hd & _).
    rewrite Hd, set_index_counts.
    eexists. exists r0, rest. split; [reflexivity|]. split; [reflexivity|].
    cbn. repeat split.
Qed.

Lemma timestamp_at_In df k t :
  timestamp_at df k = Some t -> In t (map r_timestamp df).
Proof.
  unfold timestamp_at. destruct (nth_error df k) as [r|] eqn:E; [|discriminate].
  intros H; inversion H; subst. apply in_map. eapply nth_error_In; eauto.
Qed.

(** The start and end of the analysis are the smallest and the largest
    timestamp of the events, whatever their order in the file: every event
    lies between them, both are timestamps of events, the duration is their
    difference and is not negative, and every disconnection starts and ends
    within that range. *)
Theorem analysis_time_range host ping_data T :
  ping_data <> [] ->
  exists r,
    analyze_ping_data host ping_data T = Some r /\
    (forall p, In p ping_data ->
               res_start_time r <= to_seconds (timestamp p) <= res_end_time r) /\
    (exists p, In p ping_data /\ to_seconds (timestamp p) = res_start_time r) /\
    (exists p, In p ping_data /\ to_seconds (timestamp p) = res_end_time r) /\
    res_duration r = res_end_time r - res_start_time r /\
    0 <= res_duration r /\
    Forall (fun d => res_start_time r <= start_time d /\
                     end_time d <= res_end_time r) (res_disconnections r).
Proof.
  intros Hne.
  destruct (analyze_ping_data_summary host ping_data T Hne)
    as (r & r0 & rest & Hdf & Hr & Hd & Hs & He & Hdur & _).
  exists r. split; [exact Hr|].
  destruct (column_min_spec (map r_timestamp rest) (r_timestamp r0)) as (m1 & m2 & m3).
  destruct (column_max_spec (map r_timestamp rest) (r_timestamp r0)) as (x1 & x2 & x3).
  rewrite <- Hs in m1, m2, m3. rewrite <- He in x1, x2, x3.
  assert (Hall : forall t, In t (map r_timestamp (DataFrame ping_data)) ->
                           res_start_time r <= t <= res_end_time r).
  { rewrite Hdf. cbn [map]. intros t [<-|Ht]; [lia|].
    rewrite Forall_forall in m2, x2. split; [now apply m2|now apply x2]. }
  assert (Hts : forall t, In t (map r_timestamp (DataFrame ping_data)) ->
                          exists p, In p ping_data /\ to_seconds (timestamp p) = t).
  { intros t Ht. unfold DataFrame in Ht. rewrite map_map in Ht. cbn in Ht.
    apply in_map_iff in Ht. destruct Ht as (p & E & Hp). exists p. auto. }
  split.
  { intros p Hp. apply Hall. unfold DataFrame. rewrite map_map. cbn.
    apply in_map_iff. exists p. auto. }
  split; [apply Hts; rewrite Hdf; exact m3|].
  split; [apply Hts; rewrite Hdf; exact x3|].
  split; [exact Hdur|]. split; [lia|].
  destruct (detect_disconnections_runs T (DataFrame ping_data))
    as (ds & gs & Hd' & Hrep & _).
  rewrite Hd in Hd'. inversion Hd'; subst ds. clear Hd' Hd.
  revert Hrep. generalize (res_disconnections r). intros ds Hrep.
  induction Hrep as [|d g ds gs Hr1 _ IH]; constructor; [|exact IH].
  destruct Hr1 as (_ & _ & Hst & _ & Hen & _).
  apply timestamp_at_In in Hst, Hen.
  pose proof (Hall _ Hst). pose proof (Hall _ Hen). lia.
Qed.

Lemma analysis_time_range_witness :
  sample_events <> [] /\
  exists r,
    analyze_ping_data "10.0.0.1" sample_events 3 = Some r /\
    0 <= res_duration r /\
    Forall (fun d => res_start_time r <= start_time d /\
                     end_time d <= res_end_time r) (res_disconnections r).
Proof.
  assert (Hne : sample_events <> []) by (vm_compute; discriminate).
  split; [exact Hne|].
  destruct (analysis_time_range "10.0.0.1" sample_events 3 Hne)
    as (r & Hr & _ & _ & _ & _ & H0 & Hd).
  exists r. auto.
Defined.

Lemma percent_bounds part whole :
  0 <= part <= whole -> 0 < whole ->
  (0 <= percent part whole)%Q /\ (percent part whole <= inject_Z 100)%Q /\
  ((percent part whole == 0)%Q <-> part = 0) /\
  ((percent part whole == inject_Z 100)%Q <-> part = whole).
Proof.
  intros Hp Hw. unfold percent.
  destruct whole as [|w|w]; try lia.
  unfold Qle, Qeq, Qdiv, Qmult, Qinv, inject_Z; cbn.
  repeat split; intros; nia.
Qed.

Lemma count_rows_zero (q : row -> bool) l :
  count_rows q l = 0 <-> forall x, In x l -> q x = false.
Proof.
  unfold count_rows. split.
  - intros H x Hx. destruct (q x) eqn:E; [|reflexivity].
    assert (Hin : In x (filter q l)) by (apply filter_In; auto).
    destruct (filter q l); [contradiction|cbn in H; lia].
  - intros H. replace (filter q l) with (@nil row); [reflexivity|].
    symmetry. induction l as [|x l IH]; [reflexivity|]. cbn.
    rewrite (H x (or_introl eq_refl)). apply IH. intros y Hy. apply H. now right.
Qed.

(** The overall loss rate is the share of failed events in percent: it lies
    between 0 and 100, it is 0 exactly when no event failed and 100 exactly
    when every event failed. *)
Theorem overall_loss_rate_spec host ping_data T :
  ping_data <> [] ->
  let df := DataFrame ping_data in
  exists r,
    analyze_ping_data host ping_data T = Some r /\
    res_overall_packet_loss_rate r
    = percent (count_rows is_failure df) (Z.of_nat (length ping_data)) /\
    (0 <= res_overall_packet_loss_rate r)%Q /\
    (res_overall_packet_loss_rate r <= inject_Z 100)%Q /\
    ((res_overall_packet_loss_rate r == 0)%Q <->
     forall p, In p ping_data -> result_of p = success) /\
    ((res_overall_packet_loss_rate r == inject_Z 100)%Q <->
     forall p, In p ping_data -> result_of p = failure).
Proof.
  intros Hne df.
  destruct (analyze_ping_data_summary host ping_data T Hne)
    as (r & r0 & rest & Hdf & Hr & _ & _ & _ & _ & Hrate).
  exists r. split; [exact Hr|].
  fold df in Hdf. rewrite <- Hdf in Hrate.
  pose proof (count_success_failure df) as Hsf.
  assert (Hlen : length df = length ping_data) by (unfold df, DataFrame; apply length_map).
  replace (Z.of_nat (length df) - count_rows is_success df)
    with (count_rows is_failure df) in Hrate by lia.
  rewrite Hlen in Hrate, Hsf.
  pose proof (count_rows_nonneg is_failure df) as Hf0.
  pose proof (count_rows_nonneg is_success df) as Hs0.
  assert (Hpos : 0 < Z.of_nat (length ping_data)).
  { destruct ping_data; [congruence|cbn; lia]. }
  destruct (percent_bounds (count_rows is_failure df) (Z.of_nat (length ping_data)))
    as (B1 & B2 & B3 & B4); [lia|exact Hpos|].
  rewrite Hrate. split; [reflexivity|]. split; [exact B1|]. split; [exact B2|].
  pose proof (fun q => count_rows_zero q df) as Hnone.
  assert (Hrows : forall (P : result -> Prop),
             (forall x, In x df -> P (r_result x)) <->
             (forall p, In p ping_data -> P (result_of p))).
  { intros P. unfold df, DataFrame. split.
    - intros H p Hp. apply (H _ (in_map _ _ _ Hp)).
    - intros H x Hx. apply in_map_iff in Hx. destruct Hx as (p & <- & Hp).
      cbn. now apply H. }
  split.
  - rewrite B3, Hnone, <- (Hrows (fun x => x = success)).
    split; intros H x Hx; specialize (H x Hx).
    + now apply is_failure_false.
    + now apply is_failure_false.
  - rewrite B4, <- (Hrows (fun x => x = failure)).
    split.
    + intros H x Hx.
      assert (Hz : count_rows is_success df = 0) by lia.
      rewrite Hnone in Hz. specialize (Hz x Hx).
      unfold is_success in Hz. destruct (r_result x); [discriminate|reflexivity].
    + intros H.
      assert (Hz : count_rows is_success df = 0).
      { apply Hnone. intros x Hx. specialize (H x Hx).
        unfold is_success. now rewrite H. }
      lia.
Qed.

Lemma overall_loss_rate_spec_witness :
  sample_events <> [] /\
  exists r,
    analyze_ping_data "10.0.0.1" sample_events 3 = Some r /\
    (0 <= res_overall_packet_loss_rate r)%Q /\
    (res_overall_packet_loss_rate r <= inject_Z 100)%Q.
Proof.
  assert (Hne : sample_events <> []) by (vm_compute; discriminate).
  split; [exact Hne|].
  destruct (overall_loss_rate_spec "10.0.0.1" sample_events 3 Hne)
    as (r & Hr & _ & H0 & H1 & _).
  exists r. auto.
Defined.

(** ** Statistics of the disconnections *)

Lemma duration_index_from_spec v ds : forall i,
  (In v (map duration ds) ->
   exists k d,
     duration_index_from i v ds = Some (i + Z.of_nat k + 1) /\
     nth_error ds k = Some d /\ duration d = v /\
     forall k' d', (k' < k)%nat -> nth_error ds k' = Some d' -> duration d' <> v) /\
  (~ In v (map duration ds) -> duration_index_from i v ds = None).
Proof.
  induction ds as [|x ds IH]; intros i; cbn [duration_index_from map].
  - split; [intros []|reflexivity].
  - destruct (Z.eqb_spec (duration x) v) as [E|E].
    + split.
      * intros _. exists 0%nat, x. split; [f_equal; lia|].
        split; [reflexivity|]. split; [exact E|]. intros k' d' Hk. lia.
      * intros H. exfalso. apply H. now left.
    + destruct (IH (i + 1)) as [IH1 IH2]. split.
      * intros [H|H]; [contradiction|].
        destruct (IH1 H) as (k & d & Hi & Hn & Hd & Hfirst).
        exists (S k), d. split; [rewrite Hi; f_equal; lia|].
        split; [exact Hn|]. split; [exact Hd|].
        intros [|k'] d' Hk Hn'; cbn in Hn'.
        -- inversion Hn'; subst. exact E.
        -- apply (Hfirst k' d'); [lia|exact Hn'].
      * intros H. apply IH2. intros H'. apply H. now right.
Qed.

Lemma sum_between (l : list Z) lo hi :
  Forall (fun x => lo <= x <= hi) l ->
  lo * Z.of_nat (length l) <= fold_right Z.add 0 l <= hi * Z.of_nat (length l).
Proof.
  induction 1 as [|x l Hx _ IH]; cbn [fold_right length]; [lia|].
  rewrite Nat2Z.inj_succ. lia.
Qed.

Lemma mean_between s n lo hi :
  0 < n -> lo * n <= s <= hi * n ->
  (inject_Z lo <= inject_Z s / inject_Z n)%Q /\
  (inject_Z s / inject_Z n <= inject_Z hi)%Q.
Proof.
  intros Hn Hs. destruct n as [|n|n]; try lia.
  unfold Qle, Qdiv, Qmult, Qinv, inject_Z; cbn. split; nia.
Qed.

(** [calculate_disconnection_stats] gives nothing exactly when there is no
    disconnection.  Otherwise the minimum and the maximum are durations of
    disconnections, every duration and the average lie between them, and
    the indices that [print_analysis_results] looks up for them exist: each
    is the 1-based position of the first disconnection with that
    duration. *)
Theorem disconnection_stats_spec ds :
  (calculate_disconnection_stats ds = None <-> ds = []) /\
  (forall avg mx mn,
      calculate_disconnection_stats ds = Some (avg, mx, mn) ->
      Forall (fun d => mn <= duration d <= mx) ds /\
      (inject_Z mn <= avg)%Q /\ (avg <= inject_Z mx)%Q /\
      (forall v, v = mx \/ v = mn ->
         exists k d,
           duration_index v ds = Some (Z.of_nat k + 1) /\
           nth_error ds k = Some d /\ duration d = v /\
           forall k' d', (k' < k)%nat -> nth_error ds k' = Some d' ->
                         duration d' <> v)).
Proof.
  split.
  - destruct ds; cbn; split; congruence.
  - intros avg mx mn H. destruct ds as [|d ds]; [discriminate|].
    unfold calculate_disconnection_stats in H. inversion H; subst; clear H.
    destruct (column_min_spec (map duration ds) (duration d)) as (m1 & m2 & m3).
    destruct (column_max_spec (map duration ds) (duration d)) as (x1 & x2 & x3).
    set (mn := column_min (duration d) (map duration ds)) in *.
    set (mx := column_max (duration d) (map duration ds)) in *.
    assert (Hall : Forall (fun x => mn <= x <= mx) (map duration (d :: ds))).
    { cbn [map]. constructor; [lia|].
      rewrite Forall_forall in *. intros x Hx. split; [now apply m2|now apply x2]. }
    split.
    { rewrite Forall_map in Hall. exact Hall. }
    pose proof (sum_between _ _ _ Hall) as Hsum. rewrite length_map in Hsum.
    destruct (mean_between (fold_right Z.add 0 (map duration (d :: ds)))
                (Z.of_nat (length (d :: ds))) mn mx) as [A1 A2];
      [cbn [length]; lia|exact Hsum|].
    split; [exact A1|]. split; [exact A2|].
    intros v Hv.
    assert (Hin : In v (map duration (d :: ds)))
      by (destruct Hv as [->| ->]; assumption).
    destruct (proj1 (duration_index_from_spec v (d :: ds) 0) Hin)
      as (k & d' & Hi & Hn & Hd & Hfirst).
    exists k, d'. unfold duration_index. rewrite Hi.
    split; [f_equal; lia|]. auto.
Qed.

(** In the result of the analysis every disconnection has at least [T]
    failures, so that the average number of failures per disconnection,
    when there is a disconnection, is at least the threshold; and the
    average number of disconnections per hour is always defined, the hourly
    statistics of a non-empty event sequence having at least one row. *)
Theorem summary_figures host ping_data T :
  ping_data <> [] ->
  exists r,
    analyze_ping_data host ping_data T = Some r /\
    res_hourly_stats r <> [] /\
    avg_disconnections_per_hour (res_disconnections r) (res_hourly_stats r)
    = Some (inject_Z (Z.of_nat (length (res_disconnections r)))
            / inject_Z (Z.of_nat (length (res_hourly_stats r))))%Q /\
    (res_disconnections r <> [] ->
     (inject_Z T <= avg_count (res_disconnections r))%Q).
Proof.
  intros Hne.
  destruct (analyze_ping_data_returns host ping_data T Hne) as (r & Hr & Hh & Hd & _).
  exists r. split; [exact Hr|].
  assert (Hhs : res_hourly_stats r <> []).
  { rewrite Hh. unfold hourly_stats_of.
    destruct ping_data as [|p ping_data]; [congruence|].
    assert (Hin : In (to_seconds (hour p)) (group_keys (DataFrame (p :: ping_data)))).
    { apply group_keys_In. eexists. split; [left; reflexivity|reflexivity]. }
    destruct (group_keys (DataFrame (p :: ping_data))); [contradiction|discriminate]. }
  split; [exact Hhs|]. split.
  - unfold avg_disconnections_per_hour.
    destruct (res_hourly_stats r); [congruence|]. reflexivity.
  - intros Hds.
    destruct (detect_disconnections_runs T (DataFrame ping_data))
      as (ds & gs & Hd' & Hrep & _).
    rewrite Hd in Hd'. inversion Hd'; subst ds. clear Hd'.
    apply reports_count in Hrep.
    assert (Hall : Forall (fun x => T <= x <= fold_right Z.max T (map count (res_disconnections r)))
                          (map count (res_disconnections r))).
    { clear Hds Hd. revert Hrep. generalize (res_disconnections r). intros ds Hrep.
      induction Hrep as [|d ds [Hc _] _ IH]; cbn [map fold_right]; constructor.
      - lia.
      - revert IH. apply Forall_impl. intros; lia. }
    pose proof (sum_between _ _ _ Hall) as Hsum. rewrite length_map in Hsum.
    unfold avg_count.
    apply (mean_between _ (Z.of_nat (length (res_disconnections r))) T
             (fold_right Z.max T (map count (res_disconnections r)))).
    + destruct (res_disconnections r); [congruence|cbn [length]; lia].
    + exact Hsum.
Qed.

Lemma summary_figures_witness :
  sample_events <> [] /\
  exists r,
    analyze_ping_data "10.0.0.1" sample_events 3 = Some r /\
    res_hourly_stats r <> [] /\
    (res_disconnections r <> [] ->
     (inject_Z 3 <= avg_count (res_disconnections r))%Q).
Proof.
  assert (Hne : sample_events <> []) by (vm_compute; discriminate).
  split; [exact Hne|].
  destruct (summary_figures "10.0.0.1" sample_events 3 Hne) as (r & Hr & Hh & _ & Ha).
  exists r. auto.
Defined.

(** ** No run is missed *)

Lemma failure_not_success df k : failure_at df k -> success_at df k -> False.
Proof.
  intros (r & Hr & Hf) (r' & Hr' & Hs). rewrite Hr in Hr'. inversion Hr'; subst.
  congruence.
Qed.

(** A maximal run that ends where the prefix ends is the streak of the
    prefix. *)
Lemma streak_unique pre post a c :
  maximal_run (pre ++ post) a c -> (a + c)%nat = length pre -> streak pre = c.
Proof.
  intros (Hc & Hlen & Hf & Hl & _) Hend.
  pose proof (streak_le pre) as Hle.
  destruct (streak_run pre post) as [Sf Sl].
  destruct (Nat.lt_trichotomy (streak pre) c) as [Hlt|[E|Hgt]]; [|exact E|].
  - exfalso. destruct Sl as [Sl|Sl]; [lia|].
    apply (failure_not_success (pre ++ post) (length pre - streak pre - 1));
      [apply Hf; lia|exact Sl].
  - exfalso. destruct Hl as [Hl|Hl]; [lia|].
    apply (failure_not_success (pre ++ post) (a - 1)); [apply Sf; lia|exact Hl].
Qed.

Lemma detector_step_recorded T pre r post st st' :
  let df := pre ++ r :: post in
  1 <= T ->
  detector_inv T df pre st ->
  runs_recorded T df pre st ->
  detector_step T df (Z.of_nat (length pre)) r st = Some st' ->
  runs_recorded T df (pre ++ [r]) st'.
Proof.
  intros df HT Hinv Hrec Hstep a c Hmax Hc Hlt.
  rewrite length_app in Hlt. cbn [length] in Hlt.
  assert (Hnth : nth_error df (length pre) = Some r).
  { unfold df. rewrite nth_error_app2, Nat.sub_diag; [reflexivity|lia]. }
  assert (Hlen : length df = (length pre + S (length post))%nat)
    by (unfold df; rewrite length_app; reflexivity).
  assert (Hkeep : forall d, In d (disconnections st) -> In d (disconnections st')).
  { intros d Hd. unfold detector_step in Hstep.
    destruct (r_result r).
    - destruct (current_disconnection st); inversion Hstep; cbn;
        [apply in_or_app; now left|exact Hd].
    - destruct (failure_count st + 1 =? T).
      + destruct (iloc df (Z.of_nat (length pre) - T + 1)); inversion Hstep; exact Hd.
      + destruct (failure_count st + 1 >? T).
        * destruct (current_disconnection st); inversion Hstep; exact Hd.
        * inversion Hstep; exact Hd. }
  destruct (Nat.eq_dec (a + c) (length pre)) as [Hend|Hne].
  - (* the run ends at [r], which closes it *)
    assert (Hs : r_result r = success).
    { destruct Hmax as (_ & _ & _ & _ & [Hr|(r' & Hr' & Hs)]); [lia|].
      rewrite Hend, Hnth in Hr'. now inversion Hr'; subst. }
    pose proof (streak_unique pre (r :: post) a c Hmax Hend) as Hst.
    assert (Hth : threshold_met T (streak pre) = true)
      by (apply threshold_met_true; lia).
    pose proof (inv_current _ _ _ _ Hinv) as Hcur. rewrite Hth in Hcur.
    destruct Hcur as (r0 & Hr0 & Hcur).
    unfold detector_step in Hstep. rewrite Hs, Hcur in Hstep.
    inversion Hstep; subst st'; cbn [disconnections].
    eexists. split; [apply in_or_app; right; left; reflexivity|].
    replace (a, c) with ((length pre - streak pre)%nat, streak pre)
      by (f_equal; lia).
    now apply reports_closed.
  - destruct (Hrec a c Hmax Hc) as (d & Hd & Hrep); [lia|].
    exists d. split; [now apply Hkeep|exact Hrep].
Qed.

Lemma iterrows_recorded T rows : forall pre rest st st',
  let df := pre ++ rows ++ rest in
  1 <= T ->
  detector_inv T df pre st ->
  runs_recorded T df pre st ->
  iterrows T df (Z.of_nat (length pre)) rows st = Some st' ->
  runs_recorded T df (pre ++ rows) st'.
Proof.
  induction rows as [|r rows IH]; intros pre rest st st' df HT Hinv Hrec Hrun.
  - cbn in Hrun. inversion Hrun; subst. now rewrite app_nil_r.
  - subst df. change ((r :: rows) ++ rest) with (r :: rows ++ rest) in *.
    set (df := pre ++ r :: rows ++ rest) in *.
    destruct (detector_step_inv T pre r (rows ++ rest) st Hinv)
      as (st1 & Hstep & Hinv1).
    fold df in Hstep, Hinv1. cbn [iterrows] in Hrun. rewrite Hstep in Hrun.
    pose proof (detector_step_recorded T pre r (rows ++ rest) st st1 HT Hinv Hrec Hstep)
      as Hrec1.
    fold df in Hrec1.
    assert (Hdf : df = (pre ++ [r]) ++ rows ++ rest)
      by (unfold df; now rewrite <- app_assoc).
    rewrite Hdf in Hinv1, Hrec1, Hrun.
    replace (Z.of_nat (length pre) + 1) with (Z.of_nat (length (pre ++ [r]))) in Hrun
      by (rewrite length_app; cbn [length]; lia).
    pose proof (IH (pre ++ [r]) rest st1 st' HT Hinv1 Hrec1 Hrun) as H.
    rewrite <- Hdf in H. now rewrite <- app_assoc in H.
Qed.

(** With [T >= 1] the detector misses nothing: every maximal run of at
    least [T] consecutive failures in the events is reported by one of the
    disconnections returned, with the length of the run as [count], the
    time of its first failure as [start_time] and the time of the row that
    ends it (the success that follows, or the last row) as [end_time]. *)
Theorem every_run_reported host ping_data T :
  1 <= T ->
  ping_data <> [] ->
  let df := DataFrame ping_data in
  exists r,
    analyze_ping_data host ping_data T = Some r /\
    forall a c,
      maximal_run df a c -> T <= Z.of_nat c ->
      exists d,
        In d (res_disconnections r) /\
        count d = Z.of_nat c /\
        timestamp_at df a = Some (start_time d) /\
        timestamp_at df (run_end df a c) = Some (end_time d) /\
        duration d = end_time d - start_time d.
Proof.
  intros HT Hne df.
  destruct (analyze_ping_data_returns host ping_data T Hne) as (r & Hr & _ & Hd & _).
  fold df in Hd. exists r. split; [exact Hr|].
  intros a c Hmax Hc.
  assert (Hgoal : exists d, In d (res_disconnections r) /\ reports T df d (a, c)).
  { destruct (detect_disconnections_final T df)
      as (st & Hst & Hinv &
          [(Hth & Hcur & Hd')|(Hth & o & pre & last & Hdf & Hcur & Hd' & Hrep)]).
    - (* no run open at the end *)
      rewrite Hd in Hd'. inversion Hd' as [Hds].
      pose proof (iterrows_recorded T df [] [] detector_init st HT) as Hrec.
      cbn [app length] in Hrec. rewrite app_nil_r in Hrec.
      specialize (Hrec (detector_inv_init T df)).
      assert (H0 : runs_recorded T df [] detector_init)
        by (intros a' c' _ _ Hlt; cbn in Hlt; lia).
      specialize (Hrec H0 Hst).
      destruct (Nat.eq_dec (a + c) (length df)) as [Hend|Hne'].
      + exfalso. pose proof (streak_unique df [] a c) as Hu.
        rewrite app_nil_r in Hu. specialize (Hu Hmax Hend).
        apply threshold_met_false in Hth. lia.
      + rewrite Hds. apply Hrec; [exact Hmax|exact Hc|].
        destruct Hmax as (_ & Hlen & _). lia.
    - rewrite Hd in Hd'. inversion Hd' as [Hds].
      pose proof (iterrows_recorded T df [] [] detector_init st HT) as Hrec.
      cbn [app length] in Hrec. rewrite app_nil_r in Hrec.
      specialize (Hrec (detector_inv_init T df)).
      assert (H0 : runs_recorded T df [] detector_init)
        by (intros a' c' _ _ Hlt; cbn in Hlt; lia).
      specialize (Hrec H0 Hst).
      destruct (Nat.eq_dec (a + c) (length df)) as [Hend|Hne'].
      + pose proof (streak_unique df [] a c) as Hu.
        rewrite app_nil_r in Hu. specialize (Hu Hmax Hend).
        exists (close_run o (r_timestamp last)). rewrite Hds.
        split; [apply in_or_app; right; left; reflexivity|].
        replace (a, c) with ((length df - streak df)%nat, streak df)
          by (f_equal; lia).
        exact Hrep.
      + destruct (Hrec a c Hmax Hc) as (d & Hin & Hrep');
          [destruct Hmax as (_ & Hlen & _); lia|].
        exists d. rewrite Hds. split; [apply in_or_app; now left|exact Hrep']. }
  destruct Hgoal as (d & Hin & (_ & _ & H1 & H2 & H3 & H4)).
  exists d. cbn [fst snd] in *. auto.
Qed.

Lemma every_run_reported_witness :
  1 <= 3 /\ sample_events <> [] /\
  exists r,
    analyze_ping_data "10.0.0.1" sample_events 3 = Some r /\
    forall a c,
      maximal_run (DataFrame sample_events) a c -> 3 <= Z.of_nat c ->
      exists d,
        In d (res_disconnections r) /\
        count d = Z.of_nat c /\
        timestamp_at (DataFrame sample_events) a = Some (start_time d) /\
        timestamp_at (DataFrame sample_events)
          (run_end (DataFrame sample_events) a c) = Some (end_time d) /\
        duration d = end_time d - start_time d.
Proof.
  split; [lia|]. split; [vm_compute; discriminate|].
  apply (every_run_reported "10.0.0.1" sample_events 3);
    [lia|vm_compute; discriminate].
Defined.

(** ** The hourly counts when there is a disconnection *)

Lemma starts_in_hour_cons h d ds :
  starts_in_hour h (d :: ds)
  = (if floor_hour (start_time d) =? h then 1 else 0) + starts_in_hour h ds.
Proof.
  unfold starts_in_hour. cbn [filter].
  destruct (floor_hour (start_time d) =? h); cbn [length]; lia.
Qed.

(** Counting the disconnections hour by hour counts each of them once. *)
Lemma sum_over_starts keys ds :
  NoDup keys ->
  (forall d, In d ds -> In (floor_hour (start_time d)) keys) ->
  sum_over (fun h => starts_in_hour h ds) keys = Z.of_nat (length ds).
Proof.
  intros Hnd. induction ds as [|d ds IH]; intros Hin.
  - unfold starts_in_hour; cbn. apply sum_over_zero.
  - rewrite (sum_over_ext _
      (fun h => (if floor_hour (start_time d) =? h then 1 else 0)
                + starts_in_hour h ds)) by (intros h; apply starts_in_hour_cons).
    rewrite sum_over_add, IH by (intros x Hx; apply Hin; now right).
    rewrite sum_over_indicator by exact Hnd.
    destruct (in_dec Z.eq_dec (floor_hour (start_time d)) keys) as [_|Hno].
    + cbn [length]. lia.
    + exfalso. apply Hno, Hin. now left.
Qed.

Lemma floor_hour_multiple t : floor_hour t = 3600 * (t / 3600).
Proof. unfold floor_hour. pose proof (Z.div_mod t 3600). lia. Qed.

(** The hours of the rows lie in the range of hours of the frame. *)
Lemma hours_of_covers df x :
  (forall y, In y df -> r_hour y = floor_hour (r_timestamp y)) ->
  In x df -> In (r_hour x) (hours_of df).
Proof.
  intros Hc Hx. destruct df as [|r0 rest]; [contradiction|].
  unfold hours_of.
  destruct (column_min_spec (map r_hour rest) (r_hour r0)) as (m1 & m2 & m3).
  destruct (column_max_spec (map r_hour rest) (r_hour r0)) as (x1 & x2 & x3).
  set (lo := column_min (r_hour r0) (map r_hour rest)) in *.
  set (hi := column_max (r_hour r0) (map r_hour rest)) in *.
  apply date_range_In.
  assert (Hb : lo <= r_hour x <= hi).
  { destruct Hx as [<-|Hx]; [lia|].
    rewrite Forall_forall in m2, x2.
    split; [apply m2|apply x2]; now apply in_map. }
  split; [exact Hb|].
  change (r_hour r0 :: map r_hour rest) with (map r_hour (r0 :: rest)) in m3.
  apply in_map_iff in m3. destruct m3 as (y & Hy & Hyin).
  rewrite <- Hy, (Hc y Hyin), (Hc x Hx), !floor_hour_multiple.
  replace (3600 * (r_timestamp x / 3600) - 3600 * (r_timestamp y / 3600))
    with ((r_timestamp x / 3600 - r_timestamp y / 3600) * 3600) by lia.
  apply Z.mod_mul. lia.
Qed.

Lemma read_events_hours file p :
  In p (snd (fst (read_ping_data file))) ->
  to_seconds (hour p) = floor_hour (to_seconds (timestamp p)).
Proof.
  rewrite read_ping_data_eq. cbn [fst snd]. intros Hp.
  apply parse_lines_events in Hp. destruct Hp as (l & _ & Hl).
  now apply parsed_hour_bucket in Hl.
Qed.

(** When the hour of every event is its timestamp rounded down to the hour,
    as it is for the events read from a file, and at least one
    disconnection is found, the frame of hourly counts is dense: its rows
    are the hours from the first to the last hour of the events in steps of
    one hour, each once; its [count] column holds, row by row, the number
    of disconnections that start in that hour; and the counts add up to the
    number of disconnections. *)
Theorem hourly_counts_dense host ping_data T :
  ping_data <> [] ->
  (forall p, In p ping_data ->
             to_seconds (hour p) = floor_hour (to_seconds (timestamp p))) ->
  exists r,
    analyze_ping_data host ping_data T = Some r /\
    (res_disconnections r <> [] ->
     let f := res_hourly_disconnection_df r in
     NoDup (f_index f) /\
     (forall h, In h (f_index f) <->
                exists lo hi,
                  (exists p, In p ping_data /\ to_seconds (hour p) = lo) /\
                  (exists p, In p ping_data /\ to_seconds (hour p) = hi) /\
                  (forall p, In p ping_data -> lo <= to_seconds (hour p) <= hi) /\
                  lo <= h <= hi /\ (h - lo) mod 3600 = 0) /\
     getitem "count" f
     = Some (map (fun h => starts_in_hour h (res_disconnections r)) (f_index f)) /\
     fold_right Z.add 0
       (map (fun h => starts_in_hour h (res_disconnections r)) (f_index f))
     = Z.of_nat (length (res_disconnections r))).
Proof.
  intros Hne Hcons.
  destruct (analyze_ping_data_returns host ping_data T Hne) as (r & Hr & _ & Hd & _).
  exists r. split; [exact Hr|]. intros Hds f.
  pose proof (some_disconnection_counts host ping_data T r Hr Hds) as Hf.
  fold f in Hf. set (df := DataFrame ping_data) in *.
  assert (Hcr : forall y, In y df -> r_hour y = floor_hour (r_timestamp y)).
  { intros y Hy. unfold df, DataFrame in Hy. apply in_map_iff in Hy.
    destruct Hy as (p & <- & Hp). cbn. now apply Hcons. }
  rewrite Hf. cbn [f_index]. split; [|split; [|split]].
  - unfold hours_of. destruct df; [constructor|apply date_range_NoDup].
  - intros h. destruct df as [|r0 rest] eqn:Edf.
    { destruct ping_data; [congruence|discriminate]. }
    unfold hours_of. rewrite date_range_In.
    destruct (column_min_spec (map r_hour rest) (r_hour r0)) as (m1 & m2 & m3).
    destruct (column_max_spec (map r_hour rest) (r_hour r0)) as (x1 & x2 & x3).
    set (lo := column_min (r_hour r0) (map r_hour rest)) in *.
    set (hi := column_max (r_hour r0) (map r_hour rest)) in *.
    assert (Hrows : forall v, In v (map r_hour (r0 :: rest)) <->
                              exists p, In p ping_data /\ to_seconds (hour p) = v).
    { intros v. rewrite <- Edf. unfold df, DataFrame. rewrite map_map. cbn.
      rewrite in_map_iff. split; intros (p & H1 & H2); exists p; auto. }
    assert (Hbounds : forall p, In p ping_data -> lo <= to_seconds (hour p) <= hi).
    { intros p Hp.
      assert (Hin : In (to_seconds (hour p)) (map r_hour (r0 :: rest)))
        by (apply Hrows; exists p; auto).
      cbn [map] in Hin. destruct Hin as [<-|Hin]; [lia|].
      rewrite Forall_forall in m2, x2. split; [now apply m2|now apply x2]. }
    split.
    + intros [Hb Hm]. exists lo, hi.
      split; [now apply Hrows|]. split; [now apply Hrows|]. auto.
    + intros (lo' & hi' & (p1 & Hp1 & E1) & (p2 & Hp2 & E2) & Hall & Hb & Hm).
      assert (Elo : lo' = lo).
      { destruct (proj1 (Hrows lo) m3) as (q & Hq & Eq).
        pose proof (Hall q Hq). pose proof (Hbounds p1 Hp1). lia. }
      assert (Ehi : hi' = hi).
      { destruct (proj1 (Hrows hi) x3) as (q & Hq & Eq).
        pose proof (Hall q Hq). pose proof (Hbounds p2 Hp2). lia. }
      rewrite Elo in Hb, Hm. rewrite Ehi in Hb. split; assumption.
  - reflexivity.
  - apply (sum_over_starts (hours_of df) (res_disconnections r)).
    + unfold hours_of. destruct df; [constructor|apply date_range_NoDup].
    + intros d Hin.
      destruct (detect_disconnections_runs T df) as (ds & gs & Hd' & Hrep & _).
      rewrite Hd in Hd'. inversion Hd'; subst ds. clear Hd'.
      apply reports_count in Hrep. rewrite Forall_forall in Hrep.
      destruct (Hrep d Hin) as (_ & a & c & _ & _ & Hts).
      unfold timestamp_at in Hts.
      destruct (nth_error df a) as [x|] eqn:Ex; [|discriminate].
      inversion Hts as [Et]. apply nth_error_In in Ex.
      rewrite <- (Hcr x Ex). now apply hours_of_covers.
Qed.

Lemma hourly_counts_dense_witness :
  sample_events <> [] /\
  (forall p, In p sample_events ->
             to_seconds (hour p) = floor_hour (to_seconds (timestamp p))) /\
  exists r,
    analyze_ping_data "10.0.0.1" sample_events 3 = Some r /\
    (res_disconnections r <> [] ->
     NoDup (f_index (res_hourly_disconnection_df r)) /\
     fold_right Z.add 0
       (map (fun h => starts_in_hour h (res_disconnections r))
            (f_index (res_hourly_disconnection_df r)))
     = Z.of_nat (length (res_disconnections r))).
Proof.
  assert (Hne : sample_events <> []) by (vm_compute; discriminate).
  assert (Hc : forall p, In p sample_events ->
                         to_seconds (hour p) = floor_hour (to_seconds (timestamp p)))
    by (intros p; apply read_events_hours).
  split; [exact Hne|]. split; [exact Hc|].
  destruct (hourly_counts_dense "10.0.0.1" sample_events 3 Hne Hc) as (r & Hr & H).
  exists r. split; [exact Hr|]. intros Hds.
  destruct (H Hds) as (H1 & _ & _ & H2). auto.
Defined.

(** ** What main prints when the analysis runs *)



(** ** Durations and the number of disconnections *)

(** Strictly increasing timestamps, which are whole seconds, grow by at
    least one second per row. *)
Lemma sorted_rows_gap df :
  StronglySorted Z.lt (map r_timestamp df) ->
  forall j i x y,
    (i <= j)%nat -> timestamp_at df i = Some x -> timestamp_at df j = Some y ->
    Z.of_nat (j - i) <= y - x.
Proof.
  intros Hs. induction j as [|j IH]; intros i x y Hij Hx Hy.
  - assert (i = 0)%nat by lia. subst. rewrite Hx in Hy. inversion Hy. lia.
  - destruct (Nat.eq_dec i (S j)) as [->|Hne].
    + rewrite Hx in Hy. inversion Hy. lia.
    + assert (Hj : exists z, timestamp_at df j = Some z).
      { unfold timestamp_at in *.
        destruct (nth_error df j) as [rj|] eqn:E; [eexists; reflexivity|].
        apply nth_error_None in E.
        destruct (nth_error df (S j)) eqn:E'; [|discriminate].
        assert (S j < length df)%nat by (apply nth_error_Some; congruence). lia. }
      destruct Hj as (z & Hz).
      pose proof (IH i x z ltac:(lia) Hx Hz) as Hgap.
      pose proof (sorted_rows Z.lt df Hs j (S j) z y ltac:(lia) Hz Hy) as Hlt.
      lia.
Qed.

Lemma sum_counts_at_least T ds :
  Forall (fun d => T <= count d) ds -> T * Z.of_nat (length ds) <= sum_counts ds.
Proof.
  unfold sum_counts.
  induction 1 as [|d ds Hd _ IH]; cbn [map fold_right length]; [lia|].
  rewrite Nat2Z.inj_succ. lia.
Qed.

(** The duration of every disconnection is the difference of its end and
    its start.  When the timestamps of the events do not decrease, no
    duration is negative; when they increase strictly, a disconnection of
    [count] failures lasts at least [count - 1] seconds.  With [T >= 1]
    there are at most (number of failed events) / [T] disconnections. *)
Theorem duration_and_count_bounds host ping_data T :
  ping_data <> [] ->
  let df := DataFrame ping_data in
  exists r,
    analyze_ping_data host ping_data T = Some r /\
    Forall (fun d => duration d = end_time d - start_time d)
           (res_disconnections r) /\
    (StronglySorted Z.le (map r_timestamp df) ->
     Forall (fun d => 0 <= duration d) (res_disconnections r)) /\
    (StronglySorted Z.lt (map r_timestamp df) ->
     Forall (fun d => count d - 1 <= duration d) (res_disconnections r)) /\
    (1 <= T ->
     T * Z.of_nat (length (res_disconnections r)) <= count_rows is_failure df /\
     Z.of_nat (length (res_disconnections r)) <= count_rows is_failure df / T).
Proof.
  intros Hne df.
  destruct (analyze_ping_data_returns host ping_data T Hne) as (r & Hr & _ & Hd & _).
  fold df in Hd. exists r. split; [exact Hr|].
  destruct (detect_disconnections_runs T df) as (ds & gs & Hd' & Hrep & _ & Hsum).
  rewrite Hd in Hd'. inversion Hd'; subst ds. clear Hd' Hd.
  assert (Hevery : forall (P : disconnection -> Prop),
             (forall d a c, reports T df d (a, c) -> P d) ->
             Forall P (res_disconnections r)).
  { intros P HP. revert Hrep. generalize (res_disconnections r). intros ds Hrep.
    induction Hrep as [|d [a c] ds gs Hr1 _ IH]; constructor; [|exact IH].
    exact (HP d a c Hr1). }
  split; [|split; [|split]].
  - apply Hevery. intros d a c (_ & _ & _ & _ & _ & Hdur). exact Hdur.
  - intros Hs. apply Hevery. intros d a c (Hmax & _ & Hst & _ & Hen & Hdur).
    cbn [fst snd] in *. destruct (run_end_bounds df a c Hmax) as [Hb _].
    destruct (Nat.eq_dec a (run_end df a c)) as [E|E].
    + rewrite <- E, Hst in Hen. inversion Hen. lia.
    + pose proof (sorted_rows Z.le df Hs a (run_end df a c) _ _
                    ltac:(lia) Hst Hen). lia.
  - intros Hs. apply Hevery. intros d a c (Hmax & _ & Hst & Hc & Hen & Hdur).
    cbn [fst snd] in *. destruct (run_end_bounds df a c Hmax) as [Hb _].
    pose proof (sorted_rows_gap df Hs (run_end df a c) a _ _ ltac:(lia) Hst Hen) as Hgap.
    assert (Hre : (a + c - 1 <= run_end df a c)%nat).
    { unfold run_end. destruct Hmax as (_ & Hlen & _).
      destruct (Nat.ltb_spec (a + c) (length df)); lia. }
    lia.
  - intros HT.
    assert (Hc : Forall (fun d => T <= count d) (res_disconnections r)).
    { apply Hevery. intros d a c (_ & H1 & _ & H2 & _). cbn [snd] in *. lia. }
    pose proof (sum_counts_at_least T _ Hc) as Hlow.
    split; [lia|].
    apply Z.div_le_lower_bound; lia.
Qed.

Lemma duration_and_count_bounds_witness :
  sample_events <> [] /\
  StronglySorted Z.lt (map r_timestamp (DataFrame sample_events)) /\
  exists r,
    analyze_ping_data "10.0.0.1" sample_events 3 = Some r /\
    Forall (fun d => count d - 1 <= duration d) (res_disconnections r).
Proof.
  assert (Hne : sample_events <> []) by (vm_compute; discriminate).
  assert (Hs : StronglySorted Z.lt (map r_timestamp (DataFrame sample_events)))
    by (vm_compute; repeat constructor).
  split; [exact Hne|]. split; [exact Hs|].
  destruct (duration_and_count_bounds "10.0.0.1" sample_events 3 Hne)
    as (r & Hr & _ & _ & Hlt & _).
  exists r. split; [exact Hr|exact (Hlt Hs)].
Defined.

(** ** Reading line by line *)

Lemma parse_lines_app a b :
  parse_lines (a ++ b)
  = (fst (parse_lines a) ++ fst (parse_lines b),
     snd (parse_lines a) ++ snd (parse_lines b)).
Proof.
  induction a as [|l a IH]; cbn [app parse_lines].
  - now destruct (parse_lines b).
  - rewrite IH. destruct (parse_lines a) as [da ea].
    destruct (parse_lines b) as [db eb]. cbn [fst snd].
    destruct (parse_line l); reflexivity.
Qed.

(** Lines are read one by one and independently: the events and the parse
    errors of a file are those of its first part followed by those of the
    rest, in the order of the lines, and a line that is neither a data line
    nor an error adds nothing anywhere in the file. *)
Theorem reading_is_linewise first a b :
  snd (fst (read_ping_data (first :: a ++ b)))
  = snd (fst (read_ping_data (first :: a))) ++ snd (fst (read_ping_data (first :: b))) /\
  snd (read_ping_data (first :: a ++ b))
  = snd (read_ping_data (first :: a)) ++ snd (read_ping_data (first :: b)) /\
  (forall noise,
      parse_line noise = Skipped ->
      snd (fst (read_ping_data (first :: a ++ noise :: b)))
      = snd (fst (read_ping_data (first :: a ++ b))) /\
      snd (read_ping_data (first :: a ++ noise :: b))
      = snd (read_ping_data (first :: a ++ b))).
Proof.
  rewrite !read_ping_data_eq. cbn [fst snd tl].
  rewrite parse_lines_app. cbn [fst snd].
  split; [reflexivity|]. split; [reflexivity|].
  intros noise Hn. rewrite !read_ping_data_eq. cbn [fst snd tl].
  rewrite !parse_lines_app. cbn [fst snd parse_lines]. rewrite Hn.
  destruct (parse_lines b). split; reflexivity.
Qed.

(** ** The order of the events *)

Lemma count_rows_perm (q : row -> bool) l l' :
  Permutation l l' -> count_rows q l = count_rows q l'.
Proof.
  induction 1 as [|x l l' _ IH|x y l|l l' l'' _ IH1 _ IH2].
  - reflexivity.
  - rewrite !count_rows_cons, IH. reflexivity.
  - rewrite !count_rows_cons. lia.
  - congruence.
Qed.

Lemma sorted_lt_unique l1 : forall l2,
  StronglySorted Z.lt l1 -> StronglySorted Z.lt l2 ->
  (forall x, In x l1 <-> In x l2) -> l1 = l2.
Proof.
  induction l1 as [|a l1 IH]; intros l2 H1 H2 Hin.
  - destruct l2 as [|b l2]; [reflexivity|].
    exfalso. apply (Hin b). now left.
  - destruct l2 as [|b l2].
    + exfalso. apply (Hin a). now left.
    + inversion H1 as [|? ? S1 F1]; inversion H2 as [|? ? S2 F2]; subst.
      rewrite Forall_forall in F1, F2.
      assert (a = b).
      { destruct (proj1 (Hin a) (or_introl eq_refl)) as [E|Ha]; [congruence|].
        destruct (proj2 (Hin b) (or_introl eq_refl)) as [E|Hb]; [congruence|].
        specialize (F1 b Hb). specialize (F2 a Ha). lia. }
      subst b. f_equal. apply IH; [exact S1|exact S2|].
      intros x. split; intros Hx.
      * destruct (proj1 (Hin x) (or_intror Hx)) as [E|H]; [|exact H].
        subst x. specialize (F1 a Hx). lia.
      * destruct (proj2 (Hin x) (or_intror Hx)) as [E|H]; [|exact H].
        subst x. specialize (F2 a Hx). lia.
Qed.

Lemma group_keys_perm df df' :
  Permutation df df' -> group_keys df = group_keys df'.
Proof.
  intros Hp. apply sorted_lt_unique; try apply group_keys_sorted.
  intros h. rewrite !group_keys_In. split; intros (x & Hx & E); exists x.
  - split; [now apply (Permutation_in _ Hp)|exact E].
  - split; [now apply (Permutation_in _ (Permutation_sym Hp))|exact E].
Qed.

Lemma hourly_group_eq df h :
  hourly_group df h
  = mk_hourly h (count_rows (in_hour h) df)
      (count_rows (fun r => in_hour h r && is_success r) df)
      (count_rows (in_hour h) df
       - count_rows (fun r => in_hour h r && is_success r) df)
      (percent (count_rows (in_hour h) df
                - count_rows (fun r => in_hour h r && is_success r) df)
               (count_rows (in_hour h) df)).
Proof.
  unfold hourly_group.
  replace (count_rows is_success (filter (in_hour h) df))
    with (count_rows (fun r => in_hour h r && is_success r) df)
    by (unfold count_rows; now rewrite filter_in_hour).
  reflexivity.
Qed.

Lemma hourly_stats_of_perm df df' :
  Permutation df df' -> hourly_stats_of df = hourly_stats_of df'.
Proof.
  intros Hp. unfold hourly_stats_of. rewrite (group_keys_perm df df' Hp).
  apply map_ext. intros h. rewrite !hourly_group_eq.
  now rewrite !(count_rows_perm _ df df' Hp).
Qed.

Lemma column_min_perm x xs y ys :
  Permutation (x :: xs) (y :: ys) -> column_min x xs = column_min y ys.
Proof.
  intros Hp.
  destruct (column_min_spec xs x) as (a1 & a2 & a3).
  destruct (column_min_spec ys y) as (b1 & b2 & b3).
  assert (A : forall z, In z (x :: xs) -> column_min x xs <= z).
  { intros z [<-|Hz]; [exact a1|]. rewrite Forall_forall in a2. now apply a2. }
  assert (B : forall z, In z (y :: ys) -> column_min y ys <= z).
  { intros z [<-|Hz]; [exact b1|]. rewrite Forall_forall in b2. now apply b2. }
  pose proof (A _ (Permutation_in _ (Permutation_sym Hp) b3)).
  pose proof (B _ (Permutation_in _ Hp a3)). lia.
Qed.

Lemma column_max_perm x xs y ys :
  Permutation (x :: xs) (y :: ys) -> column_max x xs = column_max y ys.
Proof.
  intros Hp.
  destruct (column_max_spec xs x) as (a1 & a2 & a3).
  destruct (column_max_spec ys y) as (b1 & b2 & b3).
  assert (A : forall z, In z (x :: xs) -> z <= column_max x xs).
  { intros z [<-|Hz]; [exact a1|]. rewrite Forall_forall in a2. now apply a2. }
  assert (B : forall z, In z (y :: ys) -> z <= column_max y ys).
  { intros z [<-|Hz]; [exact b1|]. rewrite Forall_forall in b2. now apply b2. }
  pose proof (A _ (Permutation_in _ (Permutation_sym Hp) b3)).
  pose proof (B _ (Permutation_in _ Hp a3)). lia.
Qed.

(** The hourly statistics, the overall loss rate and the time range do not
    depend on the order of the events: the same events in another order
    give the same values.  (The disconnections do depend on it.) *)
Theorem aggregates_ignore_order host ping_data ping_data' T :
  ping_data <> [] ->
  Permutation ping_data ping_data' ->
  exists r r',
    analyze_ping_data host ping_data T = Some r /\
    analyze_ping_data host ping_data' T = Some r' /\
    res_hourly_stats r = res_hourly_stats r' /\
    res_overall_packet_loss_rate r = res_overall_packet_loss_rate r' /\
    res_start_time r = res_start_time r' /\
    res_end_time r = res_end_time r' /\
    res_duration r = res_duration r'.
Proof.
  intros Hne Hp.
  assert (Hne' : ping_data' <> []).
  { intros ->. apply Permutation_sym, Permutation_nil in Hp. contradiction. }
  destruct (analyze_ping_data_summary host ping_data T Hne)
    as (r & r0 & rest & Hdf & Hr & _ & Hs & He & Hdur & Hrate).
  destruct (analyze_ping_data_summary host ping_data' T Hne')
    as (r' & r0' & rest' & Hdf' & Hr' & _ & Hs' & He' & Hdur' & Hrate').
  destruct (analyze_ping_data_returns host ping_data T Hne) as (r1 & Hr1 & Hh & _).
  destruct (analyze_ping_data_returns host ping_data' T Hne') as (r1' & Hr1' & Hh' & _).
  rewrite Hr in Hr1. inversion Hr1; subst r1.
  rewrite Hr' in Hr1'. inversion Hr1'; subst r1'.
  assert (Hpd : Permutation (DataFrame ping_data) (DataFrame ping_data'))
    by (unfold DataFrame; now apply Permutation_map).
  assert (Hpt : Permutation (map r_timestamp (r0 :: rest)) (map r_timestamp (r0' :: rest')))
    by (rewrite <- Hdf, <- Hdf'; now apply Permutation_map).
  exists r, r'. split; [exact Hr|]. split; [exact Hr'|].
  assert (Es : res_start_time r = res_start_time r')
    by (rewrite Hs, Hs'; now apply column_min_perm).
  assert (Ee : res_end_time r = res_end_time r')
    by (rewrite He, He'; now apply column_max_perm).
  split; [rewrite Hh, Hh'; now apply hourly_stats_of_perm|].
  split.
  - rewrite Hrate, Hrate', <- Hdf, <- Hdf'.
    rewrite (Permutation_length Hpd), (count_rows_perm _ _ _ Hpd). reflexivity.
  - split; [exact Es|]. split; [exact Ee|]. rewrite Hdur, Hdur'. congruence.
Qed.

Lemma aggregates_ignore_order_witness :
  sample_events <> [] /\
  Permutation sample_events (rev sample_events) /\
  exists r r',
    analyze_ping_data "10.0.0.1" sample_events 3 = Some r /\
    analyze_ping_data "10.0.0.1" (rev sample_events) 3 = Some r' /\
    res_hourly_stats r = res_hourly_stats r' /\
    res_overall_packet_loss_rate r = res_overall_packet_loss_rate r'.
Proof.
  assert (Hne : sample_events <> []) by (vm_compute; discriminate).
  assert (Hp : Permutation sample_events (rev sample_events))
    by apply Permutation_rev.
  split; [exact Hne|]. split; [exact Hp|].
  destruct (aggregates_ignore_order "10.0.0.1" sample_events (rev sample_events) 3 Hne Hp)
    as (r & r' & H1 & H2 & H3 & H4 & _).
  exists r, r'. auto.
Defined.

(** ** The chart of durations *)

Lemma insert_keys_In l h : In h (fold_right insert_key [] l) <-> In h l.
Proof.
  induction l as [|x l IH]; cbn [fold_right]; [tauto|].
  rewrite insert_key_In, IH. cbn. intuition.
Qed.

Lemma insert_keys_sorted l : StronglySorted Z.lt (fold_right insert_key [] l).
Proof.
  induction l as [|x l IH]; cbn [fold_right]; [constructor|].
  now apply insert_key_sorted.
Qed.

(** Counting the occurrences of every distinct value counts every element
    once. *)
Lemma sum_over_count_occ keys l :
  NoDup keys -> (forall x, In x l -> In x keys) ->
  sum_over (fun v => Z.of_nat (count_occ Z.eq_dec l v)) keys = Z.of_nat (length l).
Proof.
  intros Hnd. induction l as [|x l IH]; intros Hin.
  - cbn. apply sum_over_zero.
  - rewrite (sum_over_ext _
      (fun v => (if x =? v then 1 else 0) + Z.of_nat (count_occ Z.eq_dec l v))).
    2:{ intros v. cbn [count_occ].
        destruct (Z.eq_dec x v) as [E|E]; destruct (Z.eqb_spec x v); try congruence; lia. }
    rewrite sum_over_add, IH by (intros y Hy; apply Hin; now right).
    rewrite sum_over_indicator by exact Hnd.
    destruct (in_dec Z.eq_dec x keys) as [_|Hno]; [cbn [length]; lia|].
    exfalso. apply Hno, Hin. now left.
Qed.

(** The chart of durations is drawn exactly when there is a disconnection.
    It has one bar for every distinct duration, the height of a bar is the
    number of disconnections of that duration and is at least 1, and the
    heights add up to the number of disconnections. *)
Theorem duration_counts_spec ds :
  (duration_counts ds = None <-> ds = []) /\
  (forall bars,
      duration_counts ds = Some bars ->
      NoDup (map fst bars) /\
      (forall v, In v (map fst bars) <-> exists d, In d ds /\ duration d = v) /\
      Forall (fun b =>
                snd b = Z.of_nat (length (filter (fun d => duration d =? fst b) ds)) /\
                1 <= snd b) bars /\
      fold_right Z.add 0 (map snd bars) = Z.of_nat (length ds)).
Proof.
  split.
  - destruct ds; cbn; split; congruence.
  - intros bars H.
    assert (Hb : bars = map (fun v => (v, Z.of_nat (count_occ Z.eq_dec (map duration ds) v)))
                            (fold_right insert_key [] (map duration ds))).
    { destruct ds; [discriminate|]. unfold duration_counts in H. now inversion H. }
    clear H. subst bars.
    set (durations := map duration ds).
    set (keys := fold_right insert_key [] durations).
    assert (Hkeys : map fst (map (fun v => (v, Z.of_nat (count_occ Z.eq_dec durations v))) keys)
                    = keys).
    { rewrite map_map. cbn. apply map_id. }
    assert (Hocc : forall v, count_occ Z.eq_dec durations v
                             = length (filter (fun d => duration d =? v) ds)).
    { intros v. unfold durations. clear. induction ds as [|d ds IH]; [reflexivity|].
      cbn [map count_occ filter].
      destruct (Z.eq_dec (duration d) v) as [E|E];
        destruct (Z.eqb_spec (duration d) v); try congruence; cbn [length]; now rewrite IH. }
    rewrite Hkeys. split; [|split; [|split]].
    + apply sorted_lt_NoDup, insert_keys_sorted.
    + intros v. unfold keys. rewrite insert_keys_In. unfold durations.
      rewrite in_map_iff. split; intros (d & H1 & H2); exists d; auto.
    + apply Forall_forall. intros b Hbin. apply in_map_iff in Hbin.
      destruct Hbin as (v & <- & Hv). cbn [fst snd]. rewrite Hocc.
      split; [reflexivity|].
      unfold keys in Hv. apply (proj1 (insert_keys_In durations v)) in Hv.
      pose proof (proj1 (count_occ_In Z.eq_dec durations v) Hv) as Hpos.
      rewrite Hocc in Hpos. lia.
    + rewrite map_map. cbn [snd].
      change (sum_over (fun v => Z.of_nat (count_occ Z.eq_dec durations v)) keys
              = Z.of_nat (length ds)).
      rewrite sum_over_count_occ.
      * unfold durations. now rewrite length_map.
      * apply sorted_lt_NoDup, insert_keys_sorted.
      * intros x Hx. unfold keys. now apply insert_keys_In.
Qed.

(** ** A longer log extends the disconnections of a shorter one *)

Lemma detector_step_same_prefix T pre r rest1 rest2 st :
  detector_inv T (pre ++ r :: rest1) pre st ->
  detector_step T (pre ++ r :: rest1) (Z.of_nat (length pre)) r st
  = detector_step T (pre ++ r :: rest2) (Z.of_nat (length pre)) r st.
Proof.
  intros Hinv. unfold detector_step.
  destruct (r_result r); [reflexivity|].
  destruct (Z.eqb_spec (failure_count st + 1) T) as [E|E]; [|reflexivity].
  pose proof (inv_counter _ _ _ _ Hinv) as Hfc.
  pose proof (streak_le pre) as Hle.
  replace (Z.of_nat (length pre) - T + 1)
    with (Z.of_nat (length pre - streak pre)) by lia.
  rewrite !iloc_nth by (rewrite length_app; cbn [length]; lia).
  assert (Hnth : forall rest,
             nth_error (pre ++ r :: rest) (length pre - streak pre)
             = nth_error (pre ++ [r]) (length pre - streak pre)).
  { intros rest. change (r :: rest) with ([r] ++ rest).
    rewrite app_assoc. apply nth_error_app1.
    rewrite length_app. cbn [length]. lia. }
  now rewrite (Hnth rest1), (Hnth rest2).
Qed.

Lemma iterrows_same_prefix T rows : forall pre rest1 rest2 st,
  detector_inv T (pre ++ rows ++ rest1) pre st ->
  iterrows T (pre ++ rows ++ rest1) (Z.of_nat (length pre)) rows st
  = iterrows T (pre ++ rows ++ rest2) (Z.of_nat (length pre)) rows st.
Proof.
  induction rows as [|r rows IH]; intros pre rest1 rest2 st Hinv; [reflexivity|].
  change ((r :: rows) ++ rest1) with (r :: rows ++ rest1) in *.
  change ((r :: rows) ++ rest2) with (r :: rows ++ rest2).
  cbn [iterrows].
  rewrite <- (detector_step_same_prefix T pre r (rows ++ rest1) (rows ++ rest2) st Hinv).
  destruct (detector_step_inv T pre r (rows ++ rest1) st Hinv) as (st1 & Hstep & Hinv1).
  rewrite Hstep.
  assert (E1 : pre ++ r :: rows ++ rest1 = (pre ++ [r]) ++ rows ++ rest1)
    by now rewrite <- app_assoc.
  assert (E2 : pre ++ r :: rows ++ rest2 = (pre ++ [r]) ++ rows ++ rest2)
    by now rewrite <- app_assoc.
  rewrite E1 in Hinv1. rewrite E1, E2.
  replace (Z.of_nat (length pre) + 1) with (Z.of_nat (length (pre ++ [r])))
    by (rewrite length_app; cbn [length]; lia).
  now apply IH.
Qed.

(** The loop only ever appends to the list of disconnections. *)
Lemma iterrows_grows T df rows : forall i st st',
  iterrows T df i rows st = Some st' ->
  exists more, disconnections st' = disconnections st ++ more.
Proof.
  induction rows as [|r rows IH]; intros i st st' H; cbn [iterrows] in H.
  - inversion H; subst. exists []. now rewrite app_nil_r.
  - destruct (detector_step T df i r st) as [st1|] eqn:Hstep; [|discriminate].
    destruct (IH _ _ _ H) as (more & Hmore).
    assert (H1 : exists m1, disconnections st1 = disconnections st ++ m1).
    { unfold detector_step in Hstep. destruct (r_result r).
      - destruct (current_disconnection st); inversion Hstep; cbn;
          [eexists; reflexivity|exists []; now rewrite app_nil_r].
      - exists []. rewrite app_nil_r.
        destruct (failure_count st + 1 =? T).
        + destruct (iloc df (i - T + 1)); inversion Hstep; reflexivity.
        + destruct (failure_count st + 1 >? T).
          * destruct (current_disconnection st); inversion Hstep; reflexivity.
          * inversion Hstep; reflexivity. }
    destruct H1 as (m1 & Hm1). exists (m1 ++ more).
    now rewrite Hmore, Hm1, app_assoc.
Qed.

(** When a log ends with fewer than [T] failures, or [T] is below 1, the
    disconnections found in it are found again, unchanged and in the same
    places, at the head of the list for any log that continues it. *)
Theorem disconnections_extend host pre post T :
  pre <> [] ->
  Z.of_nat (streak (DataFrame pre)) < T \/ T < 1 ->
  exists r r' more,
    analyze_ping_data host pre T = Some r /\
    analyze_ping_data host (pre ++ post) T = Some r' /\
    res_disconnections r' = res_disconnections r ++ more.
Proof.
  intros Hne Hend.
  assert (Hne' : pre ++ post <> []) by (destruct pre; [congruence|discriminate]).
  destruct (analyze_ping_data_returns host pre T Hne) as (r & Hr & _ & Hd & _).
  destruct (analyze_ping_data_returns host (pre ++ post) T Hne') as (r' & Hr' & _ & Hd' & _).
  exists r, r'.
  set (dpre := DataFrame pre) in *. set (dpost := DataFrame post).
  assert (Hdf : DataFrame (pre ++ post) = dpre ++ dpost)
    by (unfold DataFrame; apply map_app).
  rewrite Hdf in Hd'.
  (* the loop on the short log *)
  destruct (detect_disconnections_final T dpre)
    as (st & Hst & Hinv & [(Hth & Hcur & Hfin)|(Hth & _)]).
  2:{ apply threshold_met_true in Hth. lia. }
  rewrite Hd in Hfin. inversion Hfin as [Hds].
  (* the same rows at the head of the long log *)
  pose proof (iterrows_same_prefix T dpre [] [] dpost detector_init) as Hsame.
  cbn [app length] in Hsame. rewrite app_nil_r in Hsame.
  change (Z.of_nat 0) with 0 in Hsame.
  specialize (Hsame (detector_inv_init T dpre)).
  unfold detector_loop in Hst. rewrite Hst in Hsame. symmetry in Hsame.
  (* the rest of the long log *)
  destruct (detect_disconnections_final T (dpre ++ dpost))
    as (st' & Hst' & _ & Hcases).
  unfold detector_loop in Hst'. rewrite iterrows_app, Hsame in Hst'.
  destruct (iterrows_grows _ _ _ _ _ _ Hst') as (more & Hmore).
  destruct Hcases as [(_ & _ & Hfin')|(_ & o & p & last & _ & _ & Hfin' & _)];
    rewrite Hd' in Hfin'; inversion Hfin' as [Hds'].
  - exists more. split; [exact Hr|]. split; [exact Hr'|]. congruence.
  - exists (more ++ [close_run o (r_timestamp last)]).
    split; [exact Hr|]. split; [exact Hr'|].
    rewrite Hds', Hmore, Hds, app_assoc. reflexivity.
Qed.

Lemma disconnections_extend_witness :
  firstn 6 sample_events <> [] /\
  (Z.of_nat (streak (DataFrame (firstn 6 sample_events))) < 3 \/ 3 < 1) /\
  exists r r' more,
    analyze_ping_data "10.0.0.1" (firstn 6 sample_events) 3 = Some r /\
    analyze_ping_data "10.0.0.1"
      (firstn 6 sample_events ++ skipn 6 sample_events) 3 = Some r' /\
    res_disconnections r' = res_disconnections r ++ more.
Proof.
  assert (H1 : firstn 6 sample_events <> []) by (vm_compute; discriminate).
  assert (H2 : Z.of_nat (streak (DataFrame (firstn 6 sample_events))) < 3 \/ 3 < 1)
    by (left; vm_compute; reflexivity).
  split; [exact H1|]. split; [exact H2|].
  exact (disconnections_extend "10.0.0.1" (firstn 6 sample_events)
           (skipn 6 sample_events) 3 H1 H2).
Defined.
